(** * cloud_metric: publishing dashboard metrics to Cloud Monitoring

    A shallow embedding of [dashboard/dashboard/common/cloud_metric.py].

    The module formats labelled, timestamped points and hands them to the
    Cloud Monitoring client.  Everything it touches outside itself (the
    client constructor, the [create_time_series] RPC, the wall clock,
    [uuid.uuid4], [app_identity], [logging]) is an effect; the embedding
    threads a [world] through a small state-and-exception monad and reads
    the outcome of every external call from an environment [env] indexed by
    the number of external calls made so far.

    Python floats are IEEE 754 binary64 values; they are modelled by the
    standard library's [spec_float] with [prec = 53] and [emax = 1024], so
    that [now - seconds] and [... * 10**9] round exactly as the interpreter
    does.  The message constructors of the client library check their
    fields ([int64] seconds, [int32] nanos, a double value); they are
    functions that may raise, since the module calls them outside its
    [try] block. *)

From Stdlib Require Import ZArith Lia QArith Qround Qabs Floats.SpecFloat.
From stdpp Require Import gmap strings list.

Local Open Scope Z_scope.

(** ** Binary64 arithmetic *)

Module B64.

Definition sub : spec_float -> spec_float -> spec_float := SFsub 53 1024.
Definition mul : spec_float -> spec_float -> spec_float := SFmul 53 1024.
Definition leb : spec_float -> spec_float -> bool := SFleb.

(** Nearest double of an integer (ties to even), as [PyLong_AsDouble]
    computes it; an integer beyond the double range gives an infinity. *)
Definition of_Z (z : Z) : spec_float := binary_normalize 53 1024 z 0 false.

Definition zero : spec_float := S754_zero false.

(** The double 1.0. *)
Definition one : spec_float := S754_finite false 4503599627370496 (-52).

(** A finite, non-negative, well-formed double. *)
Definition nonneg_double (f : spec_float) : bool :=
  match f with
  | S754_zero false => true
  | S754_finite false m e => bounded 53 1024 m e
  | _ => false
  end.

(** A reading of [time.time()] that a protobuf [Timestamp] can hold: a
    finite, non-negative, well-formed double whose whole seconds are
    below [2^63], the bound of the [int64] field [seconds]. *)
Definition valid_time (f : spec_float) : bool :=
  match f with
  | S754_zero false => true
  | S754_finite false m e =>
      bounded 53 1024 m e && (Z.shiftl (Z.pos m) e <? 2 ^ 63)
  | _ => false
  end.

(** The rational denoted by a finite double. *)
Definition to_Q (f : spec_float) : Q :=
  match f with
  | S754_finite s m e =>
      if 0 <=? e then inject_Z (cond_Zopp s (Z.pos m) * 2 ^ e)
      else Qmake (cond_Zopp s (Z.pos m)) (Z.to_pos (2 ^ (- e)))
  | _ => 0%Q
  end.

(** State of the rounding shifter of [SpecFloat] after [k] one-bit right
    shifts of [m]: quotient, round bit, sticky bit. *)
Definition shr_state (m : Z) (k : positive) : shr_record :=
  let rem := m mod 2 ^ Z.pos k in
  Build_shr_record (m / 2 ^ Z.pos k)
    (2 ^ (Z.pos k - 1) <=? rem)
    (negb ((rem =? 0) || (rem =? 2 ^ (Z.pos k - 1)))).

(** [m / 2^k] rounded to nearest, ties to even. *)
Definition rne (m : Z) (k : positive) : Z :=
  round_nearest_even (shr_m (shr_state m k)) (loc_of_shr_record (shr_state m k)).

(** The second normalisation step of [binary_round_aux]. *)
Definition renorm (s : bool) (m e : Z) : spec_float :=
  let '(mrs, e') := shr_fexp 53 1024 m e loc_Exact in
  match shr_m mrs with
  | Z0 => S754_zero s
  | Zpos p => if e' <=? 1024 - 53 then S754_finite s p e' else S754_infinity s
  | Zneg _ => S754_nan
  end.

(** Mantissa of the double [1e9 = m9 * 2^-23]. *)
Definition m9 : positive := 8388608000000000.

End B64.

(** ** Python values, exceptions and results *)

(** An exception object: its class name and whether the class derives from
    [Exception] (what an [except Exception] clause tests).  Classes such as
    [KeyboardInterrupt] and [SystemExit] derive from [BaseException] only. *)
Record exn := Exn { exn_class : string; exn_is_Exception : bool }.

Definition ValueError : exn := Exn "ValueError" true.
Definition OverflowError : exn := Exn "OverflowError" true.
Definition TypeError : exn := Exn "TypeError" true.
Definition KeyboardInterrupt : exn := Exn "KeyboardInterrupt" false.

Inductive result (A : Type) : Type :=
| Ok (a : A)
| Raise (e : exn).
Arguments Ok {A} a.
Arguments Raise {A} e.

(** A Python number as the module handles them: [int] or [float]. *)
Inductive number : Type :=
| PyInt (z : Z)
| PyFloat (f : spec_float).

(** [int(x)] for a float [x]: truncation toward zero. *)
Definition int_of_float (f : spec_float) : result Z :=
  match f with
  | S754_zero _ => Ok 0
  | S754_finite s m e => Ok (cond_Zopp s (Z.shiftl (Z.pos m) e))
  | S754_infinity _ => Raise OverflowError
  | S754_nan => Raise ValueError
  end.

(** The implicit [int -> float] conversion of mixed arithmetic. *)
Definition float_of_int (z : Z) : result spec_float :=
  match B64.of_Z z with
  | S754_infinity _ => Raise OverflowError
  | f => Ok f
  end.

(** The double a number becomes in a protobuf [double_value] field: a
    float is kept, an int is converted as by [float(x)], which raises
    [OverflowError] for an int beyond the double range. *)
Definition as_double (x : number) : result spec_float :=
  match x with
  | PyInt z => float_of_int z
  | PyFloat f => Ok f
  end.

(** The value of a call, given or defaulting to 1, fits a [double_value]
    field. *)
Definition value_ok (metric_value : option number) : bool :=
  match as_double (default (PyInt 1) metric_value) with
  | Ok _ => true
  | Raise _ => false
  end.

Definition result_bind {A B} (r : result A) (f : A -> result B) : result B :=
  match r with
  | Ok a => f a
  | Raise e => Raise e
  end.

(** [x - z] and [x * z] for a float [x] and an int [z]. *)
Definition float_sub_int (x : spec_float) (z : Z) : result spec_float :=
  result_bind (float_of_int z) (fun y => Ok (B64.sub x y)).

Definition float_mul_int (x : spec_float) (z : Z) : result spec_float :=
  result_bind (float_of_int z) (fun y => Ok (B64.mul x y)).

(** Lines 107-108 of the publish primitive,
    [seconds = int(now)] and [nanos = int((now - seconds) * 10**9)]:
    the whole seconds and the nanosecond remainder of a clock reading. *)
Definition end_time (now : spec_float) : result (Z * Z) :=
  result_bind (int_of_float now) (fun seconds =>
  result_bind (float_sub_int now seconds) (fun frac =>
  result_bind (float_mul_int frac (10 ^ 9)) (fun scaled =>
  result_bind (int_of_float scaled) (fun nanos =>
  Ok (seconds, nanos))))).

(** ** Module constants *)

Definition METRIC_TYPE_PREFIX : string := "custom.googleapis.com/".
Definition RESOURCE_TYPE : string := "generic_task".
Definition LOCATION : string := "us-central1".
Definition NAMESPACE : string := "Prod".
Definition DEFAULT_TASK_ID : string := "task_id".
Definition JOB_ID : string := "job_id".
Definition JOB_TYPE : string := "job_type".
Definition JOB_STATUS : string := "job_status".
Definition API_METRIC_TYPE : string := "api/metrics".
Definition API_NAME : string := "api_name".
Definition REQUEST_STATUS : string := "request_status".
Definition RUN_TIME : string := "run_time".
Definition UUID : string := "uuid".

(** ** Monitoring messages *)

(** Ranges of the protobuf field types [int64] and [int32]. *)
Definition in_int64 (z : Z) : bool := (- 2 ^ 63 <=? z) && (z <? 2 ^ 63).
Definition in_int32 (z : Z) : bool := (- 2 ^ 31 <=? z) && (z <? 2 ^ 31).

(** [monitoring_v3.TimeInterval({"end_time": {"seconds": s, "nanos": n}})]:
    the fields of the [Timestamp] are [int64 seconds] and [int32 nanos];
    the constructor raises [ValueError] for a value out of range. *)
Definition TimeInterval_new (seconds nanos : Z) : result (Z * Z) :=
  if in_int64 seconds && in_int32 nanos then Ok (seconds, nanos)
  else Raise ValueError.

(** A point as the message holds it: the end time of its interval and the
    double of its [TypedValue]. *)
Record Point := {
  end_seconds : Z;
  end_nanos : Z;
  double_value : spec_float
}.

(** [monitoring_v3.Point({"interval": interval, "value": {"double_value": v}})]:
    the field is a double, and the constructor converts [v]. *)
Definition Point_new (interval : Z * Z) (value : number) : result Point :=
  result_bind (as_double value) (fun d =>
  Ok {| end_seconds := fst interval; end_nanos := snd interval;
        double_value := d |}).

Record TimeSeries := {
  metric_type : string;
  metric_labels : gmap string string;
  resource_type : string;
  resource_labels : gmap string string;
  points : list Point
}.

(** [monitoring_v3.TimeSeries()] *)
Definition TimeSeries_new : TimeSeries :=
  {| metric_type := ""; metric_labels := ∅; resource_type := "";
     resource_labels := ∅; points := [] |}.

Definition set_metric_type (v : string) (s : TimeSeries) : TimeSeries :=
  {| metric_type := v; metric_labels := metric_labels s;
     resource_type := resource_type s; resource_labels := resource_labels s;
     points := points s |}.

Definition set_resource_type (v : string) (s : TimeSeries) : TimeSeries :=
  {| metric_type := metric_type s; metric_labels := metric_labels s;
     resource_type := v; resource_labels := resource_labels s;
     points := points s |}.

Definition set_resource_label (k v : string) (s : TimeSeries) : TimeSeries :=
  {| metric_type := metric_type s; metric_labels := metric_labels s;
     resource_type := resource_type s;
     resource_labels := <[k:=v]> (resource_labels s);
     points := points s |}.

Definition set_metric_label (k v : string) (s : TimeSeries) : TimeSeries :=
  {| metric_type := metric_type s;
     metric_labels := <[k:=v]> (metric_labels s);
     resource_type := resource_type s; resource_labels := resource_labels s;
     points := points s |}.

Definition set_points (ps : list Point) (s : TimeSeries) : TimeSeries :=
  {| metric_type := metric_type s; metric_labels := metric_labels s;
     resource_type := resource_type s; resource_labels := resource_labels s;
     points := ps |}.

(** The arguments of one [create_time_series] call. *)
Record request := {
  req_name : string;
  req_time_series : list TimeSeries
}.

Inductive log_record : Type :=
| LogWarning (fmt : string) (e : exn)
| LogInfo (fmt : string) (service api : string) (secs : spec_float).

(** ** The world and its environment *)

(** Outcome of the [n]-th external call, whichever call it is: the client
    constructor and the RPC may raise, the clock returns a double, and
    [uuid.uuid4] and [app_identity] return strings. *)
Record env := {
  new_client : nat -> option exn;
  backend : nat -> request -> option exn;
  wall_clock : nat -> spec_float;
  uuid4 : nat -> string;
  application_id : nat -> string
}.

Record world := {
  tick : nat;
  outbox : list request;
  log : list log_record
}.

Definition M (A : Type) : Type := world -> result A * world.

Definition ret {A} (a : A) : M A := fun w => (Ok a, w).

Definition raise {A} (e : exn) : M A := fun w => (Raise e, w).

Definition bind {A B} (m : M A) (f : A -> M B) : M B :=
  fun w =>
    match m w with
    | (Ok a, w') => f a w'
    | (Raise e, w') => (Raise e, w')
    end.

Definition lift {A} (r : result A) : M A := fun w => (r, w).

Notation "x <- m ;; k" := (bind m (fun x => k))
  (at level 100, m at next level, right associativity).
Notation "m ;;; k" := (bind m (fun _ => k))
  (at level 100, right associativity).

(** [try: body / except Exception as e: handler e] *)
Definition try_except_Exception {A} (body : M A) (handler : exn -> M A) : M A :=
  fun w =>
    match body w with
    | (Raise e, w') => if exn_is_Exception e then handler e w' else (Raise e, w')
    | r => r
    end.

(** The [with] statement of PEP 343 around a body that ends in [return]:
    [Some a] is the value returned from inside the block, [None] is the
    fall-through after [__exit__] suppressed the block's exception. *)
Definition with_stmt {S A} (enter : M S)
    (exit : S -> option exn -> M (bool * S)) (body : M A) : M (option A) :=
  fun w =>
    match enter w with
    | (Raise e, w1) => (Raise e, w1)
    | (Ok self, w1) =>
        match body w1 with
        | (Ok a, w2) =>
            match exit self None w2 with
            | (Ok _, w3) => (Ok (Some a), w3)
            | (Raise e', w3) => (Raise e', w3)
            end
        | (Raise e, w2) =>
            match exit self (Some e) w2 with
            | (Ok (true, _), w3) => (Ok None, w3)
            | (Ok (false, _), w3) => (Raise e, w3)
            | (Raise e', w3) => (Raise e', w3)
            end
        end
    end.

Definition next (w : world) : world :=
  {| tick := S (tick w); outbox := outbox w; log := log w |}.

Section Effects.
Variable E : env.

(** [monitoring_v3.MetricServiceClient()] *)
Definition MetricServiceClient : M unit :=
  fun w =>
    (match new_client E (tick w) with
     | None => Ok tt
     | Some e => Raise e
     end, next w).

(** [client.create_time_series(name=..., time_series=...)] *)
Definition create_time_series (name : string) (ts : list TimeSeries) : M unit :=
  fun w =>
    let r := {| req_name := name; req_time_series := ts |} in
    (match backend E (tick w) r with
     | None => Ok tt
     | Some e => Raise e
     end,
     {| tick := S (tick w); outbox := outbox w ++ [r]; log := log w |}).

(** [time.time()] *)
Definition time_time : M spec_float :=
  fun w => (Ok (wall_clock E (tick w)), next w).

(** [str(uuid.uuid4())] *)
Definition uuid4_str : M string :=
  fun w => (Ok (uuid4 E (tick w)), next w).

(** [app_identity.get_application_id()] *)
Definition get_application_id : M string :=
  fun w => (Ok (application_id E (tick w)), next w).

Definition logging_emit (r : log_record) : M unit :=
  fun w => (Ok tt, {| tick := tick w; outbox := outbox w; log := log w ++ [r] |}).

Definition _PublishTSCloudMetric (project_id service_name metric_type : string)
    (label_dict : gmap string string) (metric_value : option number) : M unit :=
  let metric_value := default (PyInt 1) metric_value in
  client <- MetricServiceClient ;;
  let project_name := ("projects/" +:+ project_id)%string in
  let series := TimeSeries_new in
  let series := set_metric_type (METRIC_TYPE_PREFIX +:+ metric_type) series in
  let series := set_resource_type RESOURCE_TYPE series in
  let series := set_resource_label "project_id" project_id series in
  let series := set_resource_label "location" LOCATION series in
  let series := set_resource_label "namespace" NAMESPACE series in
  let series := set_resource_label "job" service_name series in
  let series := set_resource_label "task_id" DEFAULT_TASK_ID series in
  let series := map_fold set_metric_label series label_dict in
  now <- time_time ;;
  t <- lift (end_time now) ;;
  interval <- lift (TimeInterval_new (fst t) (snd t)) ;;
  point <- lift (Point_new interval metric_value) ;;
  let series := set_points [point] series in
  try_except_Exception
    (create_time_series project_name [series])
    (fun e => logging_emit
       (LogWarning "Publish data to Cloud Monitoring failed. Error: %s" e)).

Definition job_label_dict (job_id job_type job_status : string) : gmap string string :=
  <[JOB_STATUS:=job_status]> (<[JOB_TYPE:=job_type]> (<[JOB_ID:=job_id]> ∅)).

Definition PublishFrozenJobMetric (project_id job_id job_type job_status : string)
    (metric_value : option number) : M unit :=
  let metric_value := default (PyInt 1) metric_value in
  let label_dict := job_label_dict job_id job_type job_status in
  _PublishTSCloudMetric project_id "pinpoint" "pinpoint/job/frozen_job"
    label_dict (Some metric_value).

Definition PublishPinpointJobStatusMetric (project_id job_id job_type job_status : string)
    (metric_value : option number) : M unit :=
  let metric_value := default (PyInt 1) metric_value in
  let label_dict := job_label_dict job_id job_type job_status in
  _PublishTSCloudMetric project_id "pinpoint" "pinpoint/job/status_change"
    label_dict (Some metric_value).

Definition PublishPinpointJobRunTimeMetric (project_id job_id job_type job_status : string)
    (metric_value : number) : M unit :=
  let label_dict := job_label_dict job_id job_type job_status in
  _PublishTSCloudMetric project_id "pinpoint" "pinpoint/job/run_time"
    label_dict (Some metric_value).

Definition PublishPinpointJobDetailMetrics (project_id job_id job_type job_status : string)
    (change_count attempt_count : number) (difference_count : option number) : M unit :=
  let difference_count := default (PyInt 1) difference_count in
  let label_dict := job_label_dict job_id job_type job_status in
  _PublishTSCloudMetric project_id "pinpoint"
    "pinpoint/job/change_count_per_job" label_dict (Some change_count) ;;;
  _PublishTSCloudMetric project_id "pinpoint"
    "pinpoint/job/attempt_count_per_job" label_dict (Some attempt_count) ;;;
  _PublishTSCloudMetric project_id "pinpoint"
    "pinpoint/job/difference_count_per_job" label_dict (Some difference_count).

(** *** class APIMetricLogger *)

Record APIMetricLogger := {
  _service_name : string;
  _api_name : string;
  _start : option spec_float;
  seconds : number
}.

Definition __init__ (service_name api_name : string) : APIMetricLogger :=
  {| _service_name := service_name; _api_name := api_name;
     _start := None; seconds := PyInt 0 |}.

Definition _Now : M spec_float := time_time.

Definition api_label_dict (api_name status token : string) : gmap string string :=
  <[UUID:=token]> (<[REQUEST_STATUS:=status]> (<[API_NAME:=api_name]> ∅)).

(** The methods mutate [self]; the embedding returns the object as it is
    after the call ([__enter__] itself returns [None], and the [with]
    statement binds nothing). *)
Definition __enter__ (self : APIMetricLogger) : M APIMetricLogger :=
  t <- _Now ;;
  let self := {| _service_name := _service_name self; _api_name := _api_name self;
                 _start := Some t; seconds := seconds self |} in
  token <- uuid4_str ;;
  let label_dict := api_label_dict (_api_name self) "started" token in
  app <- get_application_id ;;
  _PublishTSCloudMetric app (_service_name self) API_METRIC_TYPE label_dict None ;;;
  ret self.

Definition __exit__ (self : APIMetricLogger) (exception : option exn)
    : M (bool * APIMetricLogger) :=
  match exception with
  | None =>
      t <- _Now ;;
      start <- match _start self with
               | Some s => ret s
               | None => raise TypeError
               end ;;
      let secs := B64.sub t start in
      let self := {| _service_name := _service_name self; _api_name := _api_name self;
                     _start := _start self; seconds := PyFloat secs |} in
      logging_emit (LogInfo "%s:%s=%f" (_service_name self) (_api_name self) secs) ;;;
      token <- uuid4_str ;;
      let label_dict := api_label_dict (_api_name self) "completed" token in
      app <- get_application_id ;;
      _PublishTSCloudMetric app (_service_name self) API_METRIC_TYPE label_dict
        (Some (seconds self)) ;;;
      ret (true, self)
  | Some _ =>
      token <- uuid4_str ;;
      let label_dict := api_label_dict (_api_name self) "failed" token in
      app <- get_application_id ;;
      _PublishTSCloudMetric app (_service_name self) API_METRIC_TYPE label_dict None ;;;
      ret (false, self)
  end.

(** [with APIMetricLogger(service_name, api_name): return body] *)
Definition scoped {A} (service_name api_name : string) (body : M A) : M (option A) :=
  with_stmt (__enter__ (__init__ service_name api_name)) __exit__ body.

(** The decorator: [APIMetric(service_name, api_name)(wrapped)] is
    [Wrapper]. *)
Definition APIMetric {Args A} (service_name api_name : string)
    (wrapped : Args -> M A) : Args -> M (option A) :=
  fun a => scoped service_name api_name (wrapped a).

End Effects.

(** ** Well-behaved environments *)

(** The monitoring client can always be constructed. *)
Definition clients_ok (E : env) : Prop := forall n, new_client E n = None.

(** Every clock reading is a valid time. *)
Definition clock_ok (E : env) : Prop :=
  forall n, B64.valid_time (wall_clock E n) = true.

(** Whatever the backend raises derives from [Exception]. *)
Definition backend_ok (E : env) : Prop :=
  forall n r e, backend E n r = Some e -> exn_is_Exception e = true.

Definition WARNING_FORMAT : string :=
  "Publish data to Cloud Monitoring failed. Error: %s".

(** The label map of a job metric carries exactly the three job keys, bound
    to the caller's strings. *)
Definition job_labels_of (job_id job_type job_status : string)
    (labels : gmap string string) : Prop :=
  dom labels = ({["job_id"; "job_type"; "job_status"]} : gset string) /\
  labels !! "job_id" = Some job_id /\
  labels !! "job_type" = Some job_type /\
  labels !! "job_status" = Some job_status.

(** ** Sample environments *)

Module Sample.

(** 1700000000.25 and 1700000001.75 seconds since the epoch. *)
Definition t_entry : spec_float := S754_finite false 7130316801048576 (-22).
Definition t_later : spec_float := S754_finite false 7130316807340032 (-22).

Definition clock (n : nat) : spec_float :=
  match n with
  | O => t_entry
  | _ => t_later
  end.

(** Everything works. *)
Definition env_ok : env :=
  {| new_client := fun _ => None;
     backend := fun _ _ => None;
     wall_clock := clock;
     uuid4 := fun _ => "6f1c0d1e-5b0a-4c57-9d0e-2f4c8a3b7e11";
     application_id := fun _ => "chromeperf" |}.

(** The backend is unavailable. *)
Definition ServiceUnavailable : exn := Exn "ServiceUnavailable" true.

Definition env_unavailable : env :=
  {| new_client := fun _ => None;
     backend := fun _ _ => Some ServiceUnavailable;
     wall_clock := clock;
     uuid4 := fun _ => "6f1c0d1e-5b0a-4c57-9d0e-2f4c8a3b7e11";
     application_id := fun _ => "chromeperf" |}.

(** The process is interrupted while the request is in flight. *)
Definition env_interrupted : env :=
  {| new_client := fun _ => None;
     backend := fun _ _ => Some KeyboardInterrupt;
     wall_clock := clock;
     uuid4 := fun _ => "6f1c0d1e-5b0a-4c57-9d0e-2f4c8a3b7e11";
     application_id := fun _ => "chromeperf" |}.

(** No credentials: the client cannot be constructed. *)
Definition DefaultCredentialsError : exn := Exn "DefaultCredentialsError" true.

Definition env_no_client : env :=
  {| new_client := fun _ => Some DefaultCredentialsError;
     backend := fun _ _ => None;
     wall_clock := clock;
     uuid4 := fun _ => "6f1c0d1e-5b0a-4c57-9d0e-2f4c8a3b7e11";
     application_id := fun _ => "chromeperf" |}.

(** A clock far in the future: every reading is [2^63] seconds. *)
Definition env_far_future : env :=
  {| new_client := fun _ => None;
     backend := fun _ _ => None;
     wall_clock := fun _ => S754_finite false 4503599627370496 11;
     uuid4 := fun _ => "6f1c0d1e-5b0a-4c57-9d0e-2f4c8a3b7e11";
     application_id := fun _ => "chromeperf" |}.

Definition w0 : world := {| tick := 0; outbox := []; log := [] |}.

(** A wrapped callable that raises, and one that returns. *)
Definition failing (_ : unit) : M Z := raise ValueError.
Definition answering (_ : unit) : M Z := ret 42.

End Sample.

(** ** Further environment properties and samples *)

(** [uuid.uuid4] never returns the same token twice. *)
Definition uuid_fresh (E : env) : Prop :=
  forall m n : nat, uuid4 E m = uuid4 E n -> m = n.

(** The API metric label map carries exactly the three API keys. *)
Definition api_labels_of (api status token : string)
    (labels : gmap string string) : Prop :=
  dom labels = ({["api_name"; "request_status"; "uuid"]} : gset string) /\
  labels !! "api_name" = Some api /\
  labels !! "request_status" = Some status /\
  labels !! "uuid" = Some token.

Definition is_warning (r : log_record) : Prop :=
  exists e, r = LogWarning WARNING_FORMAT e.

Module Sample2.

(** A token that is different at every call. *)
Fixpoint token (n : nat) : string :=
match n with
| O => "f"
| S k => ("0" +:+ token k)%string
end.

Definition env_fresh : env :=
{| new_client := fun _ => None;
   backend := fun _ _ => None;
   wall_clock := Sample.clock;
   uuid4 := token;
   application_id := fun _ => "chromeperf" |}.

(** The client can be constructed except at the [n]-th external call. *)
Definition env_client_fails_at (n : nat) : env :=
{| new_client := fun k => if Nat.eqb k n then Some Sample.DefaultCredentialsError
                          else None;
   backend := fun _ _ => None;
   wall_clock := Sample.clock;
   uuid4 := token;
   application_id := fun _ => "chromeperf" |}.

(** A clock set before the epoch: -1.5 seconds. *)
Definition env_before_epoch : env :=
{| new_client := fun _ => None;
   backend := fun _ _ => None;
   wall_clock := fun _ => S754_finite true 6755399441055744 (-52);
   uuid4 := token;
   application_id := fun _ => "chromeperf" |}.

(** A clock that advances by a quarter of a second at every external
  call, starting at 1700000000.5. *)
Definition env_ticking : env :=
{| new_client := fun _ => None;
   backend := fun _ _ => None;
   wall_clock := fun n =>
     S754_finite false (7130316801048576 + Pos.of_succ_nat n * 1048576) (-22);
   uuid4 := token;
   application_id := fun _ => "chromeperf" |}.

(** A broken clock: every reading is [nan]. *)
Definition env_clock_nan : env :=
{| new_client := fun _ => None;
   backend := fun _ _ => None;
   wall_clock := fun _ => S754_nan;
   uuid4 := token;
   application_id := fun _ => "chromeperf" |}.

End Sample2.

(** The request the publish primitive builds from its arguments and the
    split clock reading [t]; [publish_ok_full] shows that this is what
    [_PublishTSCloudMetric] sends. *)
Definition request_for (project service mtype : string)
    (labels : gmap string string) (value : spec_float) (t : Z * Z) : request :=
  {| req_name := ("projects/" +:+ project)%string;
     req_time_series :=
       [ {| metric_type := (METRIC_TYPE_PREFIX +:+ mtype)%string;
            metric_labels := labels;
            resource_type := RESOURCE_TYPE;
            resource_labels :=
              <["task_id":=DEFAULT_TASK_ID]> (<["job":=service]>
                (<["namespace":=NAMESPACE]> (<["location":=LOCATION]>
                  (<["project_id":=project]> ∅))));
            points := [ {| end_seconds := fst t; end_nanos := snd t;
                           double_value := value |} ] |} ] |}.

(** * Facts about binary64 arithmetic *)

(** [digits2_pos] is the bit length of a positive number. *)
Lemma digits2_pos_size (p : positive) : digits2_pos p = Pos.size p.
Proof. induction p; simpl; congruence. Qed.

(** A number with [d] binary digits lies in [[2^(d-1), 2^d)]. *)
Lemma digits2_pos_bounds (p : positive) :
  2 ^ (Z.pos (digits2_pos p) - 1) <= Z.pos p < 2 ^ Z.pos (digits2_pos p).
Proof.
  rewrite digits2_pos_size.
  pose proof (Pos.size_gt p) as Hgt. pose proof (Pos.size_le p) as Hle.
  apply Pos2Z.pos_lt_pos in Hgt. apply Pos2Z.pos_le_pos in Hle.
  rewrite Pos2Z.inj_pow in Hgt, Hle.
  replace (Z.pos (Pos.size p)) with (Z.succ (Z.pos (Pos.size p) - 1)) in Hle at 1 by lia.
  rewrite Z.pow_succ_r in Hle by lia.
  change (Z.pos p~0) with (2 * Z.pos p) in Hle. lia.
Qed.

Lemma digits2_pos_unique (p : positive) (d : Z) :
  2 ^ (d - 1) <= Z.pos p < 2 ^ d -> Z.pos (digits2_pos p) = d.
Proof.
  intros [Hlo Hhi]. pose proof (digits2_pos_bounds p) as [Hlo' Hhi'].
  assert (0 < d).
  { destruct (Z_lt_le_dec 0 d); [done|].
    destruct (Z.eq_dec d 0) as [->|]; [simpl in Hhi; lia|].
    rewrite Z.pow_neg_r in Hhi by lia. lia. }
  destruct (Z_lt_le_dec (Z.pos (digits2_pos p)) d) as [Hlt|Hge].
  - assert (2 ^ Z.pos (digits2_pos p) <= 2 ^ (d - 1)) by (apply Z.pow_le_mono_r; lia). lia.
  - destruct (Z.eq_dec (Z.pos (digits2_pos p)) d); [done|].
    assert (2 ^ d <= 2 ^ (Z.pos (digits2_pos p) - 1)) by (apply Z.pow_le_mono_r; lia). lia.
Qed.

(** [SpecFloat]'s iterator agrees with [Pos.iter]. *)
Lemma iter_pos_eq {A} (f : A -> A) (p : positive) (x : A) :
  SpecFloat.iter_pos f p x = Pos.iter f x p.
Proof.
  revert x. induction p; intros x; simpl.
  - rewrite !IHp. by rewrite <- !Pos.iter_swap.
  - by rewrite !IHp.
  - done.
Qed.

(** Shifting a mantissa left by [d] bits multiplies it by [2^d]. *)
Lemma pos_iter_xO (m d : positive) : Z.pos (Pos.iter xO m d) = Z.pos m * 2 ^ Z.pos d.
Proof.
  induction d using Pos.peano_ind.
  - simpl. lia.
  - rewrite Pos.iter_succ, Pos2Z.inj_succ, Z.pow_succ_r by lia.
    change (Z.pos (Pos.iter xO m d)~0) with (2 * Z.pos (Pos.iter xO m d)). lia.
Qed.

(** One step of the rounding shifter on a non-negative mantissa. *)
Lemma shr_1_nonneg (m : Z) (r s : bool) :
  0 <= m ->
  shr_1 (Build_shr_record m r s) = Build_shr_record (m / 2) (Z.odd m) (r || s).
Proof.
  intros Hm. destruct m as [|p|p]; [done| |lia].
  destruct p as [p|p|]; simpl.
  - f_equal. change (Z.pos p~1) with (2 * Z.pos p + 1).
    apply (Z.div_unique _ _ _ 1); lia.
  - f_equal. change (Z.pos p~0) with (2 * Z.pos p).
    apply (Z.div_unique _ _ _ 0); lia.
  - done.
Qed.

(** [k] steps of the shifter: the quotient by [2^k], and the round and
    sticky bits that locate the remainder against half of [2^k]. *)
Lemma shr_iter (m : Z) (k : positive) :
  0 <= m ->
  SpecFloat.iter_pos shr_1 k (Build_shr_record m false false) = B64.shr_state m k.
Proof.
  intros Hm. rewrite iter_pos_eq.
  apply (Pos.iter_ind _ shr_1 _ (fun k st => st = B64.shr_state m k)).
  - rewrite shr_1_nonneg by done. unfold B64.shr_state. simpl (2 ^ _).
    change (2 ^ 1) with 2.
    pose proof (Z.mod_pos_bound m 2 ltac:(lia)).
    rewrite (Zmod_odd m). destruct (Z.odd m); done.
  - intros p st ->. unfold B64.shr_state.
    assert (0 < 2 ^ Z.pos p) by (apply Z.pow_pos_nonneg; lia).
    rewrite shr_1_nonneg by (apply Z.div_pos; lia).
    rewrite Pos2Z.inj_succ.
    replace (Z.succ (Z.pos p) - 1) with (Z.pos p) by lia.
    rewrite Z.pow_succ_r by lia.
    assert (0 < 2 ^ (Z.pos p - 1)) by (apply Z.pow_pos_nonneg; lia).
    assert (2 ^ Z.pos p = 2 * 2 ^ (Z.pos p - 1)) as Hp.
    { rewrite <- Z.pow_succ_r by lia. f_equal. lia. }
    set (q := m / 2 ^ Z.pos p). set (rem := m mod 2 ^ Z.pos p).
    assert (m = 2 ^ Z.pos p * q + rem) as Hdm by (apply Z.div_mod; lia).
    assert (0 <= rem < 2 ^ Z.pos p) as Hrem by (apply Z.mod_pos_bound; lia).
    assert (0 <= q) by (apply Z.div_pos; lia).
    pose proof (Zmod_odd q) as Hodd.
    pose proof (Z.div_mod q 2 ltac:(lia)) as Hq.
    assert (m / (2 * 2 ^ Z.pos p) = q / 2) as ->.
    { rewrite (Z.mul_comm 2). rewrite <- Z.div_div by lia. done. }
    assert (m mod (2 * 2 ^ Z.pos p) = rem + 2 ^ Z.pos p * (q mod 2)) as ->.
    { rewrite (Z.mul_comm 2), Z.rem_mul_r by lia. fold q rem. lia. }
    f_equal.
    + destruct (Z.odd q); rewrite Hodd; [symmetry; apply Z.leb_le | symmetry; apply Z.leb_gt]; lia.
    + destruct (Z.odd q); rewrite Hodd;
        destruct (Z.leb_spec (2 ^ (Z.pos p - 1)) rem), (Z.eqb_spec rem 0),
          (Z.eqb_spec rem (2 ^ (Z.pos p - 1)));
        match goal with
        | |- context [(?x =? 0) || (?x =? ?y)] =>
            destruct (Z.eqb_spec x 0), (Z.eqb_spec x y)
        end; simpl; try done; lia.
Qed.

(** The exponent of the last place in binary64. *)
Lemma fexp64 (e : Z) : fexp 53 1024 e = Z.max (e - 53) (-1074).
Proof. reflexivity. Qed.

(** Rounding to nearest: the result is the quotient or its successor, and
    it moves up only from the upper half and stays only in the lower half. *)
Lemma rne_spec (m : Z) (k : positive) :
  0 <= m ->
  m / 2 ^ Z.pos k <= B64.rne m k <= m / 2 ^ Z.pos k + 1 /\
  (B64.rne m k = m / 2 ^ Z.pos k + 1 -> 2 ^ Z.pos k <= 2 * (m mod 2 ^ Z.pos k)) /\
  (B64.rne m k = m / 2 ^ Z.pos k -> 2 * (m mod 2 ^ Z.pos k) <= 2 ^ Z.pos k).
Proof.
  intros Hm. unfold B64.rne, B64.shr_state. cbn [shr_m loc_of_shr_record].
  assert (0 < 2 ^ (Z.pos k - 1)) by (apply Z.pow_pos_nonneg; lia).
  assert (2 ^ Z.pos k = 2 * 2 ^ (Z.pos k - 1)) as Hp.
  { rewrite <- Z.pow_succ_r by lia. f_equal. lia. }
  pose proof (Z.mod_pos_bound m (2 ^ Z.pos k) ltac:(lia)) as Hrem.
  set (q := m / 2 ^ Z.pos k) in *. set (rem := m mod 2 ^ Z.pos k) in *.
  destruct (Z.leb_spec (2 ^ (Z.pos k - 1)) rem), (Z.eqb_spec rem 0),
    (Z.eqb_spec rem (2 ^ (Z.pos k - 1))); cbn -[Z.pow Z.add Z.mul];
    try destruct (Z.even q); lia.
Qed.

Lemma shr_fexp_exact (m : positive) (e : Z) :
  fexp 53 1024 (Z.pos (digits2_pos m) + e) <= e ->
  shr_fexp 53 1024 (Z.pos m) e loc_Exact = (Build_shr_record (Z.pos m) false false, e).
Proof.
  intros H. unfold shr_fexp, shr. cbn [Zdigits2 shr_record_of_loc].
  destruct (fexp 53 1024 (Z.pos (digits2_pos m) + e) - e) eqn:E; try done. lia.
Qed.

Lemma shr_fexp_shift (m : positive) (e : Z) (k : positive) :
  fexp 53 1024 (Z.pos (digits2_pos m) + e) - e = Z.pos k ->
  shr_fexp 53 1024 (Z.pos m) e loc_Exact = (B64.shr_state (Z.pos m) k, e + Z.pos k).
Proof.
  intros H. unfold shr_fexp, shr. cbn [Zdigits2 shr_record_of_loc].
  rewrite H. by rewrite shr_iter.
Qed.

(** A mantissa that already fits is not rounded. *)
Lemma binary_round_aux_exact (s : bool) (m : positive) (e : Z) :
  fexp 53 1024 (Z.pos (digits2_pos m) + e) <= e ->
  binary_round_aux 53 1024 s (Z.pos m) e loc_Exact =
    if e <=? 971 then S754_finite s m e else S754_infinity s.
Proof.
  intros H. unfold binary_round_aux. rewrite shr_fexp_exact by done.
  cbn [shr_m loc_of_shr_record round_nearest_even].
  rewrite shr_fexp_exact by done. done.
Qed.

(** A mantissa [k] bits too long is rounded to nearest at bit [k], then
    normalised once more. *)
Lemma binary_round_aux_round (s : bool) (m : positive) (e : Z) (k : positive) :
  fexp 53 1024 (Z.pos (digits2_pos m) + e) - e = Z.pos k ->
  binary_round_aux 53 1024 s (Z.pos m) e loc_Exact =
    B64.renorm s (B64.rne (Z.pos m) k) (e + Z.pos k).
Proof.
  intros H. unfold binary_round_aux. rewrite (shr_fexp_shift _ _ _ H).
  unfold B64.renorm, B64.rne. destruct (shr_fexp 53 1024 _ _ loc_Exact). done.
Qed.

Lemma pow2_pos (n : Z) : 0 <= n -> 0 < 2 ^ n.
Proof. intros. apply Z.pow_pos_nonneg; lia. Qed.

Lemma pow2_split (a b : Z) : 0 <= a -> 0 <= b -> 2 ^ (a + b) = 2 ^ a * 2 ^ b.
Proof. intros. by apply Z.pow_add_r. Qed.

Lemma digits2_pos_le (p : positive) (j : Z) :
  0 <= j -> Z.pos p <= 2 ^ j -> Z.pos (digits2_pos p) <= j + 1.
Proof.
  intros Hj Hp. pose proof (digits2_pos_bounds p) as [Hlo _].
  destruct (Z_lt_le_dec (j + 1) (Z.pos (digits2_pos p))) as [Hlt|]; [|done].
  assert (2 ^ (j + 1) <= 2 ^ (Z.pos (digits2_pos p) - 1)) by (apply Z.pow_le_mono_r; lia).
  rewrite Z.pow_add_r in * by lia. pose proof (pow2_pos j Hj). lia.
Qed.

Lemma digits2_pos_lt (p : positive) (j : Z) :
  0 <= j -> Z.pos p < 2 ^ j -> Z.pos (digits2_pos p) <= j.
Proof.
  intros Hj Hp. pose proof (digits2_pos_bounds p) as [Hlo _].
  destruct (Z_lt_le_dec j (Z.pos (digits2_pos p))) as [Hlt|]; [|done].
  assert (2 ^ j <= 2 ^ (Z.pos (digits2_pos p) - 1)) by (apply Z.pow_le_mono_r; lia).
  lia.
Qed.

(** Truncating a normalised value below [2^53]: the normalisation never
    changes the integer part. *)
Lemma renorm_trunc (s : bool) (m e : Z) :
  0 <= m -> -1074 <= e <= 0 -> Zdigits2 m + e <= 53 ->
  int_of_float (B64.renorm s m e) = Ok (cond_Zopp s (m / 2 ^ (- e))).
Proof.
  intros Hm He Hd. unfold B64.renorm, shr_fexp, shr.
  destruct m as [|p|p]; [| |lia].
  - cbn [Zdigits2 shr_record_of_loc].
    destruct (fexp 53 1024 (0 + e) - e) eqn:E; cbn [shr_m int_of_float].
    + by destruct s.
    + rewrite fexp64 in E. lia.
    + by destruct s.
  - cbn [Zdigits2 shr_record_of_loc] in *.
    pose proof (fexp64 (Z.pos (digits2_pos p) + e)) as Hf.
    destruct (fexp 53 1024 (Z.pos (digits2_pos p) + e) - e) as [|k|k] eqn:E.
    + cbn [shr_m]. replace (e <=? 1024 - 53) with true by (symmetry; apply Z.leb_le; lia).
      cbn [int_of_float]. by rewrite Z.shiftl_div_pow2 by lia.
    + rewrite shr_iter by lia. unfold B64.shr_state. cbn [shr_m].
      assert (e + Z.pos k <= 0) as Hek by lia.
      pose proof (pow2_pos (Z.pos k) ltac:(lia)).
      pose proof (pow2_pos (- (e + Z.pos k)) ltac:(lia)).
      assert (2 ^ (- e) = 2 ^ Z.pos k * 2 ^ (- (e + Z.pos k))) as Hsplit.
      { rewrite <- pow2_split by lia. f_equal. lia. }
      assert (Z.pos p / 2 ^ (- e) = Z.pos p / 2 ^ Z.pos k / 2 ^ (- (e + Z.pos k))) as Hdiv.
      { rewrite Hsplit, Z.div_div by lia. done. }
      pose proof (Z.div_pos (Z.pos p) (2 ^ Z.pos k) ltac:(lia) ltac:(lia)).
      destruct (Z.pos p / 2 ^ Z.pos k) as [|q|q] eqn:Eq; [| |lia].
      * cbn [int_of_float]. rewrite Hdiv, Z.div_0_l by lia. by destruct s.
      * replace (e + Z.pos k <=? 1024 - 53) with true by (symmetry; apply Z.leb_le; lia).
        cbn [int_of_float]. rewrite Z.shiftl_div_pow2 by lia. by rewrite Hdiv.
    + cbn [shr_m]. replace (e <=? 1024 - 53) with true by (symmetry; apply Z.leb_le; lia).
      cbn [int_of_float]. by rewrite Z.shiftl_div_pow2 by lia.
Qed.

(** Truncation of a correctly rounded positive quantity [P * 2^E] below
    [2^52]: the integer obtained lies between the floor and the ceiling of
    the exact quantity. *)
Lemma round_trunc (P : positive) (E : Z) :
  E <= 0 -> Z.pos (digits2_pos P) + E <= 52 ->
  exists N,
    int_of_float (binary_round_aux 53 1024 false (Z.pos P) E loc_Exact) = Ok N /\
    Z.pos P / 2 ^ (- E) <= N /\
    (forall K, Z.pos P <= K * 2 ^ (- E) -> N <= K) /\
    (fexp 53 1024 (Z.pos (digits2_pos P) + E) <= E -> N = Z.pos P / 2 ^ (- E)) /\
    (forall k, fexp 53 1024 (Z.pos (digits2_pos P) + E) - E = Z.pos k ->
       N = B64.rne (Z.pos P) k / 2 ^ (- (E + Z.pos k))).
Proof.
  intros HE Hd.
  pose proof (fexp64 (Z.pos (digits2_pos P) + E)) as Hf.
  pose proof (pow2_pos (- E) ltac:(lia)) as HpE.
  destruct (Z_le_gt_dec (fexp 53 1024 (Z.pos (digits2_pos P) + E)) E) as [Hex|Hrd].
  - exists (Z.pos P / 2 ^ (- E)).
    rewrite binary_round_aux_exact by lia.
    replace (E <=? 971) with true by (symmetry; apply Z.leb_le; lia).
    cbn [int_of_float cond_Zopp]. rewrite Z.shiftl_div_pow2 by lia.
    repeat split; try done; try lia.
    intros K HK. apply Z.div_le_upper_bound; lia.
  - destruct (fexp 53 1024 (Z.pos (digits2_pos P) + E) - E) as [|k|k] eqn:Ek; [lia| |lia].
    rewrite (binary_round_aux_round _ _ _ _ Ek).
    pose proof (rne_spec (Z.pos P) k ltac:(lia)) as (Hr1 & Hr2 & Hr3).
    pose proof (pow2_pos (Z.pos k) ltac:(lia)) as Hpk.
    pose proof (pow2_pos (- (E + Z.pos k)) ltac:(lia)) as Hps.
    assert (2 ^ (- E) = 2 ^ Z.pos k * 2 ^ (- (E + Z.pos k))) as Hsplit.
    { rewrite <- pow2_split by lia. f_equal. lia. }
    pose proof (Z.div_mod (Z.pos P) (2 ^ Z.pos k) ltac:(lia)) as Hdm.
    pose proof (Z.mod_pos_bound (Z.pos P) (2 ^ Z.pos k) ltac:(lia)) as Hrem.
    pose proof (Z.div_pos (Z.pos P) (2 ^ Z.pos k) ltac:(lia) ltac:(lia)) as Hq.
    set (q := Z.pos P / 2 ^ Z.pos k) in *. set (rem := Z.pos P mod 2 ^ Z.pos k) in *.
    set (T := 2 ^ Z.pos k) in *. set (S := 2 ^ (- (E + Z.pos k))) in *.
    exists (B64.rne (Z.pos P) k / S).
    assert (Zdigits2 (B64.rne (Z.pos P) k) + (E + Z.pos k) <= 53) as Hdig.
    { destruct (B64.rne (Z.pos P) k) as [|r|r] eqn:Er; [cbn; lia| |lia].
      cbn [Zdigits2].
      pose proof (digits2_pos_bounds P) as [_ HPhi].
      destruct (Z_lt_le_dec (Z.pos (digits2_pos P)) (Z.pos k)) as [Hlt|Hge].
      - assert (Z.pos P < T).
        { unfold T. assert (2 ^ Z.pos (digits2_pos P) <= 2 ^ Z.pos k)
            by (apply Z.pow_le_mono_r; lia). lia. }
        assert (q = 0) by (apply Z.div_small; lia).
        assert (Z.pos r <= 2 ^ 0) by (simpl; lia).
        pose proof (digits2_pos_le r 0 ltac:(lia) ltac:(done)). lia.
      - assert (q < 2 ^ (Z.pos (digits2_pos P) - Z.pos k)).
        { apply Z.div_lt_upper_bound; [lia|]. fold T. unfold T.
          rewrite <- pow2_split by lia.
          replace (Z.pos k + (Z.pos (digits2_pos P) - Z.pos k)) with (Z.pos (digits2_pos P)) by lia.
          done. }
        pose proof (digits2_pos_le r (Z.pos (digits2_pos P) - Z.pos k) ltac:(lia) ltac:(lia)).
        lia. }
    rewrite renorm_trunc by lia.
    cbn [cond_Zopp]. fold S.
    repeat split.
    + rewrite Hsplit. fold T S. rewrite <- Z.div_div by lia. fold q.
      apply Z.div_le_mono; lia.
    + intros K HK. rewrite Hsplit in HK. fold T S in HK.
      apply Z.div_le_upper_bound; [lia|].
      destruct (Z.eq_dec rem 0) as [Hz|Hnz]; nia.
    + intros Hle. lia.
    + intros k' Hk'. by injection Hk' as <-.
Qed.

Lemma m9_val : Z.pos B64.m9 = 10 ^ 9 * 2 ^ 23.
Proof. reflexivity. Qed.

(** The nanosecond remainder: for a double [frac = fm * 2^fe] below 1,
    [int(frac * 10**9)] lies in [[0, 10^9)] and is within one unit of
    [frac * 10^9]. *)
Lemma nanos_mul (fm : positive) (fe : Z) :
  fe < 0 -> Z.pos fm < 2 ^ (- fe) -> Z.pos fm < 2 ^ 53 ->
  exists N,
    int_of_float (SFmul 53 1024 (S754_finite false fm fe) (S754_finite false B64.m9 (-23))) = Ok N /\
    0 <= N < 10 ^ 9 /\
    - 2 ^ (- fe) < Z.pos fm * 10 ^ 9 - N * 2 ^ (- fe) < 2 ^ (- fe).
Proof.
  intros Hfe Hfm Hfm53. cbn [SFmul xorb].
  set (P := (fm * B64.m9)%positive). set (E := fe + -23).
  pose proof (pow2_pos (- fe) ltac:(lia)) as HF.
  set (F := 2 ^ (- fe)) in *.
  assert (Z.pos P = Z.pos fm * 10 ^ 9 * 2 ^ 23) as HP.
  { unfold P. rewrite Pos2Z.inj_mul, m9_val. lia. }
  assert (2 ^ (- E) = F * 2 ^ 23) as HE.
  { unfold E, F. rewrite <- pow2_split by lia. f_equal. lia. }
  pose proof (digits2_pos_bounds P) as [HPlo HPhi].
  assert (Z.pos (digits2_pos P) + E <= 30) as HD.
  { assert (Z.pos P < 2 ^ (30 - E)).
    { replace (30 - E) with (- E + 30) by lia. rewrite pow2_split, HE, HP by lia.
      assert (10 ^ 9 < 2 ^ 30) by done. nia. }
    pose proof (digits2_pos_lt P (30 - E) ltac:(lia) ltac:(done)). lia. }
  destruct (round_trunc P E ltac:(lia) ltac:(lia)) as (N & HN & Hfloor & Hceil & _ & Hrnd).
  exists N. split; [done|].
  rewrite HE, HP in Hfloor.
  rewrite Z.div_mul_cancel_r in Hfloor by lia.
  pose proof (Z.div_mod (Z.pos fm * 10 ^ 9) F ltac:(lia)) as Hdm.
  pose proof (Z.mod_pos_bound (Z.pos fm * 10 ^ 9) F ltac:(lia)) as Hrem.
  pose proof (Z.div_pos (Z.pos fm * 10 ^ 9) F ltac:(lia) ltac:(lia)) as Hq.
  set (fl := Z.pos fm * 10 ^ 9 / F) in *. set (r := (Z.pos fm * 10 ^ 9) mod F) in *.
  assert (forall K, Z.pos fm * 10 ^ 9 <= K * F -> N <= K) as Hceil'.
  { intros K HK. apply Hceil. rewrite HE, HP. nia. }
  assert (N * F - Z.pos fm * 10 ^ 9 < F) as Hup.
  { destruct (Z.eq_dec r 0) as [Hz|Hnz].
    - assert (N <= fl) by (apply Hceil'; lia). nia.
    - assert (N <= fl + 1) by (apply Hceil'; lia). nia. }
  assert (Z.pos fm * 10 ^ 9 - N * F < F) as Hlow by nia.
  split; [|lia]. split; [lia|].
  destruct (Z_le_gt_dec (Z.pos (digits2_pos P) + E) 29) as [H29|H30].
  - assert (N <= 2 ^ 29); [|assert (2 ^ 29 < 10 ^ 9) by done; lia].
    apply Hceil.
    assert (2 ^ Z.pos (digits2_pos P) <= 2 ^ (29 - E)) by (apply Z.pow_le_mono_r; lia).
    replace (29 - E) with (29 + - E) in * by lia. rewrite pow2_split in * by lia. lia.
  - assert (Z.pos (digits2_pos P) = 30 - E) as HdP by lia.
    assert (fexp 53 1024 (Z.pos (digits2_pos P) + E) - E = - fe) as Hk.
    { rewrite fexp64. unfold E. lia. }
    destruct (- fe) as [|k|k] eqn:Ek; [lia| |lia].
    specialize (Hrnd k Hk). unfold E in Hrnd.
    replace (- (fe + -23 + Z.pos k)) with 23 in Hrnd by lia.
    pose proof (rne_spec (Z.pos P) k ltac:(lia)) as (Hr1 & Hr2 & Hr3).
    fold F in Hr1, Hr2, Hr3.
    pose proof (Z.div_mod (Z.pos P) F ltac:(lia)) as HdmP.
    pose proof (Z.mod_pos_bound (Z.pos P) F ltac:(lia)) as HremP.
    set (q := Z.pos P / F) in *. set (rem := Z.pos P mod F) in *.
    assert (Z.pos P = Z.pos fm * Z.pos B64.m9) as HP' by (unfold P; lia).
    assert (2 ^ 52 * F <= Z.pos P) as HPlo'.
    { replace (Z.pos (digits2_pos P) - 1) with (52 + Z.pos k) in HPlo by lia.
      rewrite pow2_split in HPlo by lia. fold F in HPlo. lia. }
    assert (F < 2 * Z.pos B64.m9) as HFm9.
    { assert (Z.pos fm * Z.pos B64.m9 < 2 ^ 53 * Z.pos B64.m9)
        by (apply Z.mul_lt_mono_pos_r; lia).
      change (2 ^ 53) with (2 ^ 52 * 2) in *. lia. }
    assert (q < Z.pos B64.m9) as Hqm9.
    { apply Z.div_lt_upper_bound; [lia|]. rewrite HP'.
      apply Z.mul_lt_mono_pos_r; lia. }
    assert (B64.rne (Z.pos P) k <= Z.pos B64.m9 - 1) as Hrne.
    { destruct (Z.eq_dec (B64.rne (Z.pos P) k) (q + 1)) as [Heq|]; [|lia].
      specialize (Hr2 Heq).
      destruct (Z.eq_dec q (Z.pos B64.m9 - 1)) as [Hqe|]; [|lia].
      exfalso.
      assert (Z.pos fm * Z.pos B64.m9 <= (F - 1) * Z.pos B64.m9)
        by (apply Z.mul_le_mono_nonneg_r; lia).
      lia. }
    rewrite Hrnd.
    apply Z.div_lt_upper_bound; [done|].
    rewrite m9_val in Hrne. lia.
Qed.

(** Multiplying by [2^d] adds [d] binary digits. *)
Lemma digits2_pos_shift (p q : positive) (d : Z) :
  0 <= d -> Z.pos q = Z.pos p * 2 ^ d ->
  Z.pos (digits2_pos q) = Z.pos (digits2_pos p) + d.
Proof.
  intros Hd Hq. apply digits2_pos_unique.
  pose proof (digits2_pos_bounds p) as [Hlo Hhi].
  pose proof (pow2_pos d Hd).
  replace (Z.pos (digits2_pos p) + d - 1) with (Z.pos (digits2_pos p) - 1 + d) by lia.
  rewrite !pow2_split by lia. nia.
Qed.

(** What a well-formed binary64 mantissa/exponent pair satisfies. *)
Lemma bounded_spec (m : positive) (e : Z) :
  bounded 53 1024 m e = true ->
  fexp 53 1024 (Z.pos (digits2_pos m) + e) = e /\ e <= 971 /\
  -1074 <= e /\ Z.pos m < 2 ^ 53.
Proof.
  unfold bounded, canonical_mantissa. intros [H1 H2]%andb_true_iff.
  apply Z.eqb_eq in H1. apply Z.leb_le in H2.
  pose proof (fexp64 (Z.pos (digits2_pos m) + e)) as Hf.
  repeat split; try lia.
  pose proof (digits2_pos_bounds m) as [_ Hhi].
  assert (2 ^ Z.pos (digits2_pos m) <= 2 ^ 53) by (apply Z.pow_le_mono_r; lia). lia.
Qed.

(** A positive integer scaled by [2^e] that needs no rounding is
    normalised to the canonical mantissa/exponent pair of the same value. *)
Lemma binary_normalize_exact (rp : positive) (e : Z) :
  let fe := fexp 53 1024 (Z.pos (digits2_pos rp) + e) in
  fe <= e -> fe <= 971 ->
  exists fm,
    binary_normalize 53 1024 (Z.pos rp) e false = S754_finite false fm fe /\
    Z.pos fm = Z.pos rp * 2 ^ (e - fe) /\ Z.pos fm < 2 ^ 53.
Proof.
  intros fe Hle H971. cbn [binary_normalize]. unfold binary_round, shl_align.
  fold fe. pose proof (fexp64 (Z.pos (digits2_pos rp) + e)) as Hf. fold fe in Hf.
  assert (exists fm, (let '(mz, ez) :=
            match fe - e with
            | Z.neg d => (Pos.iter xO rp d, fe)
            | _ => (rp, e)
            end in (mz, ez)) = (fm, fe) /\ Z.pos fm = Z.pos rp * 2 ^ (e - fe))
    as (fm & Hsh & Hfm).
  { destruct (fe - e) as [|d|d] eqn:Ed; [|lia|].
    - exists rp. replace (e - fe) with 0 by lia. split; [f_equal; lia|simpl; lia].
    - exists (Pos.iter xO rp d). split; [done|].
      rewrite pos_iter_xO. do 2 f_equal. lia. }
  exists fm.
  pose proof (digits2_pos_shift rp fm (e - fe) ltac:(lia) Hfm) as Hdig.
  assert (fexp 53 1024 (Z.pos (digits2_pos fm) + fe) = fe) as Hcanon.
  { rewrite Hdig. replace (Z.pos (digits2_pos rp) + (e - fe) + fe)
      with (Z.pos (digits2_pos rp) + e) by lia. done. }
  destruct (match fe - e with Z.neg d => _ | _ => _ end) as [mz ez].
  injection Hsh as -> ->.
  rewrite binary_round_aux_exact by lia.
  replace (fe <=? 971) with true by (symmetry; apply Z.leb_le; lia).
  repeat split; try done.
  pose proof (digits2_pos_bounds fm) as [_ Hhi].
  assert (2 ^ Z.pos (digits2_pos fm) <= 2 ^ 53) by (apply Z.pow_le_mono_r; lia). lia.
Qed.

(** Converting the integer part of a double with non-negative exponent
    back to a double returns the double itself. *)
Lemma binary_normalize_shifted (m : positive) (e : Z) :
  bounded 53 1024 m e = true -> 0 <= e ->
  binary_normalize 53 1024 (Z.pos m * 2 ^ e) 0 false = S754_finite false m e.
Proof.
  intros (Hcanon & H971 & _ & _)%bounded_spec He.
  pose proof (pow2_pos e He) as Hp.
  destruct (Z.pos m * 2 ^ e) as [|mp|mp] eqn:Emp; [lia| |lia].
  pose proof (digits2_pos_shift m mp e He (eq_sym Emp)) as Hdig.
  cbn [binary_normalize]. unfold binary_round, shl_align.
  rewrite Z.add_0_r, Hdig, Hcanon.
  destruct (e - 0) as [|k|k] eqn:Ek; [| |lia].
  - assert (e = 0) as -> by lia. rewrite Z.mul_1_r in Emp. injection Emp as ->.
    rewrite binary_round_aux_exact by (rewrite Hcanon; lia). done.
  - assert (e = Z.pos k) as -> by lia.
    rewrite (binary_round_aux_round _ _ _ k) by (rewrite Z.add_0_r, Hdig, Hcanon; lia).
    pose proof (rne_spec (Z.pos mp) k ltac:(lia)) as (Hr1 & Hr2 & Hr3).
    rewrite <- Emp in Hr1, Hr2, Hr3 |- *.
    rewrite Z.mod_mul in Hr2, Hr3 by lia. rewrite Z.div_mul in Hr1, Hr2, Hr3 by lia.
    assert (B64.rne (Z.pos m * 2 ^ Z.pos k) k = Z.pos m) as -> by lia.
    unfold B64.renorm. rewrite Z.add_0_l, shr_fexp_exact by lia. cbn [shr_m].
    by replace (Z.pos k <=? 1024 - 53) with true by (symmetry; apply Z.leb_le; lia).
Qed.

(** Subtraction of two positive doubles with the same exponent. *)
Lemma SFsub_same_exp (m1 m2 : positive) (e : Z) :
  SFsub 53 1024 (S754_finite false m1 e) (S754_finite false m2 e) =
    binary_normalize 53 1024 (Z.pos m1 - Z.pos m2) e false.
Proof.
  cbn [SFsub cond_Zopp]. rewrite Z.min_id. unfold shl_align. rewrite Z.sub_diag. done.
Qed.

Lemma scaled_bounds (a b c : Z) :
  0 < c -> - (b * c) < a * c < b * c -> - b < a < b.
Proof. intros Hc [H1 H2]. split; nia. Qed.

(** The two conversions and the two floating-point operations of
    [end_time] on a positive double [m * 2^e]: [float(int(now))] is finite,
    the remainder truncates to an integer [N] in [[0, 10^9)], and [N] is
    within one unit of the exact remainder scaled by [10^9]. *)
Lemma end_time_core (m : positive) (e : Z) :
  bounded 53 1024 m e = true ->
  let sec := Z.shiftl (Z.pos m) e in
  exists fs N,
    binary_normalize 53 1024 sec 0 false = fs /\
    (forall s, fs <> S754_infinity s) /\
    int_of_float (SFmul 53 1024 (SFsub 53 1024 (S754_finite false m e) fs) (S754_finite false B64.m9 (-23))) = Ok N /\
    0 <= N < 10 ^ 9 /\
    (0 <= e -> sec = Z.pos m * 2 ^ e /\ N = 0) /\
    (e < 0 -> sec = Z.pos m / 2 ^ (- e) /\
       - 2 ^ (- e) < (Z.pos m - sec * 2 ^ (- e)) * 10 ^ 9 - N * 2 ^ (- e) < 2 ^ (- e)).
Proof.
  intros Hb sec. pose proof (bounded_spec m e Hb) as (Hcanon & H971 & Hemin & Hm53).
  pose proof (fexp64 (Z.pos (digits2_pos m) + e)) as Hf.
  destruct (Z_le_gt_dec 0 e) as [He|He].
  - (* the reading is an integer *)
    assert (sec = Z.pos m * 2 ^ e) as Hsec by (unfold sec; by rewrite Z.shiftl_mul_pow2).
    exists (S754_finite false m e), 0.
    rewrite Hsec, binary_normalize_shifted by done.
    rewrite SFsub_same_exp, Z.sub_diag. cbn.
    repeat split; try done; lia.
  - pose proof (pow2_pos (- e) ltac:(lia)) as HK.
    assert (sec = Z.pos m / 2 ^ (- e)) as Hsec by (unfold sec; by rewrite Z.shiftl_div_pow2 by lia).
    set (K := 2 ^ (- e)) in *.
    pose proof (Z.div_mod (Z.pos m) K ltac:(lia)) as Hdm.
    pose proof (Z.mod_pos_bound (Z.pos m) K ltac:(lia)) as Hrem.
    pose proof (Z.div_pos (Z.pos m) K ltac:(lia) ltac:(lia)) as Hq.
    rewrite <- Hsec in Hdm, Hq.
    destruct sec as [|sp|sp] eqn:Esec; [| |lia].
    + (* the reading is below one second *)
      destruct (nanos_mul m e ltac:(lia) ltac:(fold K; lia) Hm53) as (N & HN & HN9 & HNb).
      exists (S754_zero false), N. cbn [binary_normalize SFsub]. fold K in HNb.
      repeat split; try done; try lia.
    + assert (K <= Z.pos m) as HKm by nia.
      assert (- e <= 52) as He52.
      { destruct (Z_le_gt_dec (- e) 52); [done|].
        assert (2 ^ 53 <= K) by (apply Z.pow_le_mono_r; lia). lia. }
      assert (Z.pos (digits2_pos m) = 53) as Hdm53 by lia.
      pose proof (digits2_pos_bounds m) as [Hmlo Hmhi]. rewrite Hdm53 in Hmlo, Hmhi.
      assert (Z.pos (digits2_pos sp) = 53 + e) as Hdsp.
      { apply digits2_pos_unique.
        assert (2 ^ (53 - 1) = 2 ^ (53 + e - 1) * K) as Hs1.
        { unfold K. rewrite <- pow2_split by lia. f_equal. lia. }
        assert (2 ^ 53 = 2 ^ (53 + e) * K) as Hs2.
        { unfold K. rewrite <- pow2_split by lia. f_equal. lia. }
        pose proof (pow2_pos (53 + e - 1) ltac:(lia)).
        pose proof (pow2_pos (53 + e) ltac:(lia)).
        split; nia. }
      pose proof (binary_normalize_exact sp 0) as Hfs. cbv zeta in Hfs.
      rewrite Z.add_0_r, Hdsp, fexp64 in Hfs.
      replace (Z.max (53 + e - 53) (-1074)) with e in Hfs by lia.
      destruct (Hfs ltac:(lia) ltac:(lia)) as (ms & Hms & Hmsv & _). clear Hfs.
      replace (0 - e) with (- e) in Hmsv by lia. fold K in Hmsv.
      destruct (Z.pos m - Z.pos ms) as [|rp|rp] eqn:Er; [| |lia].
      * exists (S754_finite false ms e), 0. rewrite Hms, SFsub_same_exp, Er. cbn.
        repeat split; try done; lia.
      * pose proof (binary_normalize_exact rp e) as Hfr. cbv zeta in Hfr.
        assert (Z.pos rp < K) as Hrp by lia.
        pose proof (digits2_pos_lt rp (- e) ltac:(lia) Hrp) as Hdrp.
        pose proof (fexp64 (Z.pos (digits2_pos rp) + e)) as Hfe.
        set (fe := fexp 53 1024 (Z.pos (digits2_pos rp) + e)) in *.
        destruct (Hfr ltac:(lia) ltac:(lia)) as (fm & Hfmn & Hfmv & Hfm53). clear Hfr.
        pose proof (pow2_pos (e - fe) ltac:(lia)) as Hc.
        assert (2 ^ (- fe) = K * 2 ^ (e - fe)) as HF.
        { unfold K. rewrite <- pow2_split by lia. f_equal. lia. }
        destruct (nanos_mul fm fe ltac:(lia) ltac:(rewrite HF; nia) Hfm53)
          as (N & HN & HN9 & HNb).
        exists (S754_finite false ms e), N.
        rewrite Hms, SFsub_same_exp, Er, Hfmn.
        split; [done|]. split; [intros ?; done|]. split; [done|]. split; [done|].
        split; [lia|]. intros _. split; [done|].
        replace (Z.pos m - Z.pos sp * K) with (Z.pos rp) by lia.
        rewrite HF, Hfmv in HNb.
        apply (scaled_bounds _ _ (2 ^ (e - fe))); lia.
Qed.

(** Aligning a mantissa to a smaller exponent keeps its value. *)
Lemma shl_align_val (m : positive) (e ez : Z) :
  ez <= e -> Z.pos (fst (shl_align m e ez)) = Z.pos m * 2 ^ (e - ez).
Proof.
  intros H. unfold shl_align. destruct (ez - e) as [|d|d] eqn:Ed; [|lia|].
  - replace (e - ez) with 0 by lia. cbn. lia.
  - cbn [fst]. rewrite pos_iter_xO. do 2 f_equal. lia.
Qed.

(** Normalising a non-negative mantissa never gives a negative double or a NaN. *)
Lemma renorm_nonneg (m e : Z) :
  0 <= m -> B64.leb B64.zero (B64.renorm false m e) = true.
Proof.
  intros Hm. unfold B64.renorm, shr_fexp, shr.
  assert (forall q e', 0 <= q ->
    B64.leb B64.zero
      match q with
      | 0 => S754_zero false
      | Z.pos p => if e' <=? 1024 - 53 then S754_finite false p e' else S754_infinity false
      | Z.neg _ => S754_nan
      end = true) as Hq.
  { intros [|p|p] e' Hp; [done| |lia]. by destruct (e' <=? 1024 - 53). }
  destruct (fexp 53 1024 (Zdigits2 m + e) - e) as [|k|k].
  - apply Hq. by destruct m.
  - replace (shr_record_of_loc m loc_Exact) with (Build_shr_record m false false) by done.
    rewrite shr_iter by done. apply Hq. cbn [B64.shr_state shr_m].
    apply Z.div_pos; [done|]. apply Z.pow_pos_nonneg; lia.
  - apply Hq. by destruct m.
Qed.

(** Rounding a positive mantissa gives a non-negative double. *)
Lemma binary_round_nonneg (m : positive) (e : Z) :
  B64.leb B64.zero (binary_round 53 1024 false m e) = true.
Proof.
  unfold binary_round. destruct (shl_align m e _) as [mz ez].
  destruct (Z_le_gt_dec (fexp 53 1024 (Z.pos (digits2_pos mz) + ez)) ez) as [Hex|Hrd].
  - rewrite binary_round_aux_exact by done. by destruct (ez <=? 971).
  - destruct (fexp 53 1024 (Z.pos (digits2_pos mz) + ez) - ez) as [|k|k] eqn:Ek; [lia| |lia].
    rewrite (binary_round_aux_round _ _ _ k Ek). apply renorm_nonneg.
    pose proof (rne_spec (Z.pos mz) k ltac:(lia)) as [[Hlo _] _].
    pose proof (Z.div_pos (Z.pos mz) (2 ^ Z.pos k) ltac:(lia)
                  ltac:(apply Z.pow_pos_nonneg; lia)). lia.
Qed.

(** A valid time is a non-negative double whose whole seconds fit an
    [int64]. *)
Lemma valid_time_nonneg (f : spec_float) :
  B64.valid_time f = true -> B64.nonneg_double f = true.
Proof.
  destruct f as [[]|[]| |[] m e]; try done.
  cbn [B64.valid_time B64.nonneg_double]. by intros [H _]%andb_true_iff.
Qed.

Lemma valid_time_below (m : positive) (e : Z) :
  B64.valid_time (S754_finite false m e) = true ->
  Z.shiftl (Z.pos m) e < 2 ^ 63.
Proof.
  cbn [B64.valid_time]. intros [_ H]%andb_true_iff. by apply Z.ltb_lt in H.
Qed.

(** Subtracting an earlier valid reading from a later one never gives a
    negative double. *)
Lemma sub_nonneg (t0 t1 : spec_float) :
  B64.nonneg_double t0 = true -> B64.nonneg_double t1 = true ->
  B64.leb t0 t1 = true ->
  B64.leb B64.zero (B64.sub t1 t0) = true.
Proof.
  intros H0 H1 Hle.
  destruct t0 as [[]|[]| |[] m0 e0]; try done;
    destruct t1 as [[]|[]| |[] m1 e1]; try done.
  cbn [B64.nonneg_double] in H0, H1.
  pose proof (bounded_spec m0 e0 H0) as (Hc0 & _ & Hmin0 & Hm0).
  pose proof (bounded_spec m1 e1 H1) as (Hc1 & _ & Hmin1 & Hm1).
  rewrite fexp64 in Hc0, Hc1.
  unfold B64.sub. cbn [SFsub cond_Zopp].
  assert (Z.min e1 e0 <= e1) as Hz1 by lia. assert (Z.min e1 e0 <= e0) as Hz0 by lia.
  rewrite (shl_align_val m1 e1 _ Hz1), (shl_align_val m0 e0 _ Hz0).
  assert (Z.pos m0 * 2 ^ (e0 - Z.min e1 e0) <= Z.pos m1 * 2 ^ (e1 - Z.min e1 e0)) as Hord.
  { unfold B64.leb, SFleb in Hle. cbn [SFcompare] in Hle.
    destruct (Z.compare_spec e0 e1) as [Heq|Hlt|Hgt]; [| |done].
    - subst e1. rewrite Z.min_id, Z.sub_diag. cbn [Z.pow].
      fold (Pos.compare m0 m1) in Hle. fold (Z.compare (Z.pos m0) (Z.pos m1)) in Hle.
      destruct (Z.compare_spec (Z.pos m0) (Z.pos m1)); try done; lia.
    - replace (Z.min e1 e0) with e0 by lia. rewrite Z.sub_diag.
      pose proof (digits2_pos_bounds m1) as [Hlo1 _].
      replace (Z.pos (digits2_pos m1) - 1) with 52 in Hlo1 by lia.
      assert (2 ^ 1 <= 2 ^ (e1 - e0)) by (apply Z.pow_le_mono_r; lia).
      change (2 ^ 53) with (2 ^ 52 * 2 ^ 1) in Hm0. cbn [Z.pow] in *. nia. }
  destruct (Z.pos m1 * 2 ^ (e1 - Z.min e1 e0) - Z.pos m0 * 2 ^ (e0 - Z.min e1 e0))
    as [|d|d] eqn:Ed; [done| |lia].
  cbn [binary_normalize]. apply binary_round_nonneg.
Qed.

(** * Splitting a clock reading *)

Lemma float_of_int_1e9 : float_of_int (10 ^ 9) = Ok (S754_finite false B64.m9 (-23)).
Proof. vm_compute. reflexivity. Qed.

Lemma float_of_int_finite (z : Z) :
  (forall s, B64.of_Z z <> S754_infinity s) -> float_of_int z = Ok (B64.of_Z z).
Proof.
  intros H. unfold float_of_int. destruct (B64.of_Z z); try done. by destruct (H s).
Qed.

Lemma end_time_zero : end_time (S754_zero false) = Ok (0, 0).
Proof. vm_compute. reflexivity. Qed.

Lemma end_time_finite (m : positive) (e : Z) :
  bounded 53 1024 m e = true ->
  exists N,
    end_time (S754_finite false m e) = Ok (Z.shiftl (Z.pos m) e, N) /\
    0 <= N < 10 ^ 9 /\
    (0 <= e -> Z.shiftl (Z.pos m) e = Z.pos m * 2 ^ e /\ N = 0) /\
    (e < 0 -> Z.shiftl (Z.pos m) e = Z.pos m / 2 ^ (- e) /\
       - 2 ^ (- e) <
         (Z.pos m - Z.shiftl (Z.pos m) e * 2 ^ (- e)) * 10 ^ 9 - N * 2 ^ (- e)
         < 2 ^ (- e)).
Proof.
  intros Hb. destruct (end_time_core m e Hb) as (fs & N & Hfs & Hinf & HN & HN9 & Hge & Hlt).
  exists N. split; [|done].
  unfold end_time. cbn [int_of_float cond_Zopp result_bind].
  unfold float_sub_int. rewrite float_of_int_finite by (unfold B64.of_Z; by rewrite Hfs).
  unfold B64.of_Z. rewrite Hfs.
  cbn [result_bind]. unfold float_mul_int. rewrite float_of_int_1e9.
  cbn [result_bind]. unfold B64.mul, B64.sub. rewrite HN. done.
Qed.

(** Seconds and nanoseconds of a clock reading: the split never raises, the
    seconds are the floor of the reading, the nanoseconds lie in
    [0, 10^9) and the pair is within one nanosecond of the reading. *)
Lemma end_time_spec (now : spec_float) :
  B64.nonneg_double now = true ->
  exists sec nanos,
    end_time now = Ok (sec, nanos) /\
    sec = Qfloor (B64.to_Q now) /\
    0 <= nanos < 10 ^ 9 /\
    (Qabs (B64.to_Q now - (inject_Z sec + (nanos # 1000000000))) < (1 # 1000000000))%Q.
Proof.
  intros Hv. destruct now as [[]|[]| |[] m e]; try done.
  - exists 0, 0. rewrite end_time_zero. repeat split; done.
  - cbn [B64.nonneg_double] in Hv.
    destruct (end_time_finite m e Hv) as (N & Het & HN9 & Hge & Hlt).
    exists (Z.shiftl (Z.pos m) e), N. split; [done|].
    cbn [B64.to_Q cond_Zopp].
    destruct (Z.leb_spec 0 e) as [He|He].
    + destruct (Hge He) as [-> ->]. split; [by rewrite Qfloor_Z|]. split; [done|].
      assert (inject_Z (Z.pos m * 2 ^ e) - (inject_Z (Z.pos m * 2 ^ e) + (0 # 1000000000)) == 0)%Q
        as -> by (unfold Qeq, Qminus, Qplus, Qopp, inject_Z; cbn [Qnum Qden]; lia).
      done.
    + destruct (Hlt He) as [Hs Hb].
      assert (0 < 2 ^ (- e)) as HK by (apply Z.pow_pos_nonneg; lia).
      set (K := 2 ^ (- e)) in *.
      split.
      { rewrite Hs. cbn [Qfloor]. by rewrite Z2Pos.id. }
      split; [done|].
      set (sec := Z.shiftl (Z.pos m) e) in *.
      apply Qabs_Qlt_condition.
      unfold Qlt, Qminus, Qplus, Qopp, inject_Z; cbn [Qnum Qden].
      rewrite !Pos2Z.inj_mul, Z2Pos.id by lia.
      split; nia.
Qed.

(** The seconds of a split are the truncated reading. *)
Lemma end_time_seconds (s : bool) (m : positive) (e sec nanos : Z) :
  end_time (S754_finite s m e) = Ok (sec, nanos) ->
  sec = cond_Zopp s (Z.shiftl (Z.pos m) e).
Proof.
  unfold end_time. cbn [int_of_float result_bind].
  destruct (float_sub_int _ _) as [frac|]; [|done]. cbn [result_bind].
  destruct (float_mul_int _ _) as [sc|]; [|done]. cbn [result_bind].
  destruct (int_of_float sc); [|done]. cbn [result_bind].
  by intros [= <- _].
Qed.

(** What the [TimeInterval] constructor accepts. *)
Lemma TimeInterval_new_ok (sec nanos : Z) :
  - 2 ^ 63 <= sec < 2 ^ 63 -> - 2 ^ 31 <= nanos < 2 ^ 31 ->
  TimeInterval_new sec nanos = Ok (sec, nanos).
Proof.
  intros Hs Hn. unfold TimeInterval_new, in_int64, in_int32.
  destruct (Z.leb_spec (- 2 ^ 63) sec), (Z.ltb_spec sec (2 ^ 63)),
    (Z.leb_spec (- 2 ^ 31) nanos), (Z.ltb_spec nanos (2 ^ 31)); try lia. done.
Qed.

(** The split of a valid time fits the [Timestamp]: the interval is
    constructed. *)
Lemma end_time_valid (now : spec_float) :
  B64.valid_time now = true ->
  exists sec nanos,
    end_time now = Ok (sec, nanos) /\
    TimeInterval_new sec nanos = Ok (sec, nanos) /\
    sec = Qfloor (B64.to_Q now) /\
    0 <= nanos < 10 ^ 9 /\
    (Qabs (B64.to_Q now - (inject_Z sec + (nanos # 1000000000))) < (1 # 1000000000))%Q.
Proof.
  intros Hv.
  destruct (end_time_spec now (valid_time_nonneg _ Hv)) as (sec & nanos & Het & Hsec & Hn & Habs).
  exists sec, nanos. split; [done|]. split; [|done].
  assert (0 <= sec < 2 ^ 63) as Hs.
  { destruct now as [[]|[]| |[] m e]; try done.
    - rewrite end_time_zero in Het. injection Het as <- <-. done.
    - pose proof (valid_time_below m e Hv) as Hlt.
      unfold end_time in Het. cbn [int_of_float cond_Zopp result_bind] in Het.
      assert (sec = Z.shiftl (Z.pos m) e) as ->.
      { destruct (float_sub_int _ _) as [frac|]; [|done]. cbn [result_bind] in Het.
        destruct (float_mul_int _ _) as [sc|]; [|done]. cbn [result_bind] in Het.
        destruct (int_of_float sc); [|done]. cbn [result_bind] in Het.
        by injection Het as <- _. }
      split; [|done]. apply Z.shiftl_nonneg. lia. }
  unfold TimeInterval_new, in_int64, in_int32.
  assert (10 ^ 9 < 2 ^ 31) as H9 by done.
  assert (0 < 2 ^ 63) as H63 by done.
  assert (0 < 2 ^ 31) as H31 by done.
  destruct (Z.leb_spec (- 2 ^ 63) sec), (Z.ltb_spec sec (2 ^ 63)),
    (Z.leb_spec (- 2 ^ 31) nanos), (Z.ltb_spec nanos (2 ^ 31)); try lia. done.
Qed.

Lemma as_double_one : as_double (PyInt 1) = Ok B64.one.
Proof. vm_compute. reflexivity. Qed.

Lemma value_ok_double (mv : option number) :
  value_ok mv = true -> exists d, as_double (default (PyInt 1) mv) = Ok d.
Proof. unfold value_ok. destruct (as_double _) as [d|]; [by exists d|done]. Qed.

(** ** The publish primitive *)

Lemma labels_loop (s : TimeSeries) (d : gmap string string) :
  map_fold set_metric_label s d =
    {| metric_type := metric_type s; metric_labels := d ∪ metric_labels s;
       resource_type := resource_type s; resource_labels := resource_labels s;
       points := points s |}.
Proof.
  apply (map_fold_weak_ind (fun r m => r =
    {| metric_type := metric_type s; metric_labels := m ∪ metric_labels s;
       resource_type := resource_type s; resource_labels := resource_labels s;
       points := points s |})).
  - rewrite (left_id_L ∅ (∪)). by destruct s.
  - intros k v m r Hk ->. unfold set_metric_label. cbn.
    by rewrite insert_union_l.
Qed.

Section PublishFacts.
Variable E : env.

(** What one run of the publish primitive does when the client can be
    constructed and the clock reading is a valid time: three external
    calls, one request handed to the backend, and a result and a log that
    depend on the backend's answer only.  The value must fit the
    [double_value] field. *)
Lemma publish_run (project service mtype : string) (labels : gmap string string)
    (mv : option number) (w : world) :
  new_client E (tick w) = None ->
  B64.valid_time (wall_clock E (S (tick w))) = true ->
  value_ok mv = true ->
  exists r s pt,
    _PublishTSCloudMetric E project service mtype labels mv w =
      (match backend E (S (S (tick w))) r with
       | Some e => if exn_is_Exception e then Ok tt else Raise e
       | None => Ok tt
       end,
       {| tick := S (S (S (tick w)));
          outbox := outbox w ++ [r];
          log := match backend E (S (S (tick w))) r with
                 | Some e => if exn_is_Exception e
                             then log w ++ [LogWarning WARNING_FORMAT e]
                             else log w
                 | None => log w
                 end |}) /\
    req_name r = ("projects/" +:+ project)%string /\
    req_time_series r = [s] /\
    metric_type s = (METRIC_TYPE_PREFIX +:+ mtype)%string /\
    metric_labels s = labels /\
    resource_type s = RESOURCE_TYPE /\
    resource_labels s =
      <["task_id":=DEFAULT_TASK_ID]> (<["job":=service]> (<["namespace":=NAMESPACE]>
        (<["location":=LOCATION]> (<["project_id":=project]> ∅)))) /\
    points s = [pt] /\
    as_double (default (PyInt 1) mv) = Ok (double_value pt) /\
    end_time (wall_clock E (S (tick w))) = Ok (end_seconds pt, end_nanos pt).
Proof.
  intros Hc Hv Hval.
  destruct (end_time_valid _ Hv) as (sec & nanos & Het & Hti & _).
  destruct (value_ok_double mv Hval) as (d & Hd).
  set (pt := {| end_seconds := sec; end_nanos := nanos; double_value := d |}).
  set (s := {| metric_type := (METRIC_TYPE_PREFIX +:+ mtype)%string;
               metric_labels := labels;
               resource_type := RESOURCE_TYPE;
               resource_labels :=
                 <["task_id":=DEFAULT_TASK_ID]> (<["job":=service]>
                   (<["namespace":=NAMESPACE]> (<["location":=LOCATION]>
                     (<["project_id":=project]> ∅))));
               points := [pt] |}).
  exists {| req_name := ("projects/" +:+ project)%string; req_time_series := [s] |}, s, pt.
  split.
  - unfold _PublishTSCloudMetric, bind, MetricServiceClient. rewrite Hc.
    unfold time_time, next, lift. cbn [tick outbox log]. rewrite Het.
    cbn [fst snd]. rewrite Hti. unfold Point_new. rewrite Hd. cbn [result_bind].
    unfold try_except_Exception, create_time_series. cbn [tick outbox log fst snd].
    rewrite labels_loop. cbn [metric_type metric_labels resource_type resource_labels points
      set_metric_type set_resource_type set_resource_label set_points TimeSeries_new].
    rewrite (right_id_L ∅ (∪)). fold pt s.
    destruct (backend E (S (S (tick w))) _) as [e|]; [|reflexivity].
    destruct (exn_is_Exception e); reflexivity.
  - rewrite Het, Hd. repeat split; reflexivity.
Qed.

(** In a well-behaved environment the publish primitive returns normally
    and hands exactly one request to the backend. *)
Lemma publish_ok (project service mtype : string) (labels : gmap string string)
    (mv : option number) (w : world) :
  clients_ok E -> clock_ok E -> backend_ok E -> value_ok mv = true ->
  exists r s pt lg,
    _PublishTSCloudMetric E project service mtype labels mv w =
      (Ok tt, {| tick := S (S (S (tick w))); outbox := outbox w ++ [r];
                 log := log w ++ lg |}) /\
    req_name r = ("projects/" +:+ project)%string /\
    req_time_series r = [s] /\
    metric_type s = (METRIC_TYPE_PREFIX +:+ mtype)%string /\
    metric_labels s = labels /\
    resource_type s = RESOURCE_TYPE /\
    resource_labels s =
      <["task_id":=DEFAULT_TASK_ID]> (<["job":=service]> (<["namespace":=NAMESPACE]>
        (<["location":=LOCATION]> (<["project_id":=project]> ∅)))) /\
    points s = [pt] /\
    as_double (default (PyInt 1) mv) = Ok (double_value pt) /\
    end_time (wall_clock E (S (tick w))) = Ok (end_seconds pt, end_nanos pt).
Proof.
  intros Hc Ht Hb Hval.
  destruct (publish_run project service mtype labels mv w (Hc _) (Ht _) Hval)
    as (r & s & pt & Hrun & Hrest).
  destruct (backend E (S (S (tick w))) r) as [e|] eqn:Eb.
  - rewrite (Hb _ _ _ Eb) in Hrun.
    exists r, s, pt, [LogWarning WARNING_FORMAT e]. by split.
  - exists r, s, pt, []. rewrite (right_id_L [] (++)). by split.
Qed.

(** The publish primitive, path by path: the client cannot be
    constructed; the clock reading cannot be split, does not fit the
    [Timestamp], or the value does not fit the double field; the request
    is sent and the backend answers, raises an [Exception], or raises
    something else. *)
Lemma publish_paths (project service mtype : string) (labels : gmap string string)
    (mv : option number) (w : world) :
  _PublishTSCloudMetric E project service mtype labels mv w =
    match new_client E (tick w) with
    | Some e => (Raise e, next w)
    | None =>
        match result_bind (end_time (wall_clock E (S (tick w)))) (fun t =>
              result_bind (TimeInterval_new (fst t) (snd t)) (fun interval =>
              Point_new interval (default (PyInt 1) mv))) with
        | Raise e => (Raise e, next (next w))
        | Ok pt =>
            let r :=
              {| req_name := ("projects/" +:+ project)%string;
                 req_time_series :=
                   [ {| metric_type := (METRIC_TYPE_PREFIX +:+ mtype)%string;
                        metric_labels := labels;
                        resource_type := RESOURCE_TYPE;
                        resource_labels :=
                          <["task_id":=DEFAULT_TASK_ID]> (<["job":=service]>
                            (<["namespace":=NAMESPACE]> (<["location":=LOCATION]>
                              (<["project_id":=project]> ∅))));
                        points := [pt] |} ] |} in
            match backend E (S (S (tick w))) r with
            | None =>
                (Ok tt, {| tick := S (S (S (tick w))); outbox := outbox w ++ [r];
                           log := log w |})
            | Some e =>
                if exn_is_Exception e
                then (Ok tt, {| tick := S (S (S (tick w))); outbox := outbox w ++ [r];
                                log := log w ++ [LogWarning WARNING_FORMAT e] |})
                else (Raise e, {| tick := S (S (S (tick w))); outbox := outbox w ++ [r];
                                  log := log w |})
            end
        end
    end.
Proof.
  unfold _PublishTSCloudMetric, bind, MetricServiceClient.
  destruct (new_client E (tick w)) as [e|]; [reflexivity|].
  unfold time_time, next, lift. cbn [tick outbox log].
  destruct (end_time (wall_clock E (S (tick w)))) as [t|e]; [|reflexivity].
  cbn [result_bind].
  destruct (TimeInterval_new (fst t) (snd t)) as [interval|e]; [|reflexivity].
  cbn [result_bind].
  destruct (Point_new interval (default (PyInt 1) mv)) as [pt|e]; [|reflexivity].
  unfold try_except_Exception, create_time_series. cbn [tick outbox log].
  rewrite labels_loop.
  cbn [metric_type metric_labels resource_type resource_labels points
       set_metric_type set_resource_type set_resource_label set_points TimeSeries_new].
  rewrite (right_id_L ∅ (∪)). cbv zeta.
  destruct (backend E (S (S (tick w))) _) as [e|]; [|reflexivity].
  destruct (exn_is_Exception e); reflexivity.
Qed.

(** With a valid time and a value that fits, the point is built. *)
Lemma point_built (now : spec_float) (mv : option number) :
  B64.valid_time now = true -> value_ok mv = true ->
  exists sec nanos d,
    end_time now = Ok (sec, nanos) /\
    as_double (default (PyInt 1) mv) = Ok d /\
    result_bind (end_time now) (fun t =>
      result_bind (TimeInterval_new (fst t) (snd t)) (fun interval =>
      Point_new interval (default (PyInt 1) mv))) =
    Ok {| end_seconds := sec; end_nanos := nanos; double_value := d |}.
Proof.
  intros Hv Hval.
  destruct (end_time_valid _ Hv) as (sec & nanos & Het & Hti & _).
  destruct (value_ok_double mv Hval) as (d & Hd).
  exists sec, nanos, d. split; [done|]. split; [done|].
  rewrite Het. cbn [result_bind fst snd]. rewrite Hti. cbn [result_bind].
  unfold Point_new. by rewrite Hd.
Qed.

(** One call hands the backend at most one request and keeps what was
    sent before. *)
Lemma publish_outbox (project service mtype : string) (labels : gmap string string)
    (mv : option number) (w : world) :
  exists l, (length l <= 1)%nat /\
    outbox (snd (_PublishTSCloudMetric E project service mtype labels mv w)) =
      outbox w ++ l.
Proof.
  rewrite publish_paths.
  destruct (new_client E (tick w)) as [e|].
  { exists []. rewrite (right_id_L [] (++)). split; [cbn; lia|done]. }
  destruct (result_bind _ _) as [pt|e].
  2:{ exists []. rewrite (right_id_L [] (++)). split; [cbn; lia|done]. }
  cbv zeta. eexists [_].
  destruct (backend E (S (S (tick w))) _) as [e|]; [destruct (exn_is_Exception e)|];
    cbn [snd outbox length]; (split; [lia|reflexivity]).
Qed.

End PublishFacts.

(** Run the next call of the publish primitive that occurs in the goal. *)
Tactic Notation "publish_step" constr(Hc) constr(Ht) constr(Hb) constr(Hv)
    "as" simple_intropattern(pat) :=
  match goal with
  | |- context [_PublishTSCloudMetric ?E ?p ?sv ?mt ?l ?mv ?w] =>
      destruct (publish_ok E p sv mt l mv w Hc Ht Hb Hv) as pat
  end.

(** * The scoped timer, step by step *)

Section TimerFacts.
Variable E : env.
Hypothesis Hclients : clients_ok E.
Hypothesis Hclock : clock_ok E.
Hypothesis Hbackend : backend_ok E.

Lemma enter_run (self : APIMetricLogger) (w : world) :
  exists r s pt lg,
    __enter__ E self w =
      (Ok {| _service_name := _service_name self; _api_name := _api_name self;
             _start := Some (wall_clock E (tick w)); seconds := seconds self |},
       {| tick := 6 + tick w; outbox := outbox w ++ [r]; log := log w ++ lg |}) /\
    req_time_series r = [s] /\
    metric_type s = (METRIC_TYPE_PREFIX +:+ API_METRIC_TYPE)%string /\
    metric_labels s =
      api_label_dict (_api_name self) "started" (uuid4 E (S (tick w))) /\
    points s = [pt] /\
    double_value pt = B64.one.
Proof.
  unfold __enter__, bind, _Now, time_time, uuid4_str, get_application_id, next, ret.
  cbn [tick outbox log _service_name _api_name].
  publish_step Hclients Hclock Hbackend (eq_refl true)
    as (r & s & pt & lg & Hrun & _ & Hts & Hmt & Hml & _ & _ & Hpts & Hdv & _).
  cbn [tick outbox log] in Hrun.
  change (as_double (PyInt 1) = Ok (double_value pt)) in Hdv.
  rewrite as_double_one in Hdv. injection Hdv as Hdv. symmetry in Hdv.
  exists r, s, pt, lg. rewrite Hrun. by repeat split.
Qed.

Lemma exit_run_normal (self : APIMetricLogger) (t0 : spec_float) (w : world) :
  _start self = Some t0 ->
  exists r s pt lg self',
    __exit__ E self None w =
      (Ok (true, self'),
       {| tick := 6 + tick w; outbox := outbox w ++ [r]; log := log w ++ lg |}) /\
    req_time_series r = [s] /\
    metric_type s = (METRIC_TYPE_PREFIX +:+ API_METRIC_TYPE)%string /\
    metric_labels s =
      api_label_dict (_api_name self) "completed" (uuid4 E (S (tick w))) /\
    points s = [pt] /\
    double_value pt = B64.sub (wall_clock E (tick w)) t0.
Proof.
  intros Hstart.
  unfold __exit__, bind, _Now, time_time, uuid4_str, get_application_id, next, ret,
    logging_emit.
  rewrite Hstart.
  cbn [tick outbox log _service_name _api_name seconds].
  publish_step Hclients Hclock Hbackend (eq_refl true)
    as (r & s & pt & lg & Hrun & _ & Hts & Hmt & Hml & _ & _ & Hpts & Hdv & _).
  cbn [tick outbox log] in Hrun.
  injection Hdv as Hdv. symmetry in Hdv.
  eexists r, s, pt, _, _. rewrite Hrun. rewrite <- (assoc_L (++)).
  by repeat split.
Qed.

Lemma exit_run_failed (self : APIMetricLogger) (e : exn) (w : world) :
  exists r s pt lg,
    __exit__ E self (Some e) w =
      (Ok (false, self),
       {| tick := 5 + tick w; outbox := outbox w ++ [r]; log := log w ++ lg |}) /\
    req_time_series r = [s] /\
    metric_type s = (METRIC_TYPE_PREFIX +:+ API_METRIC_TYPE)%string /\
    metric_labels s =
      api_label_dict (_api_name self) "failed" (uuid4 E (tick w)) /\
    points s = [pt] /\
    double_value pt = B64.one.
Proof.
  unfold __exit__, bind, uuid4_str, get_application_id, next, ret.
  cbn [tick outbox log].
  publish_step Hclients Hclock Hbackend (eq_refl true)
    as (r & s & pt & lg & Hrun & _ & Hts & Hmt & Hml & _ & _ & Hpts & Hdv & _).
  cbn [tick outbox log] in Hrun.
  change (as_double (PyInt 1) = Ok (double_value pt)) in Hdv.
  rewrite as_double_one in Hdv. injection Hdv as Hdv. symmetry in Hdv.
  exists r, s, pt, lg. rewrite Hrun. by repeat split.
Qed.

End TimerFacts.

(** * Labels and sample environments *)

Lemma sample_clock_ok : clock_ok Sample.env_ok.
Proof. intros [|n]; reflexivity. Qed.

Lemma sample_clients_ok : clients_ok Sample.env_ok.
Proof. intros n. reflexivity. Qed.

Lemma sample_backend_ok : backend_ok Sample.env_ok.
Proof. intros n r e H. discriminate H. Qed.

Lemma api_label_status (api status token : string) :
  api_label_dict api status token !! REQUEST_STATUS = Some status.
Proof.
  unfold api_label_dict. rewrite lookup_insert_ne by done. apply lookup_insert_eq.
Qed.

Lemma job_label_dict_spec (job_id job_type job_status : string) :
  job_labels_of job_id job_type job_status (job_label_dict job_id job_type job_status).
Proof.
  unfold job_labels_of, job_label_dict, JOB_ID, JOB_TYPE, JOB_STATUS. split.
  - rewrite !dom_insert_L, dom_empty_L. set_solver.
  - repeat split.
Qed.

Section ExitShape.
Variable E : env.

(** Whatever the environment does, [__exit__] called with an exception
    either raises or returns [False]. *)
Lemma exit_failed_shape (self : APIMetricLogger) (e : exn) (w : world) :
  fst (__exit__ E self (Some e) w) = Ok (false, self) \/
  exists e', fst (__exit__ E self (Some e) w) = Raise e'.
Proof.
  unfold __exit__, bind, uuid4_str, get_application_id, next, ret.
  destruct (_PublishTSCloudMetric E _ _ _ _ _ _) as [[[]|e'] w']; cbn; eauto.
Qed.

Lemma APIMetric_scoped {Args A} (service api : string) (wrapped : Args -> M A) (a : Args) :
  APIMetric E service api wrapped a = scoped E service api (wrapped a).
Proof. reflexivity. Qed.

End ExitShape.

(** ** The model evaluated on sample readings *)

(** 1700000000.25 *)
Example end_time_quarter : end_time Sample.t_entry = Ok (1700000000, 250000000).
Proof. vm_compute. reflexivity. Qed.

(** 0.3: the product [0.3 * 10**9] rounds up to a whole number. *)
Example end_time_three_tenths :
  end_time (S754_finite false 5404319552844595 (-54)) = Ok (0, 300000000).
Proof. vm_compute. reflexivity. Qed.

(** The largest double below 1: the nanoseconds stay below [10^9]. *)
Example end_time_below_one :
  end_time (S754_finite false 9007199254740991 (-53)) = Ok (0, 999999999).
Proof. vm_compute. reflexivity. Qed.

(** The smallest positive double. *)
Example end_time_tiny : end_time (S754_finite false 1 (-1074)) = Ok (0, 0).
Proof. vm_compute. reflexivity. Qed.

(** [2^53]: no fractional part. *)
Example end_time_integer :
  end_time (S754_finite false 4503599627370496 1) = Ok (9007199254740992, 0).
Proof. vm_compute. reflexivity. Qed.

(** [int] of a NaN or an infinity raises. *)
Example end_time_nan : end_time S754_nan = Raise ValueError.
Proof. reflexivity. Qed.

Example end_time_infinity : end_time (S754_infinity false) = Raise OverflowError.
Proof. reflexivity. Qed.

(** 1700000001.75 - 1700000000.25 = 1.5 *)
Example elapsed_sample :
  B64.sub Sample.t_later Sample.t_entry = S754_finite false 6755399441055744 (-52).
Proof. vm_compute. reflexivity. Qed.

Example frozen_job_returns :
  fst (PublishFrozenJobMetric Sample.env_ok "proj1" "job42" "perf" "FROZEN" None Sample.w0)
    = Ok tt.
Proof. vm_compute. reflexivity. Qed.

Example answering_block_returns :
  fst (APIMetric Sample.env_ok "pinpoint" "jobs" Sample.answering tt Sample.w0)
    = Ok (Some 42).
Proof. vm_compute. reflexivity. Qed.

(** * Properties of the module *)

(** ** Error handling of the publish primitive *)

(** C8. If constructing the monitoring client raises, the publish primitive
    raises that very exception: nothing is sent and nothing is logged. *)
Theorem client_construction_error_propagates (E : env)
    (project service mtype : string) (labels : gmap string string)
    (mv : option number) (w : world) (e : exn) :
  new_client E (tick w) = Some e ->
  _PublishTSCloudMetric E project service mtype labels mv w = (Raise e, next w).
Proof.
  intros H. unfold _PublishTSCloudMetric, bind, MetricServiceClient. by rewrite H.
Qed.

Lemma client_construction_error_propagates_witness :
  new_client Sample.env_no_client (tick Sample.w0) = Some Sample.DefaultCredentialsError /\
  _PublishTSCloudMetric Sample.env_no_client "proj1" "pinpoint" "pinpoint/job/run_time"
    (job_label_dict "job42" "perf" "FROZEN") None Sample.w0 =
    (Raise Sample.DefaultCredentialsError, next Sample.w0).
Proof.
  split; [reflexivity|].
  apply (client_construction_error_propagates Sample.env_no_client). reflexivity.
Defined.

(** C2, as the code has it. When the backend send raises an exception whose
    class derives from [Exception], the publish primitive returns normally
    and appends one warning record to the log.  The send is reached when the
    client is constructed, the reading is a valid time and the value fits a
    double. *)
Theorem publish_swallows_Exception (E : env)
    (project service mtype : string) (labels : gmap string string)
    (mv : option number) (w : world) (e : exn) :
  new_client E (tick w) = None ->
  B64.valid_time (wall_clock E (S (tick w))) = true ->
  value_ok mv = true ->
  (forall r, backend E (S (S (tick w))) r = Some e) ->
  exn_is_Exception e = true ->
  fst (_PublishTSCloudMetric E project service mtype labels mv w) = Ok tt /\
  log (snd (_PublishTSCloudMetric E project service mtype labels mv w)) =
    log w ++ [LogWarning WARNING_FORMAT e].
Proof.
  intros Hc Hv Hval Hb He.
  destruct (publish_run E project service mtype labels mv w Hc Hv Hval)
    as (r & s & pt & Hrun & _).
  rewrite Hrun, Hb, He. done.
Qed.

Lemma publish_swallows_Exception_witness :
  fst (_PublishTSCloudMetric Sample.env_unavailable "proj1" "pinpoint"
         "pinpoint/job/run_time" (job_label_dict "job42" "perf" "FROZEN") None Sample.w0)
    = Ok tt /\
  log (snd (_PublishTSCloudMetric Sample.env_unavailable "proj1" "pinpoint"
         "pinpoint/job/run_time" (job_label_dict "job42" "perf" "FROZEN") None Sample.w0))
    = log Sample.w0 ++ [LogWarning WARNING_FORMAT Sample.ServiceUnavailable].
Proof.
  apply (publish_swallows_Exception Sample.env_unavailable); reflexivity.
Defined.

(** C2, as stated, fails: an exception outside the [Exception] hierarchy
    raised by the send leaves the publish primitive, and no warning is
    logged. *)
Lemma publish_interrupt_escapes :
  fst (_PublishTSCloudMetric Sample.env_interrupted "proj1" "pinpoint"
         "pinpoint/job/run_time" (job_label_dict "job42" "perf" "FROZEN") None Sample.w0)
    = Raise KeyboardInterrupt /\
  log (snd (_PublishTSCloudMetric Sample.env_interrupted "proj1" "pinpoint"
         "pinpoint/job/run_time" (job_label_dict "job42" "perf" "FROZEN") None Sample.w0))
    = [].
Proof.
  destruct (publish_run Sample.env_interrupted "proj1" "pinpoint" "pinpoint/job/run_time"
              (job_label_dict "job42" "perf" "FROZEN") None Sample.w0 eq_refl eq_refl eq_refl)
    as (r & s & pt & Hrun & _).
  rewrite Hrun. split; reflexivity.
Qed.

(** ** What a published series looks like *)

(** C9. Whatever labels the caller supplies, the resource labels of the
    emitted series are exactly the five fixed ones; the caller's labels
    become the metric labels and nothing else. *)
Theorem resource_labels_fixed (E : env)
    (project service mtype : string) (label_dict : gmap string string)
    (mv : option number) (w : world) :
  new_client E (tick w) = None ->
  B64.valid_time (wall_clock E (S (tick w))) = true ->
  value_ok mv = true ->
  exists r s,
    outbox (snd (_PublishTSCloudMetric E project service mtype label_dict mv w)) =
      outbox w ++ [r] /\
    req_time_series r = [s] /\
    dom (resource_labels s) =
      ({["project_id"; "location"; "namespace"; "job"; "task_id"]} : gset string) /\
    resource_labels s !! "project_id" = Some project /\
    resource_labels s !! "location" = Some "us-central1" /\
    resource_labels s !! "namespace" = Some "Prod" /\
    resource_labels s !! "job" = Some service /\
    resource_labels s !! "task_id" = Some "task_id" /\
    metric_labels s = label_dict.
Proof.
  intros Hc Hv Hval.
  destruct (publish_run E project service mtype label_dict mv w Hc Hv Hval)
    as (r & s & pt & Hrun & _ & Hts & _ & Hml & _ & Hrl & _).
  exists r, s. rewrite Hrun, Hrl. cbn [snd outbox].
  split; [done|]. split; [done|]. split.
  { rewrite !dom_insert_L, dom_empty_L. set_solver. }
  repeat split; done.
Qed.

Lemma resource_labels_fixed_witness :
  exists r s,
    outbox (snd (_PublishTSCloudMetric Sample.env_ok "proj1" "pinpoint" "pinpoint/job/run_time"
                   (<["project_id":="spoofed"]> (<["task_id":="spoofed"]> ∅)) None Sample.w0)) =
      outbox Sample.w0 ++ [r] /\
    req_time_series r = [s] /\
    resource_labels s !! "project_id" = Some "proj1" /\
    resource_labels s !! "task_id" = Some "task_id" /\
    metric_labels s !! "project_id" = Some "spoofed".
Proof.
  destruct (resource_labels_fixed Sample.env_ok "proj1" "pinpoint" "pinpoint/job/run_time"
              (<["project_id":="spoofed"]> (<["task_id":="spoofed"]> ∅)) None Sample.w0
              eq_refl eq_refl eq_refl)
    as (r & s & H1 & H2 & _ & H3 & _ & _ & _ & H4 & H5).
  exists r, s. rewrite H5. repeat split; assumption || reflexivity.
Defined.

(** C10, as the code has it. For a non-negative reading below [2^63]
    seconds the single data point of the emitted series carries the clock
    reading split into whole seconds (its floor) and a nanosecond remainder
    in [0, 10^9); seconds and nanoseconds together are within one nanosecond
    of the reading. *)
Theorem end_time_split (E : env)
    (project service mtype : string) (label_dict : gmap string string)
    (mv : option number) (w : world) :
  let now := wall_clock E (S (tick w)) in
  new_client E (tick w) = None ->
  B64.valid_time now = true ->
  value_ok mv = true ->
  exists r s pt,
    outbox (snd (_PublishTSCloudMetric E project service mtype label_dict mv w)) =
      outbox w ++ [r] /\
    req_time_series r = [s] /\
    points s = [pt] /\
    end_seconds pt = Qfloor (B64.to_Q now) /\
    0 <= end_nanos pt < 10 ^ 9 /\
    (Qabs (B64.to_Q now - (inject_Z (end_seconds pt) + (end_nanos pt # 1000000000)))
       < (1 # 1000000000))%Q.
Proof.
  intros now Hc Hv Hval.
  destruct (publish_run E project service mtype label_dict mv w Hc Hv Hval)
    as (r & s & pt & Hrun & _ & Hts & _ & _ & _ & _ & Hpts & _ & Het).
  destruct (end_time_valid now Hv) as (sec & nanos & Het' & _ & Hsec & Hn & Habs).
  fold now in Het. rewrite Het in Het'. injection Het' as <- <-.
  exists r, s, pt. rewrite Hrun. cbn [snd outbox].
  split; [reflexivity|]. split; [exact Hts|]. split; [exact Hpts|].
  split; [exact Hsec|]. split; [exact Hn|]. exact Habs.
Qed.

Lemma end_time_split_witness :
  exists r s pt,
    outbox (snd (_PublishTSCloudMetric Sample.env_ok "proj1" "pinpoint" "pinpoint/job/run_time"
                   (job_label_dict "job42" "perf" "FROZEN") None Sample.w0)) =
      outbox Sample.w0 ++ [r] /\
    req_time_series r = [s] /\
    points s = [pt] /\
    end_seconds pt = 1700000001 /\
    0 <= end_nanos pt < 10 ^ 9.
Proof.
  destruct (end_time_split Sample.env_ok "proj1" "pinpoint" "pinpoint/job/run_time"
              (job_label_dict "job42" "perf" "FROZEN") None Sample.w0 eq_refl eq_refl eq_refl)
    as (r & s & pt & H1 & H2 & H3 & H4 & H5 & _).
  exists r, s, pt. repeat split; try assumption; apply H5.
Defined.

(** C10, as stated, fails: [2^63] seconds is a non-negative reading and
    splits into [(2^63, 0)], but the [int64] seconds field of the
    [Timestamp] cannot hold it: the [TimeInterval] constructor raises
    [ValueError] before the send, no point is attached and nothing is
    sent. *)
Lemma reading_beyond_int64_raises :
  B64.nonneg_double (wall_clock Sample.env_far_future 1) = true /\
  end_time (wall_clock Sample.env_far_future 1) = Ok (9223372036854775808, 0) /\
  _PublishTSCloudMetric Sample.env_far_future "proj1" "pinpoint" "pinpoint/job/run_time"
    (job_label_dict "job42" "perf" "FROZEN") None Sample.w0 =
    (Raise ValueError, {| tick := 2; outbox := []; log := [] |}).
Proof. vm_compute. repeat split; reflexivity. Qed.

(** C3. [PublishFrozenJobMetric("proj1", "job42", "perf", "FROZEN")] hands
    the backend one request with one series: the frozen-job metric type,
    [project_id = "proj1"] among the resource labels, the three job labels
    as metric labels, and a single point whose value is the double 1.0. *)
Theorem frozen_job_scenario (E : env) (w : world) :
  new_client E (tick w) = None ->
  B64.valid_time (wall_clock E (S (tick w))) = true ->
  exists r s pt,
    outbox (snd (PublishFrozenJobMetric E "proj1" "job42" "perf" "FROZEN" None w)) =
      outbox w ++ [r] /\
    req_time_series r = [s] /\
    metric_type s = "custom.googleapis.com/pinpoint/job/frozen_job" /\
    resource_labels s !! "project_id" = Some "proj1" /\
    metric_labels s =
      <["job_status":="FROZEN"]> (<["job_type":="perf"]> (<["job_id":="job42"]> ∅)) /\
    points s = [pt] /\
    double_value pt = S754_finite false 4503599627370496 (-52) /\
    (B64.to_Q (double_value pt) == 1)%Q.
Proof.
  intros Hc Hv. unfold PublishFrozenJobMetric. cbn [default].
  destruct (publish_run E "proj1" "pinpoint" "pinpoint/job/frozen_job"
              (job_label_dict "job42" "perf" "FROZEN") (Some (PyInt 1)) w Hc Hv eq_refl)
    as (r & s & pt & Hrun & _ & Hts & Hmt & Hml & _ & Hrl & Hpts & Hdv & _).
  change (as_double (PyInt 1) = Ok (double_value pt)) in Hdv.
  rewrite as_double_one in Hdv. injection Hdv as Hdv.
  exists r, s, pt. rewrite Hrun, Hrl, <- Hdv. cbn [snd outbox].
  repeat split; try done.
Qed.

Lemma frozen_job_scenario_witness :
  exists r s,
    outbox (snd (PublishFrozenJobMetric Sample.env_ok "proj1" "job42" "perf" "FROZEN" None
                   Sample.w0)) = outbox Sample.w0 ++ [r] /\
    req_time_series r = [s] /\
    metric_type s = "custom.googleapis.com/pinpoint/job/frozen_job".
Proof.
  destruct (frozen_job_scenario Sample.env_ok Sample.w0 eq_refl eq_refl)
    as (r & s & pt & H1 & H2 & H3 & _).
  exists r, s. repeat split; assumption.
Defined.

Section JobMetrics.
Variable E : env.
Hypothesis Hclients : clients_ok E.
Hypothesis Hclock : clock_ok E.
Hypothesis Hbackend : backend_ok E.

(** The three publishes of [PublishPinpointJobDetailMetrics], in order. *)
Lemma detail_run (project job_id job_type job_status : string)
    (change_count attempt_count : number) (difference_count : option number)
    (w : world) :
  value_ok (Some change_count) = true ->
  value_ok (Some attempt_count) = true ->
  value_ok difference_count = true ->
  exists r1 s1 p1 r2 s2 p2 r3 s3 p3 w',
    PublishPinpointJobDetailMetrics E project job_id job_type job_status
      change_count attempt_count difference_count w = (Ok tt, w') /\
    outbox w' = outbox w ++ [r1; r2; r3] /\
    (req_time_series r1 = [s1] /\ points s1 = [p1] /\
     metric_type s1 = (METRIC_TYPE_PREFIX +:+ "pinpoint/job/change_count_per_job")%string /\
     metric_labels s1 = job_label_dict job_id job_type job_status /\
     as_double change_count = Ok (double_value p1)) /\
    (req_time_series r2 = [s2] /\ points s2 = [p2] /\
     metric_type s2 = (METRIC_TYPE_PREFIX +:+ "pinpoint/job/attempt_count_per_job")%string /\
     metric_labels s2 = job_label_dict job_id job_type job_status /\
     as_double attempt_count = Ok (double_value p2)) /\
    (req_time_series r3 = [s3] /\ points s3 = [p3] /\
     metric_type s3 = (METRIC_TYPE_PREFIX +:+ "pinpoint/job/difference_count_per_job")%string /\
     metric_labels s3 = job_label_dict job_id job_type job_status /\
     as_double (default (PyInt 1) difference_count) = Ok (double_value p3)).
Proof.
  intros Hv1 Hv2 Hv3.
  unfold PublishPinpointJobDetailMetrics, bind.
  publish_step Hclients Hclock Hbackend Hv1
    as (r1 & s1 & p1 & lg1 & Hrun1 & _ & Hts1 & Hmt1 & Hml1 & _ & _ & Hpts1 & Hdv1 & _).
  rewrite Hrun1.
  publish_step Hclients Hclock Hbackend Hv2
    as (r2 & s2 & p2 & lg2 & Hrun2 & _ & Hts2 & Hmt2 & Hml2 & _ & _ & Hpts2 & Hdv2 & _).
  rewrite Hrun2.
  publish_step Hclients Hclock Hbackend Hv3
    as (r3 & s3 & p3 & lg3 & Hrun3 & _ & Hts3 & Hmt3 & Hml3 & _ & _ & Hpts3 & Hdv3 & _).
  rewrite Hrun3.
  eexists r1, s1, p1, r2, s2, p2, r3, s3, p3, _.
  split; [reflexivity|]. cbn [outbox].
  split; [by rewrite <- !(assoc_L (++))|].
  repeat split; done.
Qed.

(** One publish on a job series. *)
Lemma job_publish (project job_id job_type job_status mtype : string)
    (mv : option number) (w : world) :
  value_ok mv = true ->
  exists r s,
    outbox (snd (_PublishTSCloudMetric E project "pinpoint" mtype
                   (job_label_dict job_id job_type job_status) mv w)) = outbox w ++ [r] /\
    req_time_series r = [s] /\
    metric_type s = ("custom.googleapis.com/" +:+ mtype)%string /\
    job_labels_of job_id job_type job_status (metric_labels s).
Proof.
  intros Hval.
  destruct (publish_ok E project "pinpoint" mtype
              (job_label_dict job_id job_type job_status) mv w Hclients Hclock Hbackend Hval)
    as (r & s & pt & lg & Hrun & _ & Hts & Hmt & Hml & _).
  exists r, s. rewrite Hrun, Hml. cbn [snd outbox].
  repeat split; try done; apply job_label_dict_spec.
Qed.

End JobMetrics.

(** C4, as the code has it. When every publish can construct its client,
    reads a valid time and has a value that fits a double, and the backend
    raises nothing outside the [Exception] hierarchy,
    [PublishPinpointJobDetailMetrics] returns normally after handing the
    backend exactly three points, in this order: one on each of the three
    per-job count series (three different metric types), whose values are the
    doubles of [change_count], [attempt_count] and [difference_count] (1 when
    omitted), and which all carry the same three job labels. *)
Theorem job_detail_three_points (E : env)
    (project job_id job_type job_status : string)
    (change_count attempt_count : number) (difference_count : option number)
    (w : world) :
  clients_ok E -> clock_ok E -> backend_ok E ->
  value_ok (Some change_count) = true ->
  value_ok (Some attempt_count) = true ->
  value_ok difference_count = true ->
  exists r1 s1 p1 r2 s2 p2 r3 s3 p3 w',
    PublishPinpointJobDetailMetrics E project job_id job_type job_status
      change_count attempt_count difference_count w = (Ok tt, w') /\
    outbox w' = outbox w ++ [r1; r2; r3] /\
    req_time_series r1 = [s1] /\ req_time_series r2 = [s2] /\ req_time_series r3 = [s3] /\
    points s1 = [p1] /\ points s2 = [p2] /\ points s3 = [p3] /\
    metric_type s1 = "custom.googleapis.com/pinpoint/job/change_count_per_job" /\
    metric_type s2 = "custom.googleapis.com/pinpoint/job/attempt_count_per_job" /\
    metric_type s3 = "custom.googleapis.com/pinpoint/job/difference_count_per_job" /\
    metric_type s1 <> metric_type s2 /\
    metric_type s1 <> metric_type s3 /\
    metric_type s2 <> metric_type s3 /\
    as_double change_count = Ok (double_value p1) /\
    as_double attempt_count = Ok (double_value p2) /\
    as_double (default (PyInt 1) difference_count) = Ok (double_value p3) /\
    metric_labels s1 =
      <["job_status":=job_status]> (<["job_type":=job_type]> (<["job_id":=job_id]> ∅)) /\
    metric_labels s2 = metric_labels s1 /\
    metric_labels s3 = metric_labels s1.
Proof.
  intros Hc Ht Hb Hv1 Hv2 Hv3.
  destruct (detail_run E Hc Ht Hb project job_id job_type job_status
              change_count attempt_count difference_count w Hv1 Hv2 Hv3)
    as (r1 & s1 & p1 & r2 & s2 & p2 & r3 & s3 & p3 & w' & Hrun & Hout &
        (Hts1 & Hp1 & Hmt1 & Hml1 & Hdv1) & (Hts2 & Hp2 & Hmt2 & Hml2 & Hdv2) &
        (Hts3 & Hp3 & Hmt3 & Hml3 & Hdv3)).
  exists r1, s1, p1, r2, s2, p2, r3, s3, p3, w'.
  rewrite Hml2, Hml3, Hml1, Hmt1, Hmt2, Hmt3. repeat split; done.
Qed.

Lemma job_detail_three_points_witness :
  exists r1 s1 p1 r2 s2 p2 r3 s3 p3 w',
    PublishPinpointJobDetailMetrics Sample.env_ok "proj1" "job42" "perf" "COMPLETED"
      (PyInt 10) (PyInt 200) None Sample.w0 = (Ok tt, w') /\
    outbox w' = outbox Sample.w0 ++ [r1; r2; r3] /\
    req_time_series r1 = [s1] /\ req_time_series r2 = [s2] /\ req_time_series r3 = [s3] /\
    points s1 = [p1] /\ points s2 = [p2] /\ points s3 = [p3] /\
    (B64.to_Q (double_value p1) == 10)%Q /\
    (B64.to_Q (double_value p2) == 200)%Q /\
    double_value p3 = B64.one.
Proof.
  destruct (job_detail_three_points Sample.env_ok "proj1" "job42" "perf" "COMPLETED"
              (PyInt 10) (PyInt 200) None Sample.w0
              sample_clients_ok sample_clock_ok sample_backend_ok eq_refl eq_refl eq_refl)
    as (r1 & s1 & p1 & r2 & s2 & p2 & r3 & s3 & p3 & w' & H1 & H2 & H3 & H4 & H5 & H6 &
        H7 & H8 & _ & _ & _ & _ & _ & _ & Hd1 & Hd2 & Hd3 & _).
  exists r1, s1, p1, r2, s2, p2, r3, s3, p3, w'.
  injection Hd1 as <-. injection Hd2 as <-. injection Hd3 as <-.
  repeat split; assumption || reflexivity.
Defined.

(** C4, as stated, fails: not every call emits three points.  When the
    client cannot be constructed for the second publish, one point has been
    sent and the call raises; when [change_count] is an int beyond the double
    range, the [Point] constructor raises [OverflowError] before the first
    send and no point is sent at all. *)
Lemma job_detail_fewer_points :
  (exists r,
     PublishPinpointJobDetailMetrics (Sample2.env_client_fails_at 3) "proj1" "job42" "perf"
       "COMPLETED" (PyInt 10) (PyInt 200) None Sample.w0 =
       (Raise Sample.DefaultCredentialsError,
        {| tick := 4; outbox := [r]; log := [] |})) /\
  PublishPinpointJobDetailMetrics Sample.env_ok "proj1" "job42" "perf" "COMPLETED"
    (PyInt (2 ^ 1024)) (PyInt 200) None Sample.w0 =
    (Raise OverflowError, {| tick := 2; outbox := []; log := [] |}).
Proof.
  split; [eexists|]; vm_compute; reflexivity.
Qed.

(** C7. Every job-metric call emits series whose metric type is the fixed
    prefix followed by the documented suffix and whose metric labels are
    exactly [job_id], [job_type] and [job_status], bound to the caller's
    strings.  A series is emitted for every value that fits a double. *)
Theorem job_metric_type_and_labels (E : env)
    (project job_id job_type job_status : string) (w : world) :
  clients_ok E -> clock_ok E -> backend_ok E ->
  (forall mv, value_ok mv = true -> exists r s,
     outbox (snd (PublishFrozenJobMetric E project job_id job_type job_status mv w)) =
       outbox w ++ [r] /\
     req_time_series r = [s] /\
     metric_type s = ("custom.googleapis.com/" +:+ "pinpoint/job/frozen_job")%string /\
     job_labels_of job_id job_type job_status (metric_labels s)) /\
  (forall mv, value_ok mv = true -> exists r s,
     outbox (snd (PublishPinpointJobStatusMetric E project job_id job_type job_status mv w)) =
       outbox w ++ [r] /\
     req_time_series r = [s] /\
     metric_type s = ("custom.googleapis.com/" +:+ "pinpoint/job/status_change")%string /\
     job_labels_of job_id job_type job_status (metric_labels s)) /\
  (forall mv, value_ok (Some mv) = true -> exists r s,
     outbox (snd (PublishPinpointJobRunTimeMetric E project job_id job_type job_status mv w)) =
       outbox w ++ [r] /\
     req_time_series r = [s] /\
     metric_type s = ("custom.googleapis.com/" +:+ "pinpoint/job/run_time")%string /\
     job_labels_of job_id job_type job_status (metric_labels s)) /\
  (forall change_count attempt_count difference_count,
     value_ok (Some change_count) = true ->
     value_ok (Some attempt_count) = true ->
     value_ok difference_count = true ->
     exists r1 s1 r2 s2 r3 s3,
     outbox (snd (PublishPinpointJobDetailMetrics E project job_id job_type job_status
                    change_count attempt_count difference_count w)) =
       outbox w ++ [r1; r2; r3] /\
     req_time_series r1 = [s1] /\ req_time_series r2 = [s2] /\ req_time_series r3 = [s3] /\
     metric_type s1 =
       ("custom.googleapis.com/" +:+ "pinpoint/job/change_count_per_job")%string /\
     metric_type s2 =
       ("custom.googleapis.com/" +:+ "pinpoint/job/attempt_count_per_job")%string /\
     metric_type s3 =
       ("custom.googleapis.com/" +:+ "pinpoint/job/difference_count_per_job")%string /\
     job_labels_of job_id job_type job_status (metric_labels s1) /\
     job_labels_of job_id job_type job_status (metric_labels s2) /\
     job_labels_of job_id job_type job_status (metric_labels s3)).
Proof.
  intros Hc Ht Hb. repeat apply conj.
  - intros mv Hv. by apply (job_publish E Hc Ht Hb).
  - intros mv Hv. by apply (job_publish E Hc Ht Hb).
  - intros mv Hv. by apply (job_publish E Hc Ht Hb).
  - intros c a d Hv1 Hv2 Hv3.
    destruct (detail_run E Hc Ht Hb project job_id job_type job_status c a d w Hv1 Hv2 Hv3)
      as (r1 & s1 & p1 & r2 & s2 & p2 & r3 & s3 & p3 & w' & Hrun & Hout &
          (Hts1 & Hp1 & Hmt1 & Hml1 & Hdv1) & (Hts2 & Hp2 & Hmt2 & Hml2 & Hdv2) &
          (Hts3 & Hp3 & Hmt3 & Hml3 & Hdv3)).
    exists r1, s1, r2, s2, r3, s3. rewrite Hrun, Hml1, Hml2, Hml3. cbn [snd].
    repeat split; try done; apply job_label_dict_spec.
Qed.

Lemma job_metric_type_and_labels_witness :
  exists r s,
    outbox (snd (PublishPinpointJobRunTimeMetric Sample.env_ok "proj1" "job42" "perf"
                   "COMPLETED" (PyFloat Sample.t_entry) Sample.w0)) =
      outbox Sample.w0 ++ [r] /\
    req_time_series r = [s] /\
    metric_type s = "custom.googleapis.com/pinpoint/job/run_time" /\
    metric_labels s !! "job_id" = Some "job42".
Proof.
  destruct (job_metric_type_and_labels Sample.env_ok "proj1" "job42" "perf" "COMPLETED"
              Sample.w0 sample_clients_ok sample_clock_ok sample_backend_ok)
    as (_ & _ & Hrt & _).
  destruct (Hrt (PyFloat Sample.t_entry) eq_refl) as (r & s & H1 & H2 & H3 & _ & H4 & _).
  exists r, s. repeat split; assumption.
Defined.

(** ** The scoped timer *)

Section TimerPaths.
Variable E : env.

(** [__exit__] on the exceptional path: two external calls, one publish,
  and the result [False] unless the publish raises. *)
Lemma exit_failed_eq (self : APIMetricLogger) (e : exn) (w : world) :
__exit__ E self (Some e) w =
  let p := _PublishTSCloudMetric E (application_id E (S (tick w))) (_service_name self)
             API_METRIC_TYPE (api_label_dict (_api_name self) "failed" (uuid4 E (tick w)))
             None (next (next w)) in
  (match fst p with
   | Ok _ => Ok (false, self)
   | Raise e' => Raise e'
   end, snd p).
Proof.
unfold __exit__, bind, uuid4_str, get_application_id, ret. cbv zeta.
cbn [tick next].
by destruct (_PublishTSCloudMetric E _ _ _ _ _ _) as [[[]|e'] w'].
Qed.

(** Entering and leaving send at most one request each, in any
  environment. *)
Lemma enter_outbox (self : APIMetricLogger) (w : world) :
exists l, (length l <= 1)%nat /\
  outbox (snd (__enter__ E self w)) = outbox w ++ l.
Proof.
unfold __enter__, bind, _Now, time_time, uuid4_str, get_application_id, ret.
cbn [tick next outbox log _service_name _api_name].
match goal with
| |- context [_PublishTSCloudMetric E ?p ?sv ?mt ?d ?mv ?w'] =>
    destruct (publish_outbox E p sv mt d mv w') as (l & Hl & Hout);
    destruct (_PublishTSCloudMetric E p sv mt d mv w') as [[[]|e'] w'']
end; exists l; done.
Qed.

Lemma exit_outbox (self : APIMetricLogger) (exc : option exn) (w : world) :
exists l, (length l <= 1)%nat /\
  outbox (snd (__exit__ E self exc w)) = outbox w ++ l.
Proof.
destruct exc as [e|].
- rewrite exit_failed_eq. cbv zeta. cbn [snd].
  destruct (publish_outbox E (application_id E (S (tick w))) (_service_name self)
              API_METRIC_TYPE (api_label_dict (_api_name self) "failed" (uuid4 E (tick w)))
              None (next (next w))) as (l & Hl & Hout).
  exists l. done.
- unfold __exit__, bind, _Now, time_time, uuid4_str, get_application_id, ret, raise,
    logging_emit.
  destruct (_start self) as [t0|].
  2:{ exists []. rewrite (right_id_L [] (++)). split; [cbn; lia|done]. }
  cbn [tick next outbox log _service_name _api_name seconds].
  match goal with
  | |- context [_PublishTSCloudMetric E ?p ?sv ?mt ?d ?mv ?w'] =>
      destruct (publish_outbox E p sv mt d mv w') as (l & Hl & Hout);
      destruct (_PublishTSCloudMetric E p sv mt d mv w') as [[[]|e'] w'']
  end; exists l; done.
Qed.

End TimerPaths.




(** C5, as the code has it. In every environment the scoped timer sends
    at most one request on entry and at most one on exit, never more than
    two for a block that publishes nothing itself.  When every publish can
    construct its client and reads a valid time, and the backend raises
    nothing outside the [Exception] hierarchy, it hands the backend exactly
    one point on entry, labelled [request_status = "started"] with value 1,
    and one point on exit, labelled ["completed"] when the block returned
    and ["failed"] (with value 1) when it raised. *)
Theorem scoped_timer_two_points (E : env) (service api : string)
    {A} (body : M A) (w : world) :
  let w1 := snd (__enter__ E (__init__ service api) w) in
  let w2 := snd (body w1) in
  let w3 := snd (scoped E service api body w) in
  (exists l1 l2,
     (length l1 <= 1)%nat /\ (length l2 <= 1)%nat /\
     outbox w1 = outbox w ++ l1 /\
     match fst (__enter__ E (__init__ service api) w) with
     | Ok _ => outbox w3 = outbox w2 ++ l2
     | Raise _ => outbox w3 = outbox w1
     end /\
     (outbox w2 = outbox w1 ->
      exists l, (length l <= 2)%nat /\ outbox w3 = outbox w ++ l)) /\
  (clients_ok E -> clock_ok E -> backend_ok E ->
   exists r1 s1 p1 r2 s2 p2,
     outbox w1 = outbox w ++ [r1] /\
     outbox w3 = outbox w2 ++ [r2] /\
     (outbox w2 = outbox w1 -> outbox w3 = outbox w ++ [r1; r2]) /\
     req_time_series r1 = [s1] /\ points s1 = [p1] /\
     req_time_series r2 = [s2] /\ points s2 = [p2] /\
     metric_labels s1 !! "request_status" = Some "started" /\
     double_value p1 = B64.one /\
     metric_labels s2 !! "request_status" =
       Some (match fst (body w1) with
             | Ok _ => "completed"
             | Raise _ => "failed"
             end) /\
     (forall e, fst (body w1) = Raise e -> double_value p2 = B64.one)).
Proof.
  intros w1 w2 w3. split.
  - destruct (enter_outbox E (__init__ service api) w) as (l1 & Hl1 & Hout1).
    fold w1 in Hout1.
    assert (exists l2, (length l2 <= 1)%nat /\
              match fst (__enter__ E (__init__ service api) w) with
              | Ok _ => outbox w3 = outbox w2 ++ l2
              | Raise _ => outbox w3 = outbox w1
              end) as (l2 & Hl2 & Hout3).
    { subst w1 w2 w3. unfold scoped, with_stmt.
      destruct (__enter__ E (__init__ service api) w) as [[self|e0] w1].
      2:{ exists []. split; [cbn; lia|done]. }
      cbn [fst snd]. destruct (body w1) as [[a|e] w2]; cbn [snd].
      - destruct (exit_outbox E self None w2) as (l2 & Hl2 & Hout2).
        exists l2. split; [done|].
        by destruct (__exit__ E self None w2) as [[[b s']|e'] w3].
      - destruct (exit_outbox E self (Some e) w2) as (l2 & Hl2 & Hout2).
        exists l2. split; [done|].
        by destruct (__exit__ E self (Some e) w2) as [[[[] s']|e'] w3]. }
    exists l1, l2. split; [done|]. split; [done|]. split; [done|]. split; [done|].
    intros Heq.
    destruct (fst (__enter__ E (__init__ service api) w)).
    + exists (l1 ++ l2). rewrite length_app. split; [lia|].
      by rewrite Hout3, Heq, Hout1, <- (assoc_L (++)).
    + exists l1. split; [lia|]. by rewrite Hout3.
  - intros Hc Ht Hb. subst w1 w2 w3. unfold scoped, with_stmt.
    destruct (enter_run E Hc Ht Hb (__init__ service api) w)
      as (r1 & s1 & p1 & lg1 & Hrun1 & Hts1 & _ & Hml1 & Hp1 & Hdv1).
    rewrite Hrun1. cbn [snd outbox].
    match goal with |- context [body ?w1] => destruct (body w1) as [[a|e] w2] end.
    + match goal with
      | |- context [__exit__ E ?self None w2] =>
          destruct (exit_run_normal E Hc Ht Hb self _ w2 eq_refl)
            as (r2 & s2 & p2 & lg2 & self' & Hrun2 & Hts2 & _ & Hml2 & Hp2 & Hdv2)
      end.
      rewrite Hrun2. cbn [fst snd outbox].
      exists r1, s1, p1, r2, s2, p2. rewrite Hml1, Hml2, !api_label_status.
      repeat split; try done.
      intros ->. by rewrite <- (assoc_L (++)).
    + match goal with
      | |- context [__exit__ E ?self (Some e) w2] =>
          destruct (exit_run_failed E Hc Ht Hb self e w2)
            as (r2 & s2 & p2 & lg2 & Hrun2 & Hts2 & _ & Hml2 & Hp2 & Hdv2)
      end.
      rewrite Hrun2. cbn [fst snd outbox].
      exists r1, s1, p1, r2, s2, p2. rewrite Hml1, Hml2, !api_label_status.
      repeat split; try done.
      intros ->. by rewrite <- (assoc_L (++)).
Qed.

Lemma scoped_timer_two_points_witness :
  exists r1 r2,
    outbox (snd (scoped Sample.env_ok "pinpoint" "jobs" (Sample.answering tt) Sample.w0)) =
      [r1; r2].
Proof.
  destruct (scoped_timer_two_points Sample.env_ok "pinpoint" "jobs" (Sample.answering tt)
              Sample.w0) as [_ H].
  destruct (H sample_clients_ok sample_clock_ok sample_backend_ok)
    as (r1 & _ & _ & r2 & _ & _ & _ & _ & H' & _).
  exists r1, r2. apply H'. reflexivity.
Defined.

(** C5, as stated, fails: not every use emits two points.  Without
    credentials the client cannot be constructed on entry: the scope raises
    before the block runs and nothing is sent.  When the first send is
    interrupted, the scope raises with one request handed over. *)
Lemma scoped_timer_fewer_points :
  scoped Sample.env_no_client "pinpoint" "jobs" (Sample.answering tt) Sample.w0 =
    (Raise Sample.DefaultCredentialsError, {| tick := 4; outbox := []; log := [] |}) /\
  exists r,
    scoped Sample.env_interrupted "pinpoint" "jobs" (Sample.answering tt) Sample.w0 =
      (Raise KeyboardInterrupt, {| tick := 6; outbox := [r]; log := [] |}).
Proof.
  split; [|eexists]; vm_compute; reflexivity.
Qed.

(** C6. After a block that returned, the value of the ["completed"] point is
    the double [exit reading - entry reading]; it is not negative whenever
    the entry reading does not exceed the exit reading. *)
Theorem completed_value_is_elapsed (E : env) (service api : string)
    {A} (body : M A) (w w2 : world) (a : A) :
  clients_ok E -> clock_ok E -> backend_ok E ->
  body (snd (__enter__ E (__init__ service api) w)) = (Ok a, w2) ->
  let t_entry := wall_clock E (tick w) in
  let t_exit := wall_clock E (tick w2) in
  exists r s p,
    fst (scoped E service api body w) = Ok (Some a) /\
    outbox (snd (scoped E service api body w)) = outbox w2 ++ [r] /\
    req_time_series r = [s] /\ points s = [p] /\
    metric_labels s !! "request_status" = Some "completed" /\
    double_value p = B64.sub t_exit t_entry /\
    (B64.leb t_entry t_exit = true ->
     B64.leb B64.zero (double_value p) = true).
Proof.
  intros Hc Ht Hb Hbody t_entry t_exit. unfold scoped, with_stmt.
  destruct (enter_run E Hc Ht Hb (__init__ service api) w)
    as (r1 & s1 & p1 & lg1 & Hrun1 & _).
  rewrite Hrun1 in Hbody |- *. cbn [snd] in Hbody. rewrite Hbody.
  match goal with
  | |- context [__exit__ E ?self None w2] =>
      destruct (exit_run_normal E Hc Ht Hb self _ w2 eq_refl)
        as (r2 & s2 & p2 & lg2 & self' & Hrun2 & Hts2 & _ & Hml2 & Hp2 & Hdv2)
  end.
  rewrite Hrun2. cbn [fst snd outbox].
  exists r2, s2, p2. rewrite Hml2, Hdv2, api_label_status.
  repeat split; try done.
  intros Hle. apply sub_nonneg; [apply valid_time_nonneg, Ht|apply valid_time_nonneg, Ht|exact Hle].
Qed.

Lemma completed_value_is_elapsed_witness :
  exists r s p,
    fst (scoped Sample.env_ok "pinpoint" "jobs" (Sample.answering tt) Sample.w0) =
      Ok (Some 42) /\
    req_time_series r = [s] /\ points s = [p] /\
    double_value p = B64.sub Sample.t_later Sample.t_entry /\
    B64.leb B64.zero (double_value p) = true.
Proof.
  destruct (completed_value_is_elapsed Sample.env_ok "pinpoint" "jobs" (Sample.answering tt)
              Sample.w0 _ 42 sample_clients_ok sample_clock_ok sample_backend_ok eq_refl)
    as (r & s & p & H1 & _ & H2 & H3 & _ & H4 & H5).
  exists r, s, p. repeat split; try assumption. apply H5. reflexivity.
Defined.

(** * Further properties *)

(** ** Every path through the publish primitive *)

(** X1. Whatever the environment does, one call of the publish primitive
    hands the backend at most one request and writes at most one log
    record, and it never touches the requests sent or the records logged
    before: there is no retry, also when the send fails. *)
Theorem publish_at_most_one_request (E : env)
    (project service mtype : string) (labels : gmap string string)
    (mv : option number) (w : world) :
  let w' := snd (_PublishTSCloudMetric E project service mtype labels mv w) in
  (outbox w' = outbox w \/
   exists r s p, outbox w' = outbox w ++ [r] /\ req_time_series r = [s] /\ points s = [p]) /\
  (log w' = log w \/ exists e, log w' = log w ++ [LogWarning WARNING_FORMAT e]).
Proof.
  cbv zeta. rewrite publish_paths.
  destruct (new_client E (tick w)) as [e|]; [by split; left|].
  destruct (result_bind _ _) as [pt|e]; [|by split; left].
  cbv zeta.
  destruct (backend E (S (S (tick w))) _) as [e|];
    [destruct (exn_is_Exception e)|]; cbn [snd outbox log];
    (split; [right; by eexists _, _, _|]); try (by left); right; by eexists.
Qed.

(** X2. When the send succeeds the publish primitive returns normally and
    logs nothing; the request is addressed to [projects/<project_id>] and
    its series has resource type [generic_task] and the prefixed metric
    type. *)
Theorem publish_success_is_silent (E : env)
    (project service mtype : string) (labels : gmap string string)
    (mv : option number) (w : world) :
  new_client E (tick w) = None ->
  B64.valid_time (wall_clock E (S (tick w))) = true ->
  value_ok mv = true ->
  (forall r, backend E (S (S (tick w))) r = None) ->
  exists r s w',
    _PublishTSCloudMetric E project service mtype labels mv w = (Ok tt, w') /\
    log w' = log w /\
    tick w' = (3 + tick w)%nat /\
    outbox w' = outbox w ++ [r] /\
    req_name r = ("projects/" +:+ project)%string /\
    req_time_series r = [s] /\
    resource_type s = "generic_task" /\
    metric_type s = ("custom.googleapis.com/" +:+ mtype)%string.
Proof.
  intros Hc Hv Hval Hb.
  destruct (point_built _ mv Hv Hval) as (sec & nanos & d & _ & _ & Hpt).
  rewrite publish_paths, Hc, Hpt. cbv zeta. rewrite Hb.
  eexists _, _, _. repeat split; reflexivity.
Qed.

Lemma publish_success_is_silent_witness :
  exists w',
    _PublishTSCloudMetric Sample.env_ok "proj1" "pinpoint" "pinpoint/job/run_time"
      (job_label_dict "job42" "perf" "FROZEN") None Sample.w0 = (Ok tt, w') /\
    log w' = [].
Proof.
  destruct (publish_success_is_silent Sample.env_ok "proj1" "pinpoint"
              "pinpoint/job/run_time" (job_label_dict "job42" "perf" "FROZEN") None
              Sample.w0 eq_refl eq_refl eq_refl (fun _ => eq_refl))
    as (r & s & w' & H1 & H2 & _).
  exists w'. split; assumption.
Defined.

(** X4. [PublishPinpointJobDetailMetrics] is not atomic: when the client
    cannot be constructed for the second metric, the change-count point has
    already been sent, carrying the double of [change_count], the
    construction error is raised, and the other two points are never
    attempted. *)
Theorem detail_stops_when_client_fails (E : env)
    (project job_id job_type job_status : string)
    (change_count attempt_count : number) (difference_count : option number)
    (w : world) (e : exn) :
  new_client E (tick w) = None ->
  B64.valid_time (wall_clock E (S (tick w))) = true ->
  value_ok (Some change_count) = true ->
  (forall r e', backend E (S (S (tick w))) r = Some e' -> exn_is_Exception e' = true) ->
  new_client E (3 + tick w) = Some e ->
  exists r s p w',
    PublishPinpointJobDetailMetrics E project job_id job_type job_status
      change_count attempt_count difference_count w = (Raise e, w') /\
    outbox w' = outbox w ++ [r] /\
    req_time_series r = [s] /\ points s = [p] /\
    metric_type s = "custom.googleapis.com/pinpoint/job/change_count_per_job" /\
    as_double change_count = Ok (double_value p).
Proof.
  intros Hc Hv Hval Hb Hc2.
  destruct (point_built _ _ Hv Hval) as (sec & nanos & d & _ & Hd & Hpt).
  change (3 + tick w)%nat with (S (S (S (tick w)))) in Hc2.
  unfold PublishPinpointJobDetailMetrics, bind.
  rewrite (publish_paths E project "pinpoint" "pinpoint/job/change_count_per_job"),
    Hc, Hpt. cbv zeta.
  destruct (backend E (S (S (tick w))) _) as [e'|] eqn:Eb.
  - rewrite (Hb _ _ Eb). rewrite publish_paths. cbn [tick]. rewrite Hc2.
    eexists _, _, _, _. repeat split; try reflexivity. exact Hd.
  - rewrite publish_paths. cbn [tick]. rewrite Hc2.
    eexists _, _, _, _. repeat split; try reflexivity. exact Hd.
Qed.

Lemma detail_stops_when_client_fails_witness :
  exists r w',
    PublishPinpointJobDetailMetrics (Sample2.env_client_fails_at 3) "proj1" "job42" "perf"
      "COMPLETED" (PyInt 10) (PyInt 200) None Sample.w0
      = (Raise Sample.DefaultCredentialsError, w') /\
    outbox w' = [r].
Proof.
  destruct (detail_stops_when_client_fails (Sample2.env_client_fails_at 3) "proj1" "job42"
              "perf" "COMPLETED" (PyInt 10) (PyInt 200) None Sample.w0
              Sample.DefaultCredentialsError eq_refl eq_refl eq_refl
              (fun r e' H => ltac:(discriminate H)) eq_refl)
    as (r & s & p & w' & H1 & H2 & _).
  exists r, w'. split; assumption.
Defined.

(** X5. A backend that rejects every request with an [Exception] does not
    stop [PublishPinpointJobDetailMetrics]: all three sends are attempted,
    each failure leaves one warning in the log, and the call returns
    normally. *)
Theorem detail_survives_failing_backend (E : env)
    (project job_id job_type job_status : string)
    (change_count attempt_count : number) (difference_count : option number)
    (w : world) (e : exn) :
  clients_ok E -> clock_ok E ->
  value_ok (Some change_count) = true ->
  value_ok (Some attempt_count) = true ->
  value_ok difference_count = true ->
  (forall n r, backend E n r = Some e) ->
  exn_is_Exception e = true ->
  exists r1 r2 r3 w',
    PublishPinpointJobDetailMetrics E project job_id job_type job_status
      change_count attempt_count difference_count w = (Ok tt, w') /\
    outbox w' = outbox w ++ [r1; r2; r3] /\
    log w' = log w ++ [LogWarning WARNING_FORMAT e; LogWarning WARNING_FORMAT e;
                       LogWarning WARNING_FORMAT e].
Proof.
  intros Hc Ht Hv1 Hv2 Hv3 Hb He.
  unfold PublishPinpointJobDetailMetrics, bind.
  rewrite (publish_paths E project "pinpoint" "pinpoint/job/change_count_per_job"), Hc.
  destruct (point_built _ _ (Ht (S (tick w))) Hv1) as (s1 & n1 & d1 & _ & _ & ->).
  cbv zeta. rewrite Hb, He.
  rewrite publish_paths, Hc. cbn [tick outbox log].
  destruct (point_built _ _ (Ht (S (S (S (S (tick w)))))) Hv2) as (s2 & n2 & d2 & _ & _ & ->).
  cbv zeta. rewrite Hb, He.
  rewrite publish_paths, Hc. cbn [tick outbox log].
  destruct (point_built _ (Some (default (PyInt 1) difference_count))
              (Ht (S (S (S (S (S (S (S (tick w))))))))) Hv3)
    as (s3 & n3 & d3 & _ & _ & ->).
  cbv zeta. rewrite Hb, He.
  eexists _, _, _, _. split; [reflexivity|]. cbn [outbox log].
  split; by rewrite <- !(assoc_L (++)).
Qed.

Lemma detail_survives_failing_backend_witness :
  exists w',
    PublishPinpointJobDetailMetrics Sample.env_unavailable "proj1" "job42" "perf"
      "COMPLETED" (PyInt 10) (PyInt 200) None Sample.w0 = (Ok tt, w') /\
    length (outbox w') = 3%nat /\ length (log w') = 3%nat.
Proof.
  destruct (detail_survives_failing_backend Sample.env_unavailable "proj1" "job42" "perf"
              "COMPLETED" (PyInt 10) (PyInt 200) None Sample.w0 Sample.ServiceUnavailable
              (fun _ => eq_refl) sample_clock_ok eq_refl eq_refl eq_refl
              (fun _ _ => eq_refl) eq_refl)
    as (r1 & r2 & r3 & w' & H1 & H2 & H3).
  exists w'. rewrite H2, H3. repeat split; assumption || reflexivity.
Defined.

(** ** The scoped timer in a well-behaved environment, in full *)

Lemma api_label_dict_spec (api status token : string) :
  api_labels_of api status token (api_label_dict api status token).
Proof.
  unfold api_labels_of, api_label_dict, API_NAME, REQUEST_STATUS, UUID. split.
  - rewrite !dom_insert_L, dom_empty_L. set_solver.
  - repeat split.
Qed.

Section TimerRuns.
Variable E : env.
Hypothesis Hclients : clients_ok E.
Hypothesis Hclock : clock_ok E.
Hypothesis Hbackend : backend_ok E.

Lemma publish_ok_full (project service mtype : string) (labels : gmap string string)
  (mv : option number) (w : world) :
value_ok mv = true ->
exists t d lg,
  Forall is_warning lg /\
  as_double (default (PyInt 1) mv) = Ok d /\
  _PublishTSCloudMetric E project service mtype labels mv w =
    (Ok tt,
     {| tick := S (S (S (tick w)));
        outbox := outbox w ++ [request_for project service mtype labels d t];
        log := log w ++ lg |}).
Proof.
intros Hval.
destruct (point_built _ mv (Hclock (S (tick w))) Hval) as (sec & nanos & d & _ & Hd & Hpt).
rewrite publish_paths, Hclients, Hpt. cbv zeta.
change {| end_seconds := sec; end_nanos := nanos; double_value := d |}
  with {| end_seconds := fst (sec, nanos); end_nanos := snd (sec, nanos);
          double_value := d |}.
fold (request_for project service mtype labels d (sec, nanos)).
destruct (backend E (S (S (tick w))) _) as [e|] eqn:Eb.
- rewrite (Hbackend _ _ _ Eb). exists (sec, nanos), d, [LogWarning WARNING_FORMAT e].
  split; [|by split]. repeat constructor. by exists e.
- exists (sec, nanos), d, []. rewrite (right_id_L [] (++)). by split.
Qed.

Lemma enter_full (self : APIMetricLogger) (w : world) :
exists t lg,
  Forall is_warning lg /\
  __enter__ E self w =
    (Ok {| _service_name := _service_name self; _api_name := _api_name self;
           _start := Some (wall_clock E (tick w)); seconds := seconds self |},
     {| tick := 6 + tick w;
        outbox := outbox w ++
          [request_for (application_id E (2 + tick w)) (_service_name self)
             API_METRIC_TYPE
             (api_label_dict (_api_name self) "started" (uuid4 E (1 + tick w)))
             B64.one t];
        log := log w ++ lg |}).
Proof.
unfold __enter__, bind, _Now, time_time, uuid4_str, get_application_id, next, ret.
cbn [tick outbox log _service_name _api_name].
match goal with
| |- context [_PublishTSCloudMetric E ?p ?sv ?mt ?l ?mv ?w'] =>
    destruct (publish_ok_full p sv mt l mv w' eq_refl) as (t & d & lg & Hlg & Hd & ->)
end.
change (as_double (PyInt 1) = Ok d) in Hd. rewrite as_double_one in Hd.
injection Hd as <-. by exists t, lg.
Qed.

Lemma exit_normal_full (self : APIMetricLogger) (t0 : spec_float) (w : world) :
_start self = Some t0 ->
let secs := B64.sub (wall_clock E (tick w)) t0 in
exists t lg,
  Forall is_warning lg /\
  __exit__ E self None w =
    (Ok (true, {| _service_name := _service_name self; _api_name := _api_name self;
                  _start := Some t0; seconds := PyFloat secs |}),
     {| tick := 6 + tick w;
        outbox := outbox w ++
          [request_for (application_id E (2 + tick w)) (_service_name self)
             API_METRIC_TYPE
             (api_label_dict (_api_name self) "completed" (uuid4 E (1 + tick w)))
             secs t];
        log := log w ++
          LogInfo "%s:%s=%f" (_service_name self) (_api_name self) secs :: lg |}).
Proof.
intros Hstart secs.
unfold __exit__, bind, _Now, time_time, uuid4_str, get_application_id, next, ret,
  logging_emit.
rewrite Hstart. cbn [tick outbox log _service_name _api_name seconds].
match goal with
| |- context [_PublishTSCloudMetric E ?p ?sv ?mt ?l ?mv ?w'] =>
    destruct (publish_ok_full p sv mt l mv w' eq_refl) as (t & d & lg & Hlg & Hd & ->)
end.
injection Hd as <-.
exists t, lg. split; [done|]. cbn [log]. by rewrite <- (assoc_L (++)).
Qed.

Lemma exit_failed_full (self : APIMetricLogger) (e : exn) (w : world) :
exists t lg,
  Forall is_warning lg /\
  __exit__ E self (Some e) w =
    (Ok (false, self),
     {| tick := 5 + tick w;
        outbox := outbox w ++
          [request_for (application_id E (1 + tick w)) (_service_name self)
             API_METRIC_TYPE
             (api_label_dict (_api_name self) "failed" (uuid4 E (tick w)))
             B64.one t];
        log := log w ++ lg |}).
Proof.
unfold __exit__, bind, uuid4_str, get_application_id, next, ret.
cbn [tick outbox log].
match goal with
| |- context [_PublishTSCloudMetric E ?p ?sv ?mt ?l ?mv ?w'] =>
    destruct (publish_ok_full p sv mt l mv w' eq_refl) as (t & d & lg & Hlg & Hd & ->)
end.
change (as_double (PyInt 1) = Ok d) in Hd. rewrite as_double_one in Hd.
injection Hd as <-. by exists t, lg.
Qed.

(** The whole scope, by outcome of the block. *)
Lemma scoped_full {A} (service api : string) (body : M A) (w : world) :
let w1 := snd (__enter__ E (__init__ service api) w) in
exists t1 lg1 t2 lg2,
  Forall is_warning lg1 /\ Forall is_warning lg2 /\
  w1 = {| tick := 6 + tick w;
          outbox := outbox w ++
            [request_for (application_id E (2 + tick w)) service API_METRIC_TYPE
               (api_label_dict api "started" (uuid4 E (1 + tick w))) B64.one t1];
          log := log w ++ lg1 |} /\
  match body w1 with
  | (Ok a, w2) =>
      let secs := B64.sub (wall_clock E (tick w2)) (wall_clock E (tick w)) in
      scoped E service api body w =
        (Ok (Some a),
         {| tick := 6 + tick w2;
            outbox := outbox w2 ++
              [request_for (application_id E (2 + tick w2)) service API_METRIC_TYPE
                 (api_label_dict api "completed" (uuid4 E (1 + tick w2)))
                 secs t2];
            log := log w2 ++ LogInfo "%s:%s=%f" service api secs :: lg2 |})
  | (Raise e, w2) =>
      scoped E service api body w =
        (Raise e,
         {| tick := 5 + tick w2;
            outbox := outbox w2 ++
              [request_for (application_id E (1 + tick w2)) service API_METRIC_TYPE
                 (api_label_dict api "failed" (uuid4 E (tick w2))) B64.one t2];
            log := log w2 ++ lg2 |})
  end.
Proof.
cbv zeta. unfold scoped, with_stmt.
destruct (enter_full (__init__ service api) w) as (t1 & lg1 & Hlg1 & ->).
cbn [snd _service_name _api_name __init__].
match goal with |- context [body ?w1] => destruct (body w1) as [[a|e] w2] end.
- match goal with
  | |- context [__exit__ E ?self None w2] =>
      destruct (exit_normal_full self _ w2 eq_refl) as (t2 & lg2 & Hlg2 & ->)
  end.
  by exists t1, lg1, t2, lg2.
- match goal with
  | |- context [__exit__ E ?self (Some e) w2] =>
      destruct (exit_failed_full self e w2) as (t2 & lg2 & Hlg2 & ->)
  end.
  by exists t1, lg1, t2, lg2.
Qed.

End TimerRuns.

(** X6. Both points of a scope are API metrics: metric type
    [custom.googleapis.com/api/metrics], label keys exactly [api_name],
    [request_status] and [uuid], and the service name as the resource's
    [job].  Each point carries the token and the application id read for
    it: on entry the second and third external calls of [__enter__], on
    exit the two calls that precede the publish, which follow the clock
    reading when the block returned and come first when it raised. *)
Theorem api_metric_series_shape (E : env) (service api : string)
    {A} (body : M A) (w : world) :
  clients_ok E -> clock_ok E -> backend_ok E ->
  let w1 := snd (__enter__ E (__init__ service api) w) in
  let w2 := snd (body w1) in
  let w3 := snd (scoped E service api body w) in
  let status := match fst (body w1) with Ok _ => "completed" | Raise _ => "failed" end in
  let n2 := (match fst (body w1) with Ok _ => 1 | Raise _ => 0 end + tick w2)%nat in
  exists r1 s1 r2 s2,
    outbox w1 = outbox w ++ [r1] /\ req_time_series r1 = [s1] /\
    outbox w3 = outbox w2 ++ [r2] /\ req_time_series r2 = [s2] /\
    metric_type s1 = "custom.googleapis.com/api/metrics" /\
    metric_type s2 = "custom.googleapis.com/api/metrics" /\
    api_labels_of api "started" (uuid4 E (1 + tick w)) (metric_labels s1) /\
    api_labels_of api status (uuid4 E n2) (metric_labels s2) /\
    resource_labels s1 !! "job" = Some service /\
    resource_labels s2 !! "job" = Some service /\
    resource_labels s1 !! "project_id" = Some (application_id E (2 + tick w)) /\
    req_name r1 = ("projects/" +:+ application_id E (2 + tick w))%string /\
    resource_labels s2 !! "project_id" = Some (application_id E (1 + n2)) /\
    req_name r2 = ("projects/" +:+ application_id E (1 + n2))%string.
Proof.
  intros Hc Ht Hb. cbv zeta.
  destruct (scoped_full E Hc Ht Hb service api body w)
    as (t1 & lg1 & t2 & lg2 & _ & _ & -> & Hrun).
  match type of Hrun with context [body ?w1] => destruct (body w1) as [[a|e] w2] end;
    cbv zeta in Hrun; rewrite Hrun; cbn [fst snd outbox];
    eexists _, _, _, _;
    (split; [reflexivity|]); (split; [reflexivity|]);
    (split; [reflexivity|]); (split; [reflexivity|]);
    (split; [reflexivity|]); (split; [reflexivity|]);
    (split; [apply api_label_dict_spec|]); (split; [apply api_label_dict_spec|]);
    repeat split; reflexivity.
Qed.

Lemma api_metric_series_shape_witness :
  exists r1 s1 r2 s2,
    outbox (snd (__enter__ Sample2.env_fresh (__init__ "pinpoint" "jobs") Sample.w0)) = [r1] /\
    req_time_series r1 = [s1] /\
    outbox (snd (scoped Sample2.env_fresh "pinpoint" "jobs" (Sample.answering tt) Sample.w0)) =
      [r1; r2] /\
    req_time_series r2 = [s2] /\
    metric_type s1 = "custom.googleapis.com/api/metrics" /\
    req_name r1 = "projects/chromeperf" /\
    metric_labels s1 !! "uuid" = Some "0f" /\
    metric_labels s2 !! "uuid" = Some "0000000f" /\
    req_name r2 = "projects/chromeperf".
Proof.
  destruct (api_metric_series_shape Sample2.env_fresh "pinpoint" "jobs" (Sample.answering tt)
              Sample.w0 (fun _ => eq_refl) sample_clock_ok
              (fun _ _ _ H => ltac:(discriminate H)))
    as (r1 & s1 & r2 & s2 & H1 & H2 & H3 & H4 & H5 & _ & (_ & _ & _ & H6) &
        (_ & _ & _ & H7) & _ & _ & _ & H8 & _ & H9).
  exists r1, s1, r2, s2.
  change (outbox (snd (Sample.answering tt
            (snd (__enter__ Sample2.env_fresh (__init__ "pinpoint" "jobs") Sample.w0)))))
    with (outbox (snd (__enter__ Sample2.env_fresh (__init__ "pinpoint" "jobs") Sample.w0)))
    in H3.
  rewrite H3, H1. repeat split; assumption.
Defined.

(** X7. With a token source that never repeats, and a block that does not
    rewind the count of external calls, the two points of a scope carry
    different [uuid] labels, hence different label maps. *)
Theorem scope_tokens_differ (E : env) (service api : string)
    {A} (body : M A) (w : world) :
  clients_ok E -> clock_ok E -> backend_ok E -> uuid_fresh E ->
  let w1 := snd (__enter__ E (__init__ service api) w) in
  let w2 := snd (body w1) in
  let w3 := snd (scoped E service api body w) in
  (tick w1 <= tick w2)%nat ->
  exists r1 s1 r2 s2,
    outbox w1 = outbox w ++ [r1] /\ req_time_series r1 = [s1] /\
    outbox w3 = outbox w2 ++ [r2] /\ req_time_series r2 = [s2] /\
    metric_labels s1 !! "uuid" <> metric_labels s2 !! "uuid" /\
    metric_labels s1 <> metric_labels s2.
Proof.
  intros Hc Ht Hb Hfresh. cbv zeta.
  assert (forall st1 st2 a b, a <> b ->
    api_label_dict api st1 (uuid4 E a) !! "uuid" <>
    api_label_dict api st2 (uuid4 E b) !! "uuid") as Hne.
  { intros st1 st2 x y Hxy. unfold api_label_dict, UUID.
    rewrite !lookup_insert_eq. intros [= Heq]. by apply Hxy, Hfresh. }
  destruct (scoped_full E Hc Ht Hb service api body w)
    as (t1 & lg1 & t2 & lg2 & _ & _ & -> & Hrun).
  match type of Hrun with context [body ?w1] => destruct (body w1) as [[a|e] w2] end;
    cbv zeta in Hrun; rewrite Hrun; cbn [fst snd outbox tick]; intros Hmono;
    eexists _, _, _, _;
    (split; [reflexivity|]); (split; [reflexivity|]);
    (split; [reflexivity|]); (split; [reflexivity|]);
    cbn [request_for metric_labels].
  - assert ((1 + tick w)%nat <> (1 + tick w2)%nat) as Hidx by lia.
    split; [by apply Hne|]. intros Heq. apply (Hne "started" "completed" _ _ Hidx).
    by rewrite Heq.
  - assert ((1 + tick w)%nat <> tick w2) as Hidx by lia.
    split; [by apply Hne|]. intros Heq. apply (Hne "started" "failed" _ _ Hidx).
    by rewrite Heq.
Qed.

Lemma token_length (n : nat) : String.length (Sample2.token n) = S n.
Proof.
  induction n; [reflexivity|].
  change (S (String.length (Sample2.token n)) = S (S n)). by rewrite IHn.
Qed.

Lemma sample_uuid_fresh : uuid_fresh Sample2.env_fresh.
Proof.
  intros m n H. apply (f_equal String.length) in H.
  cbn [uuid4 Sample2.env_fresh] in H. rewrite !token_length in H. congruence.
Qed.

Lemma scope_tokens_differ_witness :
  exists r1 s1 r2 s2,
    outbox (snd (scoped Sample2.env_fresh "pinpoint" "jobs" (Sample.answering tt) Sample.w0))
      = [r1; r2] /\
    req_time_series r1 = [s1] /\ req_time_series r2 = [s2] /\
    metric_labels s1 !! "uuid" <> metric_labels s2 !! "uuid".
Proof.
  destruct (scope_tokens_differ Sample2.env_fresh "pinpoint" "jobs" (Sample.answering tt)
              Sample.w0 (fun _ => eq_refl) sample_clock_ok
              (fun _ _ _ H => ltac:(discriminate H)) sample_uuid_fresh (le_n _))
    as (r1 & s1 & r2 & s2 & H1 & H2 & H3 & H4 & H5 & _).
  exists r1, s1, r2, s2. rewrite H3.
  change (outbox (snd (Sample.answering tt
            (snd (__enter__ Sample2.env_fresh (__init__ "pinpoint" "jobs") Sample.w0)))))
    with (outbox (snd (__enter__ Sample2.env_fresh (__init__ "pinpoint" "jobs") Sample.w0))).
  rewrite H1. repeat split; assumption.
Defined.

(** X8. After a block that returned, the timer logs one info record with
    the service name, the API name and the elapsed seconds, the same value
    the ["completed"] point carries; after a block that raised it logs no
    info record.  Anything else it logs is a publish warning. *)
Theorem scope_info_log (E : env) (service api : string)
    {A} (body : M A) (w : world) :
  clients_ok E -> clock_ok E -> backend_ok E ->
  let w1 := snd (__enter__ E (__init__ service api) w) in
  let w2 := snd (body w1) in
  let w3 := snd (scoped E service api body w) in
  let secs := B64.sub (wall_clock E (tick w2)) (wall_clock E (tick w)) in
  exists lg r s p,
    Forall is_warning lg /\
    outbox w3 = outbox w2 ++ [r] /\ req_time_series r = [s] /\ points s = [p] /\
    match fst (body w1) with
    | Ok _ => log w3 = log w2 ++ LogInfo "%s:%s=%f" service api secs :: lg /\
              double_value p = secs
    | Raise _ => log w3 = log w2 ++ lg
    end.
Proof.
  intros Hc Ht Hb. cbv zeta.
  destruct (scoped_full E Hc Ht Hb service api body w)
    as (t1 & lg1 & t2 & lg2 & _ & Hlg2 & -> & Hrun).
  match type of Hrun with context [body ?w1] => destruct (body w1) as [[a|e] w2] end;
    cbv zeta in Hrun; rewrite Hrun; cbn [fst snd outbox log];
    eexists lg2, _, _, _; repeat split; done.
Qed.

Lemma scope_info_log_witness :
  exists lg,
    log (snd (scoped Sample.env_ok "pinpoint" "jobs" (Sample.answering tt) Sample.w0)) =
      LogInfo "%s:%s=%f" "pinpoint" "jobs" (B64.sub Sample.t_later Sample.t_entry) :: lg.
Proof.
  destruct (scope_info_log Sample.env_ok "pinpoint" "jobs" (Sample.answering tt)
              Sample.w0 sample_clients_ok sample_clock_ok sample_backend_ok)
    as (lg & r & s & p & _ & _ & _ & _ & H & _).
  exists lg. exact H.
Defined.

(** ** The scoped timer when monitoring itself fails *)

Section TimerFailures.
Variable E : env.

(** A logger that came out of [__enter__] has its start time set. *)
Lemma enter_sets_start (self0 self : APIMetricLogger) (w w1 : world) :
__enter__ E self0 w = (Ok self, w1) ->
_start self = Some (wall_clock E (tick w)) /\
_service_name self = _service_name self0 /\ _api_name self = _api_name self0.
Proof.
unfold __enter__, bind, _Now, time_time, uuid4_str, get_application_id, next, ret.
destruct (_PublishTSCloudMetric E _ _ _ _ _ _) as [[[]|e] w']; intros [= <- <-]; done.
Qed.

End TimerFailures.

(** X9. If the client cannot be constructed when the timer is entered, the
    construction error reaches the caller and the timed block never runs:
    nothing is sent, nothing is logged, and the outcome does not depend on
    the block. *)
Theorem entry_failure_skips_block (E : env) (service api : string)
    {A} (body : M A) (w : world) (e : exn) :
  new_client E (3 + tick w) = Some e ->
  scoped E service api body w =
    (Raise e, {| tick := 4 + tick w; outbox := outbox w; log := log w |}).
Proof.
  intros Hc. unfold scoped, with_stmt, __enter__, bind, _Now, time_time, uuid4_str,
    get_application_id, next, ret.
  cbn [tick outbox log]. rewrite publish_paths. cbn [tick].
  change (S (S (S (tick w)))) with (3 + tick w)%nat. by rewrite Hc.
Qed.

Lemma entry_failure_skips_block_witness :
  scoped Sample.env_no_client "pinpoint" "jobs" (Sample.answering tt) Sample.w0 =
    (Raise Sample.DefaultCredentialsError, {| tick := 4; outbox := []; log := [] |}).
Proof.
  apply (entry_failure_skips_block Sample.env_no_client "pinpoint" "jobs"
           (Sample.answering tt) Sample.w0 Sample.DefaultCredentialsError eq_refl).
Defined.

(** X10. If the client cannot be constructed when the timer is left, the
    construction error replaces the outcome of the block: a value the block
    returned is lost, an exception the block raised is replaced, and no
    closing point is sent. *)
Theorem exit_failure_replaces_outcome (E : env) (service api : string)
    {A} (body : M A) (w w1 w2 : world) (self : APIMetricLogger)
    (res : result A) (e : exn) :
  __enter__ E (__init__ service api) w = (Ok self, w1) ->
  body w1 = (res, w2) ->
  new_client E (match res with Ok _ => 3 | Raise _ => 2 end + tick w2) = Some e ->
  fst (scoped E service api body w) = Raise e /\
  outbox (snd (scoped E service api body w)) = outbox w2.
Proof.
  intros Henter Hbody Hc. unfold scoped, with_stmt. rewrite Henter, Hbody.
  destruct (enter_sets_start E _ _ _ _ Henter) as (Hstart & _).
  destruct res as [a|e0].
  - unfold __exit__, bind, _Now, time_time, uuid4_str, get_application_id, next, ret,
      logging_emit.
    rewrite Hstart. cbn [tick outbox log].
    rewrite publish_paths. cbn [tick].
    change (S (S (S (tick w2)))) with (3 + tick w2)%nat. by rewrite Hc.
  - unfold __exit__, bind, uuid4_str, get_application_id, next, ret.
    cbn [tick outbox log].
    rewrite publish_paths. cbn [tick].
    change (S (S (tick w2))) with (2 + tick w2)%nat. by rewrite Hc.
Qed.

Lemma exit_failure_replaces_outcome_witness :
  fst (scoped (Sample2.env_client_fails_at 9) "pinpoint" "jobs" (Sample.answering tt)
         Sample.w0) = Raise Sample.DefaultCredentialsError /\
  fst (scoped (Sample2.env_client_fails_at 8) "pinpoint" "jobs" (Sample.failing tt)
         Sample.w0) = Raise Sample.DefaultCredentialsError.
Proof.
  split.
  - exact (proj1 (exit_failure_replaces_outcome (Sample2.env_client_fails_at 9)
                    "pinpoint" "jobs" (Sample.answering tt) Sample.w0 _ _ _ _
                    Sample.DefaultCredentialsError eq_refl eq_refl eq_refl)).
  - exact (proj1 (exit_failure_replaces_outcome (Sample2.env_client_fails_at 8)
                    "pinpoint" "jobs" (Sample.failing tt) Sample.w0 _ _ _ _
                    Sample.DefaultCredentialsError eq_refl eq_refl eq_refl)).
Defined.

(** X11. The state of a logger object: a new logger has [seconds = 0] and
    no start time, and leaving it on the normal path before entering it
    raises [TypeError] without publishing; entering sets the start time;
    leaving on the normal path stores the elapsed seconds in [seconds];
    leaving on an exception leaves the object unchanged. *)
Theorem logger_state_protocol (E : env) (service api : string) (w : world) :
  clients_ok E -> clock_ok E -> backend_ok E ->
  seconds (__init__ service api) = PyInt 0 /\
  (forall w0, __exit__ E (__init__ service api) None w0 = (Raise TypeError, next w0)) /\
  exists self1,
    fst (__enter__ E (__init__ service api) w) = Ok self1 /\
    _start self1 = Some (wall_clock E (tick w)) /\
    seconds self1 = PyInt 0 /\
    (forall w2, exists self2,
       fst (__exit__ E self1 None w2) = Ok (true, self2) /\
       seconds self2 = PyFloat (B64.sub (wall_clock E (tick w2)) (wall_clock E (tick w)))) /\
    (forall e w2, fst (__exit__ E self1 (Some e) w2) = Ok (false, self1)).
Proof.
  intros Hc Ht Hb. split; [reflexivity|]. split; [reflexivity|].
  destruct (enter_full E Hc Ht Hb (__init__ service api) w) as (t1 & lg1 & _ & Henter).
  rewrite Henter. eexists. split; [reflexivity|]. split; [reflexivity|].
  split; [reflexivity|]. split.
  - intros w2.
    match goal with
    | |- context [__exit__ E ?self None w2] =>
        destruct (exit_normal_full E Hc Ht Hb self _ w2 eq_refl) as (t2 & lg2 & _ & ->)
    end.
    eexists. split; reflexivity.
  - intros e w2.
    match goal with
    | |- context [__exit__ E ?self (Some e) w2] =>
        destruct (exit_failed_full E Hc Ht Hb self e w2) as (t2 & lg2 & _ & ->)
    end.
    reflexivity.
Qed.

Lemma logger_state_protocol_witness :
  exists self1,
    fst (__enter__ Sample.env_ok (__init__ "pinpoint" "jobs") Sample.w0) = Ok self1 /\
    _start self1 = Some Sample.t_entry.
Proof.
  destruct (logger_state_protocol Sample.env_ok "pinpoint" "jobs" Sample.w0
              sample_clients_ok sample_clock_ok sample_backend_ok)
    as (_ & _ & self1 & H1 & H2 & _).
  exists self1. split; assumption.
Defined.

(** X14. Timers nest: the outcome of the innermost block passes through
    both scopes unchanged, and on the way out the inner scope reports first
    and the outer scope second, both with the status of that outcome. *)
Theorem nested_scopes_report_in_order (E : env) (service1 api1 service2 api2 : string)
    {A} (body : M A) (w w2 : world) (res : result A) :
  clients_ok E -> clock_ok E -> backend_ok E ->
  let w_outer := snd (__enter__ E (__init__ service1 api1) w) in
  let w_inner := snd (__enter__ E (__init__ service2 api2) w_outer) in
  let nested := scoped E service1 api1 (scoped E service2 api2 body) in
  let status := match res with Ok _ => "completed" | Raise _ => "failed" end in
  body w_inner = (res, w2) ->
  exists r_in s_in r_out s_out,
    fst (nested w) = match res with
                     | Ok a => Ok (Some (Some a))
                     | Raise e => Raise e
                     end /\
    outbox (snd (nested w)) = outbox w2 ++ [r_in; r_out] /\
    req_time_series r_in = [s_in] /\ req_time_series r_out = [s_out] /\
    api_labels_of api2 status (uuid4 E (match res with Ok _ => 1 | Raise _ => 0 end + tick w2))
      (metric_labels s_in) /\
    metric_labels s_out !! "api_name" = Some api1 /\
    metric_labels s_out !! "request_status" = Some status.
Proof.
  intros Hc Ht Hb. cbv zeta. intros Hbody.
  destruct (scoped_full E Hc Ht Hb service1 api1 (scoped E service2 api2 body) w)
    as (t1 & lg1 & t4 & lg4 & _ & _ & Hw1 & Hout).
  cbv zeta in Hw1, Hout.
  destruct (scoped_full E Hc Ht Hb service2 api2 body
              (snd (__enter__ E (__init__ service1 api1) w)))
    as (t2 & lg2 & t3 & lg3 & _ & _ & Hw2 & Hin).
  cbv zeta in Hw2, Hin. rewrite Hbody in Hin.
  destruct res as [a|e]; cbv zeta in Hin; rewrite Hin in Hout; cbv zeta in Hout;
    rewrite Hout; cbn [fst snd outbox tick];
    eexists _, _, _, _;
    (split; [reflexivity|]);
    (split; [by rewrite <- (assoc_L (++))|]);
    (split; [reflexivity|]); (split; [reflexivity|]);
    (split; [apply api_label_dict_spec|]);
    cbn [request_for metric_labels]; split; reflexivity.
Qed.

Lemma nested_scopes_report_in_order_witness :
  fst (scoped Sample.env_ok "pinpoint" "jobs"
         (scoped Sample.env_ok "pinpoint" "jobs/new" (Sample.failing tt)) Sample.w0)
    = Raise ValueError.
Proof.
  destruct (nested_scopes_report_in_order Sample.env_ok "pinpoint" "jobs" "pinpoint"
              "jobs/new" (Sample.failing tt) Sample.w0 _ (Raise ValueError)
              sample_clients_ok sample_clock_ok sample_backend_ok eq_refl)
    as (r1 & s1 & r2 & s2 & H & _).
  exact H.
Defined.

(** ** More binary64 facts: exact differences and negative readings *)

(** Two mantissa/exponent pairs of the same value denote the same rational. *)
Lemma to_Q_scaled (fm d : positive) (fe e : Z) :
  fe <= e -> Z.pos fm = Z.pos d * 2 ^ (e - fe) ->
  (B64.to_Q (S754_finite false fm fe) == B64.to_Q (S754_finite false d e))%Q.
Proof.
  intros Hle Hfm. cbn [B64.to_Q cond_Zopp].
  pose proof (pow2_pos (e - fe) ltac:(lia)) as Hc.
  destruct (Z.leb_spec 0 fe) as [Hfe|Hfe], (Z.leb_spec 0 e) as [He|He]; try lia.
  - assert (2 ^ e = 2 ^ (e - fe) * 2 ^ fe) as Hs.
    { rewrite <- pow2_split by lia. f_equal; lia. }
    unfold Qeq, inject_Z. cbn [Qnum Qden]. rewrite Hfm, Hs. lia.
  - pose proof (pow2_pos (- fe) ltac:(lia)).
    assert (2 ^ (e - fe) = 2 ^ e * 2 ^ (- fe)) as Hs.
    { rewrite <- pow2_split by lia. f_equal; lia. }
    unfold Qeq, inject_Z. cbn [Qnum Qden]. rewrite Z2Pos.id by lia.
    rewrite Hfm, Hs. lia.
  - pose proof (pow2_pos (- fe) ltac:(lia)). pose proof (pow2_pos (- e) ltac:(lia)).
    assert (2 ^ (- fe) = 2 ^ (e - fe) * 2 ^ (- e)) as Hs.
    { rewrite <- pow2_split by lia. f_equal; lia. }
    unfold Qeq. cbn [Qnum Qden]. rewrite !Z2Pos.id by lia.
    rewrite Hfm, Hs. lia.
Qed.

Lemma to_Q_minus (m1 m0 d : positive) (e : Z) :
  Z.pos d = Z.pos m1 - Z.pos m0 ->
  (B64.to_Q (S754_finite false d e) ==
     B64.to_Q (S754_finite false m1 e) - B64.to_Q (S754_finite false m0 e))%Q.
Proof.
  intros Hd. cbn [B64.to_Q cond_Zopp]. destruct (Z.leb_spec 0 e) as [He|He].
  - unfold Qeq, Qminus, Qplus, Qopp, inject_Z. cbn [Qnum Qden]. lia.
  - unfold Qeq, Qminus, Qplus, Qopp. cbn [Qnum Qden].
    rewrite Pos2Z.inj_mul. lia.
Qed.

(** Two positive doubles with the same exponent subtract without rounding. *)
Lemma sub_same_exp_exact (m0 m1 : positive) (e : Z) :
  bounded 53 1024 m0 e = true -> bounded 53 1024 m1 e = true ->
  (m0 <= m1)%positive ->
  (B64.to_Q (B64.sub (S754_finite false m1 e) (S754_finite false m0 e)) ==
     B64.to_Q (S754_finite false m1 e) - B64.to_Q (S754_finite false m0 e))%Q.
Proof.
  intros H0 H1 Hle.
  pose proof (bounded_spec m1 e H1) as (_ & H971 & Hmin & Hm1).
  unfold B64.sub. rewrite SFsub_same_exp.
  destruct (Z.pos m1 - Z.pos m0) as [|d|d] eqn:Ed; [| |lia].
  - assert (m1 = m0) as -> by (apply Pos2Z.inj; lia). cbn [binary_normalize B64.to_Q].
    symmetry. apply Qplus_opp_r.
  - pose proof (digits2_pos_lt d 53 ltac:(lia) ltac:(lia)) as Hdd.
    pose proof (fexp64 (Z.pos (digits2_pos d) + e)) as Hf.
    destruct (binary_normalize_exact d e ltac:(lia) ltac:(lia)) as (fm & -> & Hfm & _).
    rewrite (to_Q_scaled fm d (fexp 53 1024 (Z.pos (digits2_pos d) + e)) e ltac:(lia) Hfm).
    by apply to_Q_minus.
Qed.

(** X12. When the entry and exit readings have the same binary exponent
    (as any two readings between 2^30 and 2^31 seconds do), the value of the
    ["completed"] point is the exact difference of the two readings: the
    subtraction does not round. *)
Theorem elapsed_is_exact_in_one_binade (E : env) (service api : string)
    {A} (body : M A) (w w2 : world) (a : A) (m0 m1 : positive) (e : Z) :
  clients_ok E -> clock_ok E -> backend_ok E ->
  body (snd (__enter__ E (__init__ service api) w)) = (Ok a, w2) ->
  wall_clock E (tick w) = S754_finite false m0 e ->
  wall_clock E (tick w2) = S754_finite false m1 e ->
  (m0 <= m1)%positive ->
  exists r s p v,
    outbox (snd (scoped E service api body w)) = outbox w2 ++ [r] /\
    req_time_series r = [s] /\ points s = [p] /\
    double_value p = v /\
    (B64.to_Q v == B64.to_Q (wall_clock E (tick w2)) - B64.to_Q (wall_clock E (tick w)))%Q.
Proof.
  intros Hc Ht Hb Hbody H0 H1 Hle.
  destruct (scoped_full E Hc Ht Hb service api body w)
    as (t1 & lg1 & t2 & lg2 & _ & _ & Hw1 & Hrun).
  cbv zeta in Hw1. rewrite Hbody in Hrun. cbv zeta in Hrun. rewrite Hrun.
  cbn [snd outbox]. eexists _, _, _, _.
  split; [reflexivity|]. split; [reflexivity|]. split; [reflexivity|].
  split; [reflexivity|].
  rewrite H0, H1. apply sub_same_exp_exact; [| |done].
  - pose proof (valid_time_nonneg _ (Ht (tick w))) as Hv. by rewrite H0 in Hv.
  - pose proof (valid_time_nonneg _ (Ht (tick w2))) as Hv. by rewrite H1 in Hv.
Qed.

Lemma elapsed_is_exact_in_one_binade_witness :
  exists r s p v,
    outbox (snd (scoped Sample.env_ok "pinpoint" "jobs" (Sample.answering tt) Sample.w0)) =
      outbox (snd (__enter__ Sample.env_ok (__init__ "pinpoint" "jobs") Sample.w0)) ++ [r] /\
    req_time_series r = [s] /\ points s = [p] /\
    double_value p = v /\
    (B64.to_Q v == 3 # 2)%Q.
Proof.
  destruct (elapsed_is_exact_in_one_binade Sample.env_ok "pinpoint" "jobs"
              (Sample.answering tt) Sample.w0 _ 42 7130316801048576 7130316807340032 (-22)
              sample_clients_ok sample_clock_ok sample_backend_ok
              eq_refl eq_refl eq_refl ltac:(discriminate))
    as (r & s & p & v & H1 & H2 & H3 & H4 & H5).
  exists r, s, p, v. repeat split; try assumption.
  rewrite H5. reflexivity.
Defined.

(** The sign only passes through rounding. *)
Lemma binary_round_aux_opp (m e : Z) (l : location) :
  binary_round_aux 53 1024 true m e l = SFopp (binary_round_aux 53 1024 false m e l).
Proof.
  unfold binary_round_aux.
  destruct (shr_fexp 53 1024 m e l) as [mrs e'].
  destruct (shr_fexp 53 1024 _ e' loc_Exact) as [mrs' e''].
  destruct (shr_m mrs'); try done. by destruct (e'' <=? 1024 - 53).
Qed.

Lemma binary_round_opp (m : positive) (e : Z) :
  binary_round 53 1024 true m e = SFopp (binary_round 53 1024 false m e).
Proof.
  unfold binary_round. destruct (shl_align m e _). apply binary_round_aux_opp.
Qed.

Lemma binary_normalize_opp (d e : Z) :
  binary_normalize 53 1024 (- d) e false =
    if d =? 0 then S754_zero false else SFopp (binary_normalize 53 1024 d e false).
Proof.
  destruct d as [|p|p].
  - reflexivity.
  - change (binary_round 53 1024 true p e = SFopp (binary_round 53 1024 false p e)).
    apply binary_round_opp.
  - change (binary_round 53 1024 false p e = SFopp (binary_round 53 1024 true p e)).
    rewrite binary_round_opp.
    by destruct (binary_round 53 1024 false p e) as [[]|[]| |[]].
Qed.

(** A rounded positive integer has no sign bit. *)
Lemma binary_round_sign (m : positive) (e : Z) :
  match binary_round 53 1024 false m e with
  | S754_zero s | S754_infinity s | S754_finite s _ _ => s = false
  | S754_nan => True
  end.
Proof.
  unfold binary_round. destruct (shl_align m e _) as [mz ez].
  unfold binary_round_aux.
  destruct (shr_fexp 53 1024 (Z.pos mz) ez loc_Exact) as [mrs e'].
  destruct (shr_fexp 53 1024 _ e' loc_Exact) as [mrs' e''].
  destruct (shr_m mrs'); try done. by destruct (e'' <=? 1024 - 53).
Qed.

Lemma int_of_float_opp (f : spec_float) :
  int_of_float (SFopp f) =
    match int_of_float f with
    | Ok z => Ok (- z)
    | Raise e => Raise e
    end.
Proof.
  destruct f as [s|s| |s m e]; try done.
  destruct s; cbn [SFopp negb int_of_float cond_Zopp]; [|done].
  by rewrite Z.opp_involutive.
Qed.

Lemma mul_opp_1e9 (x : spec_float) :
  B64.mul (SFopp x) (S754_finite false B64.m9 (-23)) =
    SFopp (B64.mul x (S754_finite false B64.m9 (-23))).
Proof.
  destruct x as [[]|[]| |[] m e]; try done; unfold B64.mul; cbn [SFopp SFmul negb xorb].
  - rewrite binary_round_aux_opp.
    by destruct (binary_round_aux 53 1024 false _ _ _) as [[]|[]| |[]].
  - apply binary_round_aux_opp.
Qed.

(** Subtracting mirrored operands mirrors the difference, except that an
    exact zero is [+0] both times. *)
Lemma sub_opp (m : positive) (e : Z) (fs : spec_float) :
  match fs with
  | S754_zero s | S754_infinity s | S754_finite s _ _ => s = false
  | S754_nan => True
  end ->
  (forall s, fs <> S754_infinity s) ->
  B64.sub (S754_finite true m e) (SFopp fs) =
    SFopp (B64.sub (S754_finite false m e) fs) \/
  B64.sub (S754_finite true m e) (SFopp fs) = S754_zero false /\
  B64.sub (S754_finite false m e) fs = S754_zero false.
Proof.
  intros Hs Hinf. destruct fs as [s|s| |s ms es]; try subst s.
  - by left.
  - by destruct (Hinf false).
  - by left.
  - unfold B64.sub. cbn [SFopp SFsub negb cond_Zopp].
    set (a := Z.pos (fst (shl_align m e (Z.min e es)))).
    set (b := Z.pos (fst (shl_align ms es (Z.min e es)))).
    replace (- a - - b) with (- (a - b)) by lia.
    rewrite binary_normalize_opp.
    destruct (Z.eqb_spec (a - b) 0) as [->|Hne]; [by right|by left].
Qed.

(** For a reading before the epoch the split mirrors the split of its
    absolute value. *)
Lemma end_time_mirror (m : positive) (e : Z) :
  bounded 53 1024 m e = true ->
  exists sec nanos,
    end_time (S754_finite false m e) = Ok (sec, nanos) /\
    end_time (S754_finite true m e) = Ok (- sec, - nanos).
Proof.
  intros Hb.
  destruct (end_time_core m e Hb) as (fs & N & Hfs & Hinf & HN & _).
  destruct (end_time_finite m e Hb) as (N' & Het & _).
  exists (Z.shiftl (Z.pos m) e), N'. split; [done|].
  assert (N' = N) as ->.
  { revert Het. unfold end_time. cbn [int_of_float cond_Zopp result_bind].
    unfold float_sub_int. rewrite float_of_int_finite by (unfold B64.of_Z; by rewrite Hfs).
    unfold B64.of_Z. rewrite Hfs. cbn [result_bind]. unfold float_mul_int.
    rewrite float_of_int_1e9. cbn [result_bind]. unfold B64.mul, B64.sub. rewrite HN.
    by intros [= ->]. }
  clear Het. unfold end_time. cbn [int_of_float cond_Zopp result_bind].
  assert (0 <= Z.shiftl (Z.pos m) e) as Hsec by (apply Z.shiftl_nonneg; lia).
  remember (Z.shiftl (Z.pos m) e) as sec eqn:Hsecdef. clear Hsecdef.
  assert (match fs with
          | S754_zero s | S754_infinity s | S754_finite s _ _ => s = false
          | S754_nan => True
          end) as Hsign.
  { rewrite <- Hfs. destruct sec as [|sp|sp]; [done| |lia]. apply binary_round_sign. }
  assert (float_of_int (- sec) = Ok (SFopp fs) \/
          sec = 0 /\ fs = S754_zero false /\ float_of_int (- sec) = Ok fs) as Hconv.
  { destruct sec as [|sp|sp]; [| |lia].
    - right. cbn in Hfs. subst fs. repeat split; reflexivity.
    - left. unfold float_of_int, B64.of_Z.
      change (binary_normalize 53 1024 (- Z.pos sp) 0 false)
        with (binary_round 53 1024 true sp 0).
      rewrite binary_round_opp. cbn [binary_normalize] in Hfs. rewrite Hfs.
      destruct fs as [s|s| |s ms es]; try done; by destruct (Hinf s). }
  unfold float_sub_int.
  assert (exists frac',
            B64.sub (S754_finite true m e)
              (match float_of_int (- sec) with Ok y => y | Raise _ => S754_nan end) = frac' /\
            float_of_int (- sec) <> Raise OverflowError /\
            int_of_float (B64.mul frac' (S754_finite false B64.m9 (-23))) = Ok (- N))
    as (frac' & Hfrac & Hok & Hint).
  { destruct Hconv as [Hc|(Hz & Hfz & Hc)]; rewrite Hc.
    - destruct (sub_opp m e fs Hsign Hinf) as [Hop|[Hz1 Hz2]].
      + eexists. split; [reflexivity|]. split; [done|].
        rewrite Hop, mul_opp_1e9, int_of_float_opp. unfold B64.mul, B64.sub.
        by rewrite HN.
      + eexists. split; [reflexivity|]. split; [done|].
        rewrite Hz1. unfold B64.sub in Hz2. rewrite Hz2 in HN.
        cbn in HN. injection HN as <-. reflexivity.
    - eexists. split; [reflexivity|]. split; [done|].
      clear Hfs. subst fs. unfold B64.sub. cbn [SFsub].
      change (S754_finite true m e) with (SFopp (S754_finite false m e)).
      rewrite mul_opp_1e9, int_of_float_opp.
      cbn [SFsub] in HN. unfold B64.mul. by rewrite HN. }
  destruct (float_of_int (- sec)) as [y|ex]; cbn [result_bind].
  - unfold float_mul_int. rewrite float_of_int_1e9. cbn [result_bind].
    rewrite Hfrac, Hint. reflexivity.
  - exfalso. destruct Hconv as [Hc|(_ & _ & Hc)]; discriminate Hc.
Qed.

Lemma to_Q_opp (m : positive) (e : Z) :
  B64.to_Q (S754_finite true m e) = Qopp (B64.to_Q (S754_finite false m e)).
Proof.
  cbn [B64.to_Q cond_Zopp]. destruct (0 <=? e); unfold Qopp, inject_Z; cbn [Qnum Qden].
  - f_equal. lia.
  - reflexivity.
Qed.

(** X13. For a clock reading before the epoch, down to [-2^63] seconds,
    the split truncates toward zero: the seconds are the ceiling of the
    reading and the nanoseconds lie in (-10^9, 0], so the pair is still
    within one nanosecond of the reading but its nanosecond field is not
    positive. *)
Theorem reading_before_epoch (E : env)
    (project service mtype : string) (label_dict : gmap string string)
    (mv : option number) (w : world) (m : positive) (e : Z) :
  let now := wall_clock E (S (tick w)) in
  new_client E (tick w) = None ->
  now = S754_finite true m e ->
  bounded 53 1024 m e = true ->
  - 2 ^ 63 <= Qceiling (B64.to_Q now) ->
  value_ok mv = true ->
  exists r s pt,
    outbox (snd (_PublishTSCloudMetric E project service mtype label_dict mv w)) =
      outbox w ++ [r] /\
    req_time_series r = [s] /\
    points s = [pt] /\
    end_seconds pt = Qceiling (B64.to_Q now) /\
    - 10 ^ 9 < end_nanos pt <= 0 /\
    (Qabs (B64.to_Q now - (inject_Z (end_seconds pt) + (end_nanos pt # 1000000000)))
       < (1 # 1000000000))%Q.
Proof.
  intros now Hc Hnow Hb Hrange Hval.
  destruct (end_time_mirror m e Hb) as (sec & nanos & Hpos & Hneg).
  destruct (end_time_spec (S754_finite false m e) Hb)
    as (sec' & nanos' & Hpos' & Hsec & Hn & Habs).
  rewrite Hpos in Hpos'. injection Hpos' as <- <-.
  destruct (value_ok_double mv Hval) as (d & Hd).
  rewrite Hnow, to_Q_opp in Hrange. unfold Qceiling in Hrange.
  rewrite Qopp_involutive, <- Hsec in Hrange.
  assert (0 <= sec) as Hsec0.
  { rewrite (end_time_seconds _ _ _ _ _ Hpos). apply Z.shiftl_nonneg. lia. }
  assert (TimeInterval_new (- sec) (- nanos) = Ok (- sec, - nanos)) as Hti.
  { assert (10 ^ 9 < 2 ^ 31) by done. assert (0 < 2 ^ 63) by done.
    apply TimeInterval_new_ok; lia. }
  rewrite publish_paths, Hc. fold now. rewrite Hnow, Hneg.
  cbn [result_bind fst snd]. rewrite Hti. cbn [result_bind].
  unfold Point_new. rewrite Hd. cbn [result_bind fst snd]. cbv zeta.
  destruct (backend E (S (S (tick w))) _) as [ex|];
    [destruct (exn_is_Exception ex)|]; cbn [snd outbox];
    eexists _, _, _;
    (split; [reflexivity|]); (split; [reflexivity|]); (split; [reflexivity|]);
    cbn [end_seconds end_nanos fst snd]; rewrite to_Q_opp;
    (split; [unfold Qceiling; by rewrite Qopp_involutive, <- Hsec|]);
    (split; [lia|]);
    (assert (- B64.to_Q (S754_finite false m e) -
              (inject_Z (- sec) + (- nanos # 1000000000)) ==
             - (B64.to_Q (S754_finite false m e) -
                (inject_Z sec + (nanos # 1000000000))))%Q as ->
     by (rewrite inject_Z_opp;
         change (- nanos # 1000000000)%Q with (- (nanos # 1000000000))%Q; ring));
    by rewrite Qabs_opp.
Qed.

Lemma reading_before_epoch_witness :
  exists r s pt,
    outbox (snd (_PublishTSCloudMetric Sample2.env_before_epoch "proj1" "pinpoint"
                   "pinpoint/job/run_time" (job_label_dict "job42" "perf" "FROZEN") None
                   Sample.w0)) = outbox Sample.w0 ++ [r] /\
    req_time_series r = [s] /\ points s = [pt] /\
    end_seconds pt = -1 /\
    - 10 ^ 9 < end_nanos pt <= 0.
Proof.
  destruct (reading_before_epoch Sample2.env_before_epoch "proj1" "pinpoint"
              "pinpoint/job/run_time" (job_label_dict "job42" "perf" "FROZEN") None
              Sample.w0 6755399441055744 (-52) eq_refl eq_refl eq_refl
              ltac:(vm_compute; discriminate) eq_refl)
    as (r & s & pt & H1 & H2 & H3 & H4 & H5 & _).
  exists r, s, pt. repeat split; try assumption; apply H5.
Defined.

(** -1.5 seconds splits into -1 second and -500000000 nanoseconds. *)
Example end_time_before_epoch :
  end_time (S754_finite true 6755399441055744 (-52)) = Ok (-1, -500000000).
Proof. vm_compute. reflexivity. Qed.

(** ** Rounding is monotone *)

(** Rounding to nearest, case by case. *)
Lemma rne_cases (m : Z) (k : positive) :
  0 <= m ->
  let q := m / 2 ^ Z.pos k in
  let rem := m mod 2 ^ Z.pos k in
  (2 * rem < 2 ^ Z.pos k -> B64.rne m k = q) /\
  (2 ^ Z.pos k < 2 * rem -> B64.rne m k = q + 1) /\
  (2 * rem = 2 ^ Z.pos k -> B64.rne m k = if Z.even q then q else q + 1).
Proof.
  intros Hm q rem. subst q rem. unfold B64.rne, B64.shr_state.
  cbn [shr_m loc_of_shr_record].
  assert (0 < 2 ^ (Z.pos k - 1)) by (apply Z.pow_pos_nonneg; lia).
  assert (2 ^ Z.pos k = 2 * 2 ^ (Z.pos k - 1)) as Hp.
  { rewrite <- Z.pow_succ_r by lia. f_equal; lia. }
  pose proof (Z.mod_pos_bound m (2 ^ Z.pos k) ltac:(lia)) as Hrem.
  set (q := m / 2 ^ Z.pos k) in *. set (rem := m mod 2 ^ Z.pos k) in *.
  destruct (Z.leb_spec (2 ^ (Z.pos k - 1)) rem), (Z.eqb_spec rem 0),
    (Z.eqb_spec rem (2 ^ (Z.pos k - 1))); cbn -[Z.pow Z.add Z.mul Z.even];
    repeat split; intros; try lia; reflexivity.
Qed.

(** The rounded mantissa depends on the value only, not on how many
    trailing zero bits the mantissa carries. *)
Lemma rne_scale (m : Z) (k j : positive) :
  0 <= m -> B64.rne (m * 2 ^ Z.pos j) (k + j) = B64.rne m k.
Proof.
  intros Hm.
  pose proof (pow2_pos (Z.pos k) ltac:(lia)) as Hk.
  pose proof (pow2_pos (Z.pos j) ltac:(lia)) as Hj.
  assert (2 ^ Z.pos (k + j) = 2 ^ Z.pos k * 2 ^ Z.pos j) as Hs.
  { rewrite Pos2Z.inj_add. apply pow2_split; lia. }
  assert (0 <= m * 2 ^ Z.pos j) as Hm' by nia.
  pose proof (rne_cases (m * 2 ^ Z.pos j) (k + j) Hm') as (Hlt' & Hgt' & Heq').
  pose proof (rne_cases m k Hm) as (Hlt & Hgt & Heq).
  cbv zeta in *. rewrite Hs in *.
  rewrite Z.div_mul_cancel_r in * by lia.
  rewrite Z.mul_mod_distr_r in * by lia.
  set (q := m / 2 ^ Z.pos k) in *. set (rem := m mod 2 ^ Z.pos k) in *.
  set (T := 2 ^ Z.pos k) in *. set (J := 2 ^ Z.pos j) in *.
  destruct (Z.lt_trichotomy (2 * rem) T) as [H|[H|H]].
  - rewrite Hlt by done. apply Hlt'. nia.
  - rewrite Heq by done. apply Heq'. nia.
  - rewrite Hgt by done. apply Hgt'. nia.
Qed.

Lemma digits2_pos_mono (p q : positive) :
  Z.pos p <= Z.pos q -> Z.pos (digits2_pos p) <= Z.pos (digits2_pos q).
Proof.
  intros Hpq. pose proof (digits2_pos_bounds q) as [_ Hq].
  apply digits2_pos_lt; lia.
Qed.

(** The truncated rounded value does not depend on trailing zero bits of
    the mantissa. *)
Lemma round_trunc_scale (P P' : positive) (E j : Z) :
  0 <= j -> Z.pos P' = Z.pos P * 2 ^ j ->
  E <= 0 -> Z.pos (digits2_pos P) + E <= 52 ->
  E <= fexp 53 1024 (Z.pos (digits2_pos P) + E) ->
  int_of_float (binary_round_aux 53 1024 false (Z.pos P') (E - j) loc_Exact) =
  int_of_float (binary_round_aux 53 1024 false (Z.pos P) E loc_Exact).
Proof.
  intros Hj HP' HE Hd Hg.
  destruct j as [|jp|jp]; [| |lia].
  - rewrite Z.mul_1_r in HP'. injection HP' as ->. by rewrite Z.sub_0_r.
  - pose proof (digits2_pos_shift P P' (Z.pos jp) ltac:(lia) HP') as Hdig.
    assert (Z.pos (digits2_pos P') + (E - Z.pos jp) = Z.pos (digits2_pos P) + E) as Hd' by lia.
    destruct (round_trunc P E HE Hd) as (N & HN & _ & _ & Hex & Hrd).
    destruct (round_trunc P' (E - Z.pos jp) ltac:(lia) ltac:(lia))
      as (N' & HN' & _ & _ & _ & Hrd').
    rewrite HN, HN'. f_equal. rewrite Hd' in Hrd'.
    set (g := fexp 53 1024 (Z.pos (digits2_pos P) + E)) in *.
    destruct (g - E) as [|k|k] eqn:Ek; [| |lia].
    + rewrite (Hex ltac:(lia)).
      rewrite (Hrd' jp ltac:(lia)).
      replace (E - Z.pos jp + Z.pos jp) with E by lia.
      f_equal. rewrite HP'.
      pose proof (pow2_pos (Z.pos jp) ltac:(lia)) as Hjp.
      pose proof (rne_cases (Z.pos P * 2 ^ Z.pos jp) jp ltac:(lia)) as (Hlt & _ & _).
      cbv zeta in Hlt. rewrite Z.mod_mul, Z.div_mul in Hlt by lia. apply Hlt. lia.
    + rewrite (Hrd k ltac:(lia)).
      rewrite (Hrd' (k + jp)%positive ltac:(lia)).
      replace (E - Z.pos jp + Z.pos (k + jp)) with (E + Z.pos k) by lia.
      f_equal. rewrite HP'. apply rne_scale. lia.
Qed.

(** Rounding to nearest is monotone in the mantissa. *)
Lemma rne_mono (m0 m1 : Z) (k : positive) :
  0 <= m0 <= m1 -> B64.rne m0 k <= B64.rne m1 k.
Proof.
  intros [H0 Hle].
  pose proof (pow2_pos (Z.pos k) ltac:(lia)) as HT.
  pose proof (rne_spec m0 k H0) as ((_ & Hhi0) & _).
  pose proof (rne_spec m1 k ltac:(lia)) as ((Hlo1 & _) & _).
  pose proof (rne_cases m0 k H0) as (Hlt0 & Hgt0 & Heq0).
  pose proof (rne_cases m1 k ltac:(lia)) as (Hlt1 & Hgt1 & Heq1).
  cbv zeta in Hlt0, Hgt0, Heq0, Hlt1, Hgt1, Heq1.
  pose proof (Z.div_le_mono m0 m1 (2 ^ Z.pos k) HT Hle) as Hq.
  pose proof (Z.div_mod m0 (2 ^ Z.pos k) ltac:(lia)) as Hdm0.
  pose proof (Z.div_mod m1 (2 ^ Z.pos k) ltac:(lia)) as Hdm1.
  set (T := 2 ^ Z.pos k) in *.
  set (q0 := m0 / T) in *. set (q1 := m1 / T) in *.
  set (rem0 := m0 mod T) in *. set (rem1 := m1 mod T) in *.
  destruct (Z_lt_le_dec q0 q1) as [|Hge]; [lia|].
  assert (q1 = q0) as Hqq by lia. rewrite Hqq in *.
  assert (rem0 <= rem1) as Hrem by lia.
  destruct (Z.lt_trichotomy (2 * rem0) T) as [H|[H|H]].
  - rewrite (Hlt0 H). lia.
  - rewrite (Heq0 H).
    destruct (Z.lt_trichotomy (2 * rem1) T) as [H1|[H1|H1]]; [lia| |].
    + rewrite (Heq1 H1). lia.
    + rewrite (Hgt1 H1). destruct (Z.even q0); lia.
  - rewrite (Hgt0 H), (Hgt1 ltac:(lia)). lia.
Qed.

(** When a mantissa rounds up to the next multiple of [S], every larger
    mantissa below that multiple has the same number of digits. *)
Lemma round_up_same_range (P0 P1 T S D n r0 : Z) :
  0 < T -> 0 < S -> 0 < D -> 0 <= P0 <= P1 ->
  n = P0 / (T * S) -> P1 < (n + 1) * (T * S) ->
  (n + 1) * S <= r0 -> r0 <= P0 / T + 1 ->
  P0 < D * T ->
  r0 = (n + 1) * S /\ P1 < D * T.
Proof.
  intros HT HS HD [H0 Hle] Hn HP1 Hr0 Hr0' HP0.
  assert (P0 / T < (n + 1) * S) as Hq0.
  { apply Z.div_lt_upper_bound; [done|].
    replace (T * ((n + 1) * S)) with ((n + 1) * (T * S)) by ring. lia. }
  assert (P0 / T < D) as Hq0D.
  { apply Z.div_lt_upper_bound; [done|]. by rewrite Z.mul_comm. }
  split; [lia|].
  assert ((P0 / T + 1) * T <= D * T) as Hm by (apply Z.mul_le_mono_nonneg_r; lia).
  assert ((n + 1) * (T * S) = (P0 / T + 1) * T) as Heq.
  { replace (P0 / T + 1) with ((n + 1) * S) by lia. ring. }
  lia.
Qed.

(** Rounding and then truncating is monotone in the mantissa. *)
Lemma round_trunc_mono (P0 P1 : positive) (E : Z) :
  E <= 0 -> Z.pos (digits2_pos P1) + E <= 52 -> Z.pos P0 <= Z.pos P1 ->
  exists N0 N1,
    int_of_float (binary_round_aux 53 1024 false (Z.pos P0) E loc_Exact) = Ok N0 /\
    int_of_float (binary_round_aux 53 1024 false (Z.pos P1) E loc_Exact) = Ok N1 /\
    N0 <= N1.
Proof.
  intros HE Hd1 Hle.
  pose proof (digits2_pos_mono P0 P1 Hle) as Hdm.
  destruct (round_trunc P0 E HE ltac:(lia)) as (N0 & HN0 & Hfl0 & Hce0 & Hex0 & Hrd0).
  destruct (round_trunc P1 E HE Hd1) as (N1 & HN1 & Hfl1 & Hce1 & Hex1 & Hrd1).
  exists N0, N1. split; [done|]. split; [done|]. clear HN0 HN1.
  pose proof (pow2_pos (- E) ltac:(lia)) as HF.
  pose proof (Z.div_le_mono _ _ (2 ^ (- E)) HF Hle) as Hn1.
  remember (Z.pos P0 / 2 ^ (- E)) as n eqn:Hn.
  destruct (Z_le_gt_dec ((n + 1) * 2 ^ (- E)) (Z.pos P1)) as [HA|HB].
  { assert (N0 <= n + 1) as Hn0.
    { apply Hce0. pose proof (Z.mod_pos_bound (Z.pos P0) (2 ^ (- E)) HF) as Hrem.
      pose proof (Z.div_mod (Z.pos P0) (2 ^ (- E)) ltac:(lia)) as Hdm0.
      rewrite <- Hn in Hdm0. clear - Hrem Hdm0. lia. }
    assert (n + 1 <= Z.pos P1 / 2 ^ (- E)) by (apply Z.div_le_lower_bound; [done|]; clear - HA; lia).
    clear - Hn0 H Hfl1. lia. }
  destruct (Z_le_gt_dec N0 n) as [Hdn|Hup]; [clear - Hdn Hn1 Hfl1; lia|].
  destruct (Z_le_gt_dec (fexp 53 1024 (Z.pos (digits2_pos P0) + E)) E) as [Hex|Hrd].
  { rewrite (Hex0 Hex) in Hup. clear - Hup. lia. }
  pose proof (fexp64 (Z.pos (digits2_pos P0) + E)) as Hg0.
  pose proof (fexp64 (Z.pos (digits2_pos P1) + E)) as Hg1.
  destruct (fexp 53 1024 (Z.pos (digits2_pos P0) + E) - E) as [|k|k] eqn:Ek;
    [clear - Hrd Ek; lia| |clear - Hrd Ek; lia].
  specialize (Hrd0 k eq_refl).
  assert (E + Z.pos k <= -1) as Hgneg by (clear - Hg0 Ek Hdm Hd1; lia).
  pose proof (pow2_pos (Z.pos k) ltac:(lia)) as HT.
  pose proof (pow2_pos (- (E + Z.pos k)) ltac:(lia)) as HS.
  assert (2 ^ (- E) = 2 ^ Z.pos k * 2 ^ (- (E + Z.pos k))) as HFs.
  { rewrite <- pow2_split by lia. f_equal; lia. }
  assert (2 <= 2 ^ (- (E + Z.pos k))) as HS2.
  { change 2 with (2 ^ 1) at 1. apply Z.pow_le_mono_r; lia. }
  pose proof (rne_spec (Z.pos P0) k ltac:(lia)) as ((_ & Hr0hi) & _).
  assert ((n + 1) * 2 ^ (- (E + Z.pos k)) <= B64.rne (Z.pos P0) k) as Hr0big.
  { destruct (Z_le_gt_dec ((n + 1) * 2 ^ (- (E + Z.pos k))) (B64.rne (Z.pos P0) k))
      as [|Hsmall]; [done|].
    assert (B64.rne (Z.pos P0) k / 2 ^ (- (E + Z.pos k)) < n + 1) as Hc.
    { apply Z.div_lt_upper_bound; [done|]. rewrite Z.mul_comm. clear - Hsmall. lia. }
    clear - Hc Hrd0 Hup. lia. }
  pose proof (digits2_pos_bounds P0) as [_ HP0hi].
  (* the two mantissas have the same number of digits *)
  assert (Z.pos (digits2_pos P1) = Z.pos (digits2_pos P0)) as Hdig.
  { destruct (Z_le_gt_dec (Z.pos k) (Z.pos (digits2_pos P0))) as [Hkd|Hkd].
    - assert (2 ^ Z.pos (digits2_pos P0) =
              2 ^ (Z.pos (digits2_pos P0) - Z.pos k) * 2 ^ Z.pos k) as Hsp.
      { rewrite <- pow2_split by lia. f_equal; lia. }
      pose proof (pow2_pos (Z.pos (digits2_pos P0) - Z.pos k) ltac:(lia)) as HD.
      rewrite Hsp in HP0hi. rewrite HFs in Hn, HB.
      destruct (round_up_same_range (Z.pos P0) (Z.pos P1) _ _ _ n _
                  HT HS HD ltac:(lia) Hn ltac:(clear - HB; lia) Hr0big Hr0hi HP0hi)
        as [_ HP1hi].
      rewrite <- Hsp in HP1hi.
      pose proof (digits2_pos_lt P1 (Z.pos (digits2_pos P0)) ltac:(lia) HP1hi) as Hd.
      clear - Hd Hdm. lia.
    - exfalso.
      assert (2 ^ Z.pos (digits2_pos P0) <= 2 ^ Z.pos k) as Hpk
        by (apply Z.pow_le_mono_r; lia).
      assert (Z.pos P0 / 2 ^ Z.pos k = 0) as Hq0 by (apply Z.div_small; lia).
      rewrite Hq0 in Hr0hi.
      assert (0 <= n) as Hn0 by (rewrite Hn; apply Z.div_pos; lia).
      assert (1 * 2 ^ (- (E + Z.pos k)) <= (n + 1) * 2 ^ (- (E + Z.pos k))) as Hm
        by (apply Z.mul_le_mono_nonneg_r; lia).
      clear - Hm Hr0big Hr0hi HS2. lia. }
  rewrite Hdig in Hrd1. specialize (Hrd1 k Ek).
  pose proof (rne_mono (Z.pos P0) (Z.pos P1) k ltac:(lia)) as Hmono.
  rewrite Hrd0, Hrd1. apply Z.div_le_mono; [done|exact Hmono].
Qed.

(** ** Timestamps follow the clock *)

(** The mantissa of a remainder below one second times the mantissa of
    [1e9] has between 53 and [53 - e] binary digits. *)
Lemma product_digits (rp : positive) (e : Z) :
  e < 0 -> Z.pos rp < 2 ^ (- e) ->
  53 <= Z.pos (digits2_pos (rp * B64.m9)) <= 53 - e.
Proof.
  intros He Hrp.
  pose proof (digits2_pos_bounds (rp * B64.m9)) as [_ Hhi].
  pose proof (pow2_pos (- e) ltac:(lia)) as HK.
  assert (Z.pos B64.m9 < 2 ^ 53) as H9hi by done.
  assert (2 ^ 52 <= Z.pos B64.m9) as H9lo by done.
  rewrite Pos2Z.inj_mul in Hhi. split.
  - destruct (Z_le_gt_dec 53 (Z.pos (digits2_pos (rp * B64.m9)))) as [|Hlt]; [done|].
    exfalso.
    assert (2 ^ Z.pos (digits2_pos (rp * B64.m9)) <= 2 ^ 52) as Hp
      by (apply Z.pow_le_mono_r; lia).
    assert (1 * Z.pos B64.m9 <= Z.pos rp * Z.pos B64.m9) as Hm
      by (apply Z.mul_le_mono_nonneg_r; lia).
    clear - Hp Hm Hhi H9lo. lia.
  - apply digits2_pos_lt; [lia|].
    replace (53 - e) with (- e + 53) by lia. rewrite pow2_split by lia.
    rewrite Pos2Z.inj_mul.
    assert (Z.pos rp * Z.pos B64.m9 < 2 ^ (- e) * Z.pos B64.m9) as H1
      by (apply Z.mul_lt_mono_pos_r; lia).
    assert (2 ^ (- e) * Z.pos B64.m9 < 2 ^ (- e) * 2 ^ 53) as H2
      by (apply Z.mul_lt_mono_pos_l; lia).
    clear - H1 H2. lia.
Qed.

(** Scaling a remainder by a power of two, with the exponent lowered to
    match, does not change the nanoseconds computed from it. *)
Lemma nanos_scale (rp Rp : positive) (e j : Z) :
  e < 0 -> 0 <= j -> Z.pos rp < 2 ^ (- e) -> Z.pos Rp = Z.pos rp * 2 ^ j ->
  int_of_float (binary_round_aux 53 1024 false (Z.pos (Rp * B64.m9)) (e - 23 - j) loc_Exact) =
  int_of_float (binary_round_aux 53 1024 false (Z.pos (rp * B64.m9)) (e - 23) loc_Exact).
Proof.
  intros He Hj Hrp HRp.
  pose proof (product_digits rp e He Hrp) as [Hlo Hhi].
  pose proof (fexp64 (Z.pos (digits2_pos (rp * B64.m9)) + (e - 23))) as Hf.
  apply round_trunc_scale; [done| |lia|lia|lia].
  rewrite !Pos2Z.inj_mul, HRp. ring.
Qed.

(** The nanoseconds of a reading with a fractional part, in closed form:
    the remainder [m mod 2^-e] is multiplied by [1e9] with one rounding,
    and the product is truncated. *)
Lemma frac_nanos (m : positive) (e : Z) :
  bounded 53 1024 m e = true -> e < 0 ->
  let fs := binary_normalize 53 1024 (Z.shiftl (Z.pos m) e) 0 false in
  let scaled := SFmul 53 1024 (SFsub 53 1024 (S754_finite false m e) fs)
                  (S754_finite false B64.m9 (-23)) in
  (Z.pos m mod 2 ^ (- e) = 0 -> int_of_float scaled = Ok 0) /\
  (forall rp, Z.pos rp = Z.pos m mod 2 ^ (- e) ->
     int_of_float scaled =
     int_of_float (binary_round_aux 53 1024 false (Z.pos (rp * B64.m9)) (e - 23) loc_Exact)).
Proof.
  intros Hb He fs scaled. subst scaled fs.
  pose proof (bounded_spec m e Hb) as (Hcanon & H971 & Hemin & Hm53).
  pose proof (fexp64 (Z.pos (digits2_pos m) + e)) as Hf.
  pose proof (pow2_pos (- e) ltac:(lia)) as HK.
  rewrite Z.shiftl_div_pow2 by lia.
  pose proof (Z.div_mod (Z.pos m) (2 ^ (- e)) ltac:(lia)) as Hdm.
  pose proof (Z.mod_pos_bound (Z.pos m) (2 ^ (- e)) ltac:(lia)) as Hrem.
  pose proof (Z.div_pos (Z.pos m) (2 ^ (- e)) ltac:(lia) ltac:(lia)) as Hq.
  set (K := 2 ^ (- e)) in *.
  destruct (Z.pos m / K) as [|sp|sp] eqn:Esec; [| |lia].
  - (* below one second: the remainder is the reading itself *)
    cbn [binary_normalize SFsub SFmul xorb].
    rewrite Z.mul_0_r, Z.add_0_l in Hdm. split; [intros Hz; lia|].
    intros rp Hr. rewrite <- Hdm in Hr. injection Hr as ->. done.
  - assert (K <= Z.pos m) as HKm.
    { assert (K * 1 <= K * Z.pos sp) by (apply Z.mul_le_mono_nonneg_l; lia).
      clear - H Hdm Hrem. lia. }
    assert (- e <= 52) as He52.
    { destruct (Z_le_gt_dec (- e) 52); [done|].
      assert (2 ^ 53 <= K) by (apply Z.pow_le_mono_r; lia). lia. }
    assert (Z.pos (digits2_pos m) = 53) as Hdm53 by lia.
    pose proof (digits2_pos_bounds m) as [Hmlo Hmhi]. rewrite Hdm53 in Hmlo, Hmhi.
    assert (Z.pos (digits2_pos sp) = 53 + e) as Hdsp.
    { apply digits2_pos_unique.
      assert (2 ^ (53 - 1) = 2 ^ (53 + e - 1) * K) as Hs1.
      { unfold K. rewrite <- pow2_split by lia. f_equal. lia. }
      assert (2 ^ 53 = 2 ^ (53 + e) * K) as Hs2.
      { unfold K. rewrite <- pow2_split by lia. f_equal. lia. }
      pose proof (pow2_pos (53 + e - 1) ltac:(lia)).
      pose proof (pow2_pos (53 + e) ltac:(lia)).
      rewrite Hs1 in Hmlo. rewrite Hs2 in Hmhi. clear - Hmlo Hmhi Hdm Hrem HK H H0.
      split; nia. }
    pose proof (binary_normalize_exact sp 0) as Hfs. cbv zeta in Hfs.
    rewrite Z.add_0_r, Hdsp, fexp64 in Hfs.
    replace (Z.max (53 + e - 53) (-1074)) with e in Hfs by lia.
    destruct (Hfs ltac:(lia) ltac:(lia)) as (ms & Hms & Hmsv & _). clear Hfs.
    replace (0 - e) with (- e) in Hmsv by lia. fold K in Hmsv.
    rewrite Hms, SFsub_same_exp.
    replace (Z.pos m - Z.pos ms) with (Z.pos m mod K) by (clear - Hmsv Hdm; lia).
    destruct (Z.pos m mod K) as [|rp|rp] eqn:Er; [| |lia].
    + split; [done|]. intros rp Hr. done.
    + split; [done|]. intros rp' Hr. injection Hr as ->.
      pose proof (binary_normalize_exact rp e) as Hfr. cbv zeta in Hfr.
      assert (Z.pos rp < K) as Hrp by lia.
      pose proof (digits2_pos_lt rp (- e) ltac:(lia) Hrp) as Hdrp.
      pose proof (fexp64 (Z.pos (digits2_pos rp) + e)) as Hfe.
      set (fe := fexp 53 1024 (Z.pos (digits2_pos rp) + e)) in *.
      destruct (Hfr ltac:(lia) ltac:(lia)) as (fm & Hfmn & Hfmv & Hfm53). clear Hfr.
      rewrite Hfmn. cbn [SFmul xorb].
      replace (fe + -23) with (e - 23 - (e - fe)) by lia.
      apply nanos_scale; [done|lia|done|done].
Qed.

(** The split of a positive reading, with the nanoseconds in closed form. *)
Lemma end_time_exact (m : positive) (e : Z) :
  bounded 53 1024 m e = true ->
  exists N,
    end_time (S754_finite false m e) = Ok (Z.shiftl (Z.pos m) e, N) /\
    0 <= N /\
    (0 <= e -> N = 0) /\
    (e < 0 -> Z.pos m mod 2 ^ (- e) = 0 -> N = 0) /\
    (e < 0 -> forall rp, Z.pos rp = Z.pos m mod 2 ^ (- e) ->
       int_of_float (binary_round_aux 53 1024 false (Z.pos (rp * B64.m9)) (e - 23) loc_Exact)
         = Ok N).
Proof.
  intros Hb.
  destruct (end_time_core m e Hb) as (fs & N & Hfs & Hinf & HN & HN9 & Hge & _).
  exists N. split; [|split; [lia|split; [intros He; by destruct (Hge He)|]]].
  - unfold end_time. cbn [int_of_float cond_Zopp result_bind].
    unfold float_sub_int. rewrite float_of_int_finite by (unfold B64.of_Z; by rewrite Hfs).
    unfold B64.of_Z. rewrite Hfs.
    cbn [result_bind]. unfold float_mul_int. rewrite float_of_int_1e9.
    cbn [result_bind]. unfold B64.mul, B64.sub. rewrite HN. done.
  - split; intros He; destruct (frac_nanos m e Hb He) as [Hz Hp]; cbv zeta in Hz, Hp;
      rewrite Hfs in Hz, Hp.
    + intros Hr. specialize (Hz Hr). rewrite HN in Hz. by injection Hz.
    + intros rp Hr. by rewrite <- (Hp rp Hr).
Qed.

(** The split of a positive reading over a common negative exponent [c]:
    the reading is [M / 2^-c] with [M = m * 2^(e - c)], the seconds are
    the quotient and the nanoseconds are computed from the remainder. *)
Lemma end_time_common (m : positive) (e c : Z) :
  bounded 53 1024 m e = true -> c <= e -> c < 0 ->
  exists N,
    end_time (S754_finite false m e) =
      Ok (Z.pos m * 2 ^ (e - c) / 2 ^ (- c), N) /\
    0 <= N /\
    ((Z.pos m * 2 ^ (e - c)) mod 2 ^ (- c) = 0 -> N = 0) /\
    (forall Rp, Z.pos Rp = (Z.pos m * 2 ^ (e - c)) mod 2 ^ (- c) ->
       int_of_float (binary_round_aux 53 1024 false (Z.pos (Rp * B64.m9)) (c - 23) loc_Exact)
         = Ok N).
Proof.
  intros Hb Hce Hc.
  destruct (end_time_exact m e Hb) as (N & Het & HN0 & Hge & Hz & Hp).
  exists N. rewrite Het.
  pose proof (pow2_pos (e - c) ltac:(lia)) as HJ.
  pose proof (pow2_pos (- c) ltac:(lia)) as HC.
  destruct (Z_le_gt_dec 0 e) as [He|He].
  - assert (2 ^ (e - c) = 2 ^ e * 2 ^ (- c)) as ->.
    { rewrite <- pow2_split by lia. f_equal; lia. }
    rewrite Z.mul_assoc, Z.div_mul, Z.mod_mul, Z.shiftl_mul_pow2 by lia.
    split; [done|]. split; [done|]. split; [intros _; by apply Hge|].
    intros Rp HRp. lia.
  - pose proof (pow2_pos (- e) ltac:(lia)) as HK.
    assert (2 ^ (- c) = 2 ^ (- e) * 2 ^ (e - c)) as ->.
    { rewrite <- pow2_split by lia. f_equal; lia. }
    rewrite Z.div_mul_cancel_r, Z.mul_mod_distr_r, Z.shiftl_div_pow2 by lia.
    pose proof (Z.mod_pos_bound (Z.pos m) (2 ^ (- e)) HK) as Hrem.
    split; [done|]. split; [done|]. split.
    + intros Hr. apply Hz; [lia|].
      apply Z.mul_eq_0 in Hr as [Hr|Hr]; [done|lia].
    + intros Rp HRp.
      destruct (Z.pos m mod 2 ^ (- e)) as [|rp|rp] eqn:Er; [lia| |lia].
      rewrite <- (Hp ltac:(lia) rp eq_refl).
      replace (c - 23) with (e - 23 - (e - c)) by lia.
      apply nanos_scale; [lia|lia|lia|done].
Qed.

(** A positive double over a smaller negative exponent, as a rational. *)
Lemma to_Q_common (m : positive) (e c : Z) :
  c <= e -> c < 0 ->
  (B64.to_Q (S754_finite false m e) ==
     Qmake (Z.pos m * 2 ^ (e - c)) (Z.to_pos (2 ^ (- c))))%Q.
Proof.
  intros Hce Hc.
  pose proof (pow2_pos (e - c) ltac:(lia)) as HJ.
  destruct (Z.pos m * 2 ^ (e - c)) as [|Mp|Mp] eqn:EM; [lia| |lia].
  rewrite <- (to_Q_scaled Mp m c e Hce (eq_sym EM)).
  cbn [B64.to_Q cond_Zopp]. destruct (Z.leb_spec 0 c); [lia|done].
Qed.

(** The order of two clock readings is the order of their split forms:
    a later reading never gets an earlier (seconds, nanoseconds) pair. *)
Lemma end_time_monotone (t0 t1 : spec_float) :
  B64.nonneg_double t0 = true -> B64.nonneg_double t1 = true ->
  (B64.to_Q t0 <= B64.to_Q t1)%Q ->
  exists s0 n0 s1 n1,
    end_time t0 = Ok (s0, n0) /\ end_time t1 = Ok (s1, n1) /\
    (s0 < s1 \/ (s0 = s1 /\ n0 <= n1)).
Proof.
  intros Hv0 Hv1 Hle.
  destruct t0 as [[]|[]| |[] m0 e0]; try done; destruct t1 as [[]|[]| |[] m1 e1]; try done.
  - exists 0, 0, 0, 0. rewrite end_time_zero. repeat split; try done. right; done.
  - cbn [B64.nonneg_double] in Hv1.
    destruct (end_time_common m1 e1 (Z.min e1 (-1)) Hv1 ltac:(lia) ltac:(lia))
      as (N1 & Het1 & HN1 & _).
    eexists 0, 0, _, N1. rewrite end_time_zero, Het1.
    split; [done|]. split; [done|].
    pose proof (pow2_pos (e1 - Z.min e1 (-1)) ltac:(lia)) as HJ.
    pose proof (pow2_pos (- Z.min e1 (-1)) ltac:(lia)) as HC.
    assert (0 <= Z.pos m1 * 2 ^ (e1 - Z.min e1 (-1)) / 2 ^ (- Z.min e1 (-1)))
      by (apply Z.div_pos; lia).
    lia.
  - exfalso. rewrite (to_Q_common m0 e0 (Z.min e0 (-1))) in Hle by lia.
    pose proof (pow2_pos (e0 - Z.min e0 (-1)) ltac:(lia)) as HJ.
    unfold Qle in Hle. cbn [Qnum Qden B64.to_Q] in Hle. lia.
  - cbn [B64.nonneg_double] in Hv0, Hv1.
    set (c := Z.min (Z.min e0 e1) (-1)).
    assert (c <= e0 /\ c <= e1 /\ c < 0) as (Hc0 & Hc1 & Hc) by (unfold c; lia).
    rewrite (to_Q_common m0 e0 c Hc0 Hc), (to_Q_common m1 e1 c Hc1 Hc) in Hle.
    destruct (end_time_common m0 e0 c Hv0 Hc0 Hc) as (N0 & Het0 & HN0 & Hz0 & Hp0).
    destruct (end_time_common m1 e1 c Hv1 Hc1 Hc) as (N1 & Het1 & HN1 & Hz1 & Hp1).
    eexists _, N0, _, N1. split; [exact Het0|]. split; [exact Het1|].
    pose proof (pow2_pos (- c) ltac:(lia)) as HC.
    pose proof (pow2_pos (e0 - c) ltac:(lia)) as HJ0.
    pose proof (pow2_pos (e1 - c) ltac:(lia)) as HJ1.
    unfold Qle in Hle. cbn [Qnum Qden] in Hle. rewrite Z2Pos.id in Hle by done.
    apply Z.mul_le_mono_pos_r in Hle; [|done].
    clear Het0 Het1.
    set (M0 := Z.pos m0 * 2 ^ (e0 - c)) in *. set (M1 := Z.pos m1 * 2 ^ (e1 - c)) in *.
    pose proof (Z.div_le_mono M0 M1 (2 ^ (- c)) HC Hle) as Hsec.
    destruct (Z_lt_le_dec (M0 / 2 ^ (- c)) (M1 / 2 ^ (- c))) as [Hlt|Hge]; [by left|].
    right. split; [lia|].
    pose proof (Z.div_mod M0 (2 ^ (- c)) ltac:(lia)) as Hdm0.
    pose proof (Z.div_mod M1 (2 ^ (- c)) ltac:(lia)) as Hdm1.
    pose proof (Z.mod_pos_bound M0 (2 ^ (- c)) HC) as Hr0.
    pose proof (Z.mod_pos_bound M1 (2 ^ (- c)) HC) as Hr1.
    assert (M0 / 2 ^ (- c) = M1 / 2 ^ (- c)) as Heq by lia. rewrite Heq in Hdm0.
    assert (M0 mod 2 ^ (- c) <= M1 mod 2 ^ (- c)) as Hrem by (clear - Hdm0 Hdm1 Hle; lia).
    destruct (M0 mod 2 ^ (- c)) as [|R0|R0] eqn:ER0; [rewrite Hz0 by done; lia| |lia].
    destruct (M1 mod 2 ^ (- c)) as [|R1|R1] eqn:ER1; [lia| |lia].
    specialize (Hp0 R0 eq_refl). specialize (Hp1 R1 eq_refl).
    pose proof (product_digits R1 c Hc ltac:(lia)) as [_ Hd1].
    destruct (round_trunc_mono (R0 * B64.m9) (R1 * B64.m9) (c - 23) ltac:(lia) ltac:(lia))
      as (N0' & N1' & HN0' & HN1' & Hmono).
    { rewrite !Pos2Z.inj_mul. apply Z.mul_le_mono_nonneg_r; lia. }
    rewrite Hp0 in HN0'. rewrite Hp1 in HN1'.
    injection HN0' as <-. injection HN1' as <-. done.
Qed.

(** X15. Timestamps follow the clock: when the clock reading of one
    publish is not later than the reading of another, both valid times, the
    point of the first does not get a later timestamp, seconds and
    nanoseconds compared in this order.  Neither the truncation to whole
    seconds nor the rounded multiplication by [10**9] can swap two
    points. *)
Theorem timestamps_follow_the_clock (E : env)
    (project service mtype : string) (labels : gmap string string) (mv : option number)
    (project' service' mtype' : string) (labels' : gmap string string) (mv' : option number)
    (w w' : world) :
  new_client E (tick w) = None -> new_client E (tick w') = None ->
  B64.valid_time (wall_clock E (S (tick w))) = true ->
  B64.valid_time (wall_clock E (S (tick w'))) = true ->
  value_ok mv = true -> value_ok mv' = true ->
  (B64.to_Q (wall_clock E (S (tick w))) <= B64.to_Q (wall_clock E (S (tick w'))))%Q ->
  exists r s p r' s' p',
    outbox (snd (_PublishTSCloudMetric E project service mtype labels mv w)) =
      outbox w ++ [r] /\
    req_time_series r = [s] /\ points s = [p] /\
    outbox (snd (_PublishTSCloudMetric E project' service' mtype' labels' mv' w')) =
      outbox w' ++ [r'] /\
    req_time_series r' = [s'] /\ points s' = [p'] /\
    (end_seconds p < end_seconds p' \/
     (end_seconds p = end_seconds p' /\ end_nanos p <= end_nanos p')).
Proof.
  intros Hc Hc' Hv Hv' Hval Hval' Hle.
  destruct (end_time_monotone _ _ (valid_time_nonneg _ Hv) (valid_time_nonneg _ Hv') Hle)
    as (s0 & n0 & s1 & n1 & Het & Het' & Hord).
  destruct (point_built _ mv Hv Hval) as (s0' & n0' & d & Het0 & _ & Hpt).
  destruct (point_built _ mv' Hv' Hval') as (s1' & n1' & d' & Het1 & _ & Hpt').
  rewrite Het in Het0. injection Het0 as <- <-.
  rewrite Het' in Het1. injection Het1 as <- <-.
  rewrite !publish_paths, Hc, Hc', Hpt, Hpt'. cbv zeta.
  destruct (backend E (S (S (tick w))) _) as [ex|];
    [destruct (exn_is_Exception ex)|];
    (destruct (backend E (S (S (tick w'))) _) as [ex'|];
      [destruct (exn_is_Exception ex')|]);
    cbn [snd outbox]; eexists _, _, _, _, _, _;
    (split; [reflexivity|]); (split; [reflexivity|]); (split; [reflexivity|]);
    (split; [reflexivity|]); (split; [reflexivity|]); (split; [reflexivity|]);
    exact Hord.
Qed.

Lemma timestamps_follow_the_clock_witness :
  let w1 := snd (PublishFrozenJobMetric Sample2.env_ticking "proj1" "job42" "perf"
                   "FROZEN" None Sample.w0) in
  exists r s p r' s' p',
    outbox (snd (_PublishTSCloudMetric Sample2.env_ticking "proj1" "pinpoint"
                   "pinpoint/job/frozen_job" (job_label_dict "job42" "perf" "FROZEN")
                   None Sample.w0)) = outbox Sample.w0 ++ [r] /\
    req_time_series r = [s] /\ points s = [p] /\
    outbox (snd (_PublishTSCloudMetric Sample2.env_ticking "proj1" "pinpoint"
                   "pinpoint/job/run_time" (job_label_dict "job42" "perf" "FROZEN")
                   (Some (PyInt 7)) w1)) = outbox w1 ++ [r'] /\
    req_time_series r' = [s'] /\ points s' = [p'] /\
    (end_seconds p < end_seconds p' \/
     (end_seconds p = end_seconds p' /\ end_nanos p <= end_nanos p')).
Proof.
  intros w1.
  apply (timestamps_follow_the_clock Sample2.env_ticking); try reflexivity.
  unfold Qle. vm_compute. discriminate.
Defined.

(** ** Labels and unusable clock readings *)

(** X16. The metric labels of the series sent are exactly the caller's
    label dictionary, whatever its keys: the loop over the dictionary drops
    nothing and adds nothing.  The resource labels do not depend on the
    dictionary, also when it has a key such as [job] or [project_id]. *)
Theorem metric_labels_are_the_callers (E : env)
    (project service mtype : string) (labels labels' : gmap string string)
    (mv : option number) (w : world) :
  new_client E (tick w) = None ->
  B64.valid_time (wall_clock E (S (tick w))) = true ->
  value_ok mv = true ->
  exists r s r' s',
    outbox (snd (_PublishTSCloudMetric E project service mtype labels mv w)) =
      outbox w ++ [r] /\ req_time_series r = [s] /\
    outbox (snd (_PublishTSCloudMetric E project service mtype labels' mv w)) =
      outbox w ++ [r'] /\ req_time_series r' = [s'] /\
    metric_labels s = labels /\ metric_labels s' = labels' /\
    resource_labels s = resource_labels s' /\
    resource_labels s !! "job" = Some service /\
    resource_labels s !! "project_id" = Some project.
Proof.
  intros Hc Hv Hval.
  destruct (point_built _ mv Hv Hval) as (sec & nanos & d & _ & _ & Hpt).
  rewrite !publish_paths, Hc, Hpt. cbv zeta.
  destruct (backend E (S (S (tick w))) _) as [ex|];
    [destruct (exn_is_Exception ex)|];
    (destruct (backend E (S (S (tick w))) _) as [ex'|];
      [destruct (exn_is_Exception ex')|]);
    cbn [snd outbox]; eexists _, _, _, _;
    (split; [reflexivity|]); (split; [reflexivity|]);
    (split; [reflexivity|]); (split; [reflexivity|]);
    cbn [metric_labels resource_labels]; repeat split; reflexivity.
Qed.

Lemma metric_labels_are_the_callers_witness :
  exists r s r' s',
    outbox (snd (_PublishTSCloudMetric Sample.env_ok "proj1" "pinpoint" "pinpoint/job/run_time"
                   (<["job":="shadowed"]> (job_label_dict "job42" "perf" "FROZEN"))
                   None Sample.w0)) = outbox Sample.w0 ++ [r] /\
    req_time_series r = [s] /\
    outbox (snd (_PublishTSCloudMetric Sample.env_ok "proj1" "pinpoint" "pinpoint/job/run_time"
                   ∅ None Sample.w0)) = outbox Sample.w0 ++ [r'] /\
    req_time_series r' = [s'] /\
    metric_labels s = <["job":="shadowed"]> (job_label_dict "job42" "perf" "FROZEN") /\
    metric_labels s' = ∅ /\
    resource_labels s = resource_labels s' /\
    resource_labels s !! "job" = Some "pinpoint" /\
    resource_labels s !! "project_id" = Some "proj1".
Proof.
  apply (metric_labels_are_the_callers Sample.env_ok); reflexivity.
Defined.

(** X17. A clock reading that [int()] cannot convert stops the publish
    between the construction of the client and the send: [nan] raises
    [ValueError] and an infinity raises [OverflowError].  Both derive from
    [Exception], yet neither is swallowed, because the conversion happens
    before the guarded send; nothing is sent and nothing is logged. *)
Theorem unusable_reading_stops_publish (E : env)
    (project service mtype : string) (labels : gmap string string)
    (mv : option number) (w : world) :
  new_client E (tick w) = None ->
  (wall_clock E (S (tick w)) = S754_nan \/
   exists s, wall_clock E (S (tick w)) = S754_infinity s) ->
  exists e,
    _PublishTSCloudMetric E project service mtype labels mv w =
      (Raise e, {| tick := 2 + tick w; outbox := outbox w; log := log w |}) /\
    exn_is_Exception e = true /\
    e = match wall_clock E (S (tick w)) with
        | S754_nan => ValueError
        | _ => OverflowError
        end.
Proof.
  intros Hc Hnow. rewrite publish_paths, Hc.
  destruct Hnow as [->|[s ->]].
  - exists ValueError. done.
  - exists OverflowError. done.
Qed.

Lemma unusable_reading_stops_publish_witness :
  exists e,
    PublishFrozenJobMetric Sample2.env_clock_nan "proj1" "job42" "perf" "FROZEN" None
      Sample.w0 = (Raise e, {| tick := 2; outbox := []; log := [] |}) /\
    exn_is_Exception e = true /\ e = ValueError.
Proof.
  apply (unusable_reading_stops_publish Sample2.env_clock_nan "proj1" "pinpoint"
           "pinpoint/job/frozen_job" (job_label_dict "job42" "perf" "FROZEN")
           (Some (PyInt 1)) Sample.w0); [reflexivity|left; reflexivity].
Defined.

(** X18. A non-negative reading of [2^63] seconds or more splits without
    error, but the [int64] seconds field of the [Timestamp] cannot hold it:
    the [TimeInterval] constructor raises [ValueError] outside the guarded
    send, so the publish raises it, sends nothing and logs nothing. *)
Theorem reading_beyond_range_stops_publish (E : env)
    (project service mtype : string) (labels : gmap string string)
    (mv : option number) (w : world) :
  new_client E (tick w) = None ->
  B64.nonneg_double (wall_clock E (S (tick w))) = true ->
  B64.valid_time (wall_clock E (S (tick w))) = false ->
  (exists sec nanos, end_time (wall_clock E (S (tick w))) = Ok (sec, nanos) /\
                     2 ^ 63 <= sec) /\
  _PublishTSCloudMetric E project service mtype labels mv w =
    (Raise ValueError, {| tick := 2 + tick w; outbox := outbox w; log := log w |}).
Proof.
  intros Hc Hn Hv.
  destruct (end_time_spec _ Hn) as (sec & nanos & Het & _).
  assert (2 ^ 63 <= sec) as Hsec.
  { destruct (wall_clock E (S (tick w))) as [[]|[]| |[] m e]; try done.
    rewrite (end_time_seconds _ _ _ _ _ Het). cbn [cond_Zopp].
    cbn [B64.nonneg_double] in Hn. cbn [B64.valid_time] in Hv. rewrite Hn in Hv.
    cbn [andb] in Hv. by apply Z.ltb_ge in Hv. }
  split; [by exists sec, nanos|].
  rewrite publish_paths, Hc, Het. cbn [result_bind fst snd].
  unfold TimeInterval_new, in_int64.
  destruct (Z.ltb_spec sec (2 ^ 63)) as [Hlt|_]; [lia|].
  by rewrite andb_false_r.
Qed.

Lemma reading_beyond_range_stops_publish_witness :
  PublishPinpointJobRunTimeMetric Sample.env_far_future "proj1" "job42" "perf" "COMPLETED"
    (PyInt 7) Sample.w0 = (Raise ValueError, {| tick := 2; outbox := []; log := [] |}).
Proof.
  apply (reading_beyond_range_stops_publish Sample.env_far_future "proj1" "pinpoint"
           "pinpoint/job/run_time" (job_label_dict "job42" "perf" "COMPLETED")
           (Some (PyInt 7)) Sample.w0); reflexivity.
Defined.

(** ** The value a point carries *)

(** An int of magnitude below [2^53] converts to a double without
    rounding. *)
Lemma small_int_exact (z : Z) :
  - 2 ^ 53 < z < 2 ^ 53 ->
  exists d, as_double (PyInt z) = Ok d /\ (B64.to_Q d == inject_Z z)%Q.
Proof.
  intros Hz. cbn [as_double]. unfold float_of_int, B64.of_Z.
  assert (forall p : positive, Z.pos p < 2 ^ 53 ->
            exists fm fe, binary_normalize 53 1024 (Z.pos p) 0 false = S754_finite false fm fe /\
              (B64.to_Q (S754_finite false fm fe) == inject_Z (Z.pos p))%Q) as Hpos.
  { intros p Hp.
    pose proof (digits2_pos_lt p 53 ltac:(lia) Hp) as Hd.
    pose proof (fexp64 (Z.pos (digits2_pos p) + 0)) as Hf.
    pose proof (binary_normalize_exact p 0) as Hex. cbv zeta in Hex.
    set (fe := fexp 53 1024 (Z.pos (digits2_pos p) + 0)) in *.
    destruct (Hex ltac:(lia) ltac:(lia)) as (fm & Hn & Hfm & _). clear Hex.
    exists fm, fe. split; [exact Hn|].
    rewrite (to_Q_scaled fm p fe 0 ltac:(lia) Hfm).
    cbn [B64.to_Q cond_Zopp Z.leb Z.compare]. by rewrite Z.mul_1_r. }
  destruct z as [|p|p].
  - exists (S754_zero false). split; reflexivity.
  - destruct (Hpos p ltac:(lia)) as (fm & fe & Hn & Hq).
    exists (S754_finite false fm fe). rewrite Hn. by split.
  - destruct (Hpos p ltac:(lia)) as (fm & fe & Hn & Hq).
    exists (S754_finite true fm fe).
    change (binary_normalize 53 1024 (Z.neg p) 0 false)
      with (binary_round 53 1024 true p 0).
    rewrite binary_round_opp.
    change (binary_round 53 1024 false p 0)
      with (binary_normalize 53 1024 (Z.pos p) 0 false).
    rewrite Hn. split; [reflexivity|].
    rewrite to_Q_opp, Hq. reflexivity.
Qed.

(** X3. The three single-point job metrics carry the caller's value as the
    double it converts to: a float as it is, an int as the nearest double,
    which is the int itself below [2^53], and 1.0 when
    [PublishFrozenJobMetric] or [PublishPinpointJobStatusMetric] is called
    without a value.  An int beyond the double range is not sent at all: the
    [Point] constructor raises [OverflowError] after the clock was read. *)
Theorem job_metric_values (E : env)
    (project job_id job_type job_status : string) (w : world) :
  new_client E (tick w) = None ->
  B64.valid_time (wall_clock E (S (tick w))) = true ->
  (forall mv,
     match as_double (default (PyInt 1) mv) with
     | Ok d => exists r s p,
         outbox (snd (PublishFrozenJobMetric E project job_id job_type job_status mv w)) =
           outbox w ++ [r] /\
         req_time_series r = [s] /\ points s = [p] /\ double_value p = d
     | Raise e =>
         PublishFrozenJobMetric E project job_id job_type job_status mv w =
           (Raise e, {| tick := 2 + tick w; outbox := outbox w; log := log w |})
     end) /\
  (forall mv,
     match as_double (default (PyInt 1) mv) with
     | Ok d => exists r s p,
         outbox (snd (PublishPinpointJobStatusMetric E project job_id job_type job_status
                        mv w)) = outbox w ++ [r] /\
         req_time_series r = [s] /\ points s = [p] /\ double_value p = d
     | Raise e =>
         PublishPinpointJobStatusMetric E project job_id job_type job_status mv w =
           (Raise e, {| tick := 2 + tick w; outbox := outbox w; log := log w |})
     end) /\
  (forall v,
     match as_double v with
     | Ok d => exists r s p,
         outbox (snd (PublishPinpointJobRunTimeMetric E project job_id job_type job_status
                        v w)) = outbox w ++ [r] /\
         req_time_series r = [s] /\ points s = [p] /\ double_value p = d
     | Raise e =>
         PublishPinpointJobRunTimeMetric E project job_id job_type job_status v w =
           (Raise e, {| tick := 2 + tick w; outbox := outbox w; log := log w |})
     end) /\
  as_double (default (PyInt 1) None) = Ok B64.one /\
  (forall f, as_double (PyFloat f) = Ok f) /\
  (forall z, - 2 ^ 53 < z < 2 ^ 53 ->
     exists d, as_double (PyInt z) = Ok d /\ (B64.to_Q d == inject_Z z)%Q) /\
  (forall z e, as_double (PyInt z) = Raise e -> e = OverflowError).
Proof.
  intros Hc Hv. destruct (end_time_valid _ Hv) as (sec & nanos & Het & Hti & _).
  unfold PublishFrozenJobMetric, PublishPinpointJobStatusMetric,
    PublishPinpointJobRunTimeMetric.
  assert (forall mtype v,
    match as_double v with
    | Ok d => exists r s p,
        outbox (snd (_PublishTSCloudMetric E project "pinpoint" mtype
                       (job_label_dict job_id job_type job_status) (Some v) w)) =
          outbox w ++ [r] /\
        req_time_series r = [s] /\ points s = [p] /\ double_value p = d
    | Raise e =>
        _PublishTSCloudMetric E project "pinpoint" mtype
          (job_label_dict job_id job_type job_status) (Some v) w =
          (Raise e, {| tick := 2 + tick w; outbox := outbox w; log := log w |})
    end) as Hone.
  { intros mtype v. rewrite publish_paths, Hc, Het.
    cbn [result_bind fst snd]. rewrite Hti. cbn [result_bind]. unfold Point_new.
    change (default (PyInt 1) (Some v)) with v.
    destruct (as_double v) as [d|e]; cbn [result_bind]; [|reflexivity].
    cbv zeta.
    destruct (backend E (S (S (tick w))) _) as [e|];
      [destruct (exn_is_Exception e)|]; cbn [snd outbox];
      eexists _, _, _; repeat split; reflexivity. }
  split; [intros mv; apply Hone|]. split; [intros mv; apply Hone|].
  split; [intros v; apply Hone|].
  split; [apply as_double_one|]. split; [reflexivity|].
  split; [apply small_int_exact|].
  intros z e. cbn [as_double]. unfold float_of_int.
  destruct (B64.of_Z z); try done. by intros [= <-].
Qed.

Lemma job_metric_values_witness :
  (exists r s p,
     outbox (snd (PublishPinpointJobStatusMetric Sample.env_ok "proj1" "job42" "perf"
                    "RUNNING" None Sample.w0)) = outbox Sample.w0 ++ [r] /\
     req_time_series r = [s] /\ points s = [p] /\
     double_value p = B64.one) /\
  PublishPinpointJobRunTimeMetric Sample.env_ok "proj1" "job42" "perf" "RUNNING"
    (PyInt (2 ^ 1024)) Sample.w0 =
    (Raise OverflowError, {| tick := 2; outbox := []; log := [] |}).
Proof.
  destruct (job_metric_values Sample.env_ok "proj1" "job42" "perf" "RUNNING" Sample.w0
              eq_refl eq_refl) as (_ & H & Hrt & _).
  split; [exact (H None)|exact (Hrt (PyInt (2 ^ 1024)))].
Defined.
